(** * Position ledger, decision engine and KPI aggregation of the trading bot

    Shallow embedding of [tradingbot/data_manager.py], [tradingbot/bots.py],
    [tradingbot/kpis.py] and the daily script [notebooks/btc-fifo-daily.py].

    - Python floats are IEEE binary64 values: Rocq's primitive [float], with
      the same round-to-nearest-even arithmetic and comparisons.
    - The SQLite database is a record of three tables; each table is the
      list of its rows in rowid order, which is the order [SELECT *] yields.
      A row holds the values as they were bound.  A NaN is bound as NULL,
      which the NOT NULL columns refuse with [IntegrityError], and an int
      outside 64 bits is refused with [OverflowError]; both are modelled.
      Two things are not: SQLite keeps a zero without its sign (a bound
      [-0.0] is read back as [0.0]), and a table whose largest rowid is
      [2^63 - 1] gets a random unused rowid for its next row.  Statements
      that depend on either say so in a hypothesis.
    - Python exceptions are values of [exn]; a computation that may raise
      returns a [res], and one that also acts on a state is an [SE].
    - The Binance client, the clock and the functions [log10] and [**]
      are parameters, each of which may raise; [math.floor] is computed.
      The numbers that the client returns as text are given as floats.
    - Attribute lookup on the data manager is by name, as in Python. *)

From Stdlib Require Import ZArith List String Bool Lia Floats Sorted.
Import ListNotations.

#[local] Set Warnings "-inexact-float".

Local Open Scope string_scope.
Local Open Scope Z_scope.
Local Open Scope list_scope.

(** ** Exceptions and results *)

Inductive exn : Type :=
| BinanceAPIException
| TypeError
| KeyError
| IndexError
| AttributeError
| ZeroDivisionError
| ProgrammingError
| IntegrityError
| OverflowError
| ValueError.

Inductive res (A : Type) : Type :=
| Ok (a : A)
| Raise (e : exn).

Arguments Ok {A} a.
Arguments Raise {A} e.

Definition res_bind {A B : Type} (r : res A) (k : A -> res B) : res B :=
  match r with
  | Ok a => k a
  | Raise e => Raise e
  end.

Definition is_ok {A : Type} (r : res A) : bool :=
  match r with
  | Ok _ => true
  | Raise _ => false
  end.

(** ** State and exceptions

    A computation over a state [S] returns a value or raises, and leaves
    a state behind in both cases: writes made before an exception stay. *)

Definition SE (S A : Type) : Type := S -> res A * S.

Definition ret {S A : Type} (a : A) : SE S A := fun s => (Ok a, s).

Definition raise {S A : Type} (e : exn) : SE S A := fun s => (Raise e, s).

Definition bind {S A B : Type} (c : SE S A) (k : A -> SE S B) : SE S B :=
  fun s =>
    match c s with
    | (Ok a, s') => k a s'
    | (Raise e, s') => (Raise e, s')
    end.

Definition exn_eqb (a b : exn) : bool :=
  match a, b with
  | BinanceAPIException, BinanceAPIException
  | TypeError, TypeError
  | KeyError, KeyError
  | IndexError, IndexError
  | AttributeError, AttributeError
  | ZeroDivisionError, ZeroDivisionError
  | ProgrammingError, ProgrammingError
  | IntegrityError, IntegrityError
  | OverflowError, OverflowError
  | ValueError, ValueError => true
  | _, _ => false
  end.

(** [try: body  except e: handler] *)
Definition try_except {S A : Type} (body : SE S A) (e : exn) (handler : SE S A)
    : SE S A :=
  fun s =>
    match body s with
    | (Ok a, s') => (Ok a, s')
    | (Raise e', s') => if exn_eqb e' e then handler s' else (Raise e', s')
    end.

(** [try: body  except Exception: handler] *)
Definition try_except_all {S A : Type} (body : SE S A) (handler : exn -> SE S A)
    : SE S A :=
  fun s =>
    match body s with
    | (Ok a, s') => (Ok a, s')
    | (Raise e, s') => handler e s'
    end.

(** An expression that may raise and touches no state. *)
Definition expr {S A : Type} (r : res A) : SE S A := fun s => (r, s).

(** [xs[i]] as an expression. *)
Definition list_item {S A : Type} (xs : list A) (i : nat) : SE S A :=
  match nth_error xs i with
  | Some x => ret x
  | None => raise IndexError
  end.

(** [for x in xs: body x] *)
Fixpoint for_each {S A : Type} (xs : list A) (body : A -> SE S unit) : SE S unit :=
  match xs with
  | [] => ret tt
  | x :: xs' => bind (body x) (fun _ => for_each xs' body)
  end.

(** A loop that threads a local variable [acc] through its body. *)
Fixpoint for_fold {S A B : Type} (xs : list A) (acc : B) (body : B -> A -> SE S B)
    : SE S B :=
  match xs with
  | [] => ret acc
  | x :: xs' => bind (body acc x) (fun acc' => for_fold xs' acc' body)
  end.

Declare Scope se_scope.
Delimit Scope se_scope with se.
Notation "x <- c ;; k" := (bind c (fun x => k))
  (at level 61, c at next level, right associativity) : se_scope.
Notation "c ;;; k" := (bind c (fun _ => k))
  (at level 61, right associativity) : se_scope.

(** ** Python numerics on binary64 *)

Module PyFloat.

(** The literal [1.01] of the two thresholds. A decimal literal denotes
    the binary64 value nearest to it, here and in Python. *)
Definition margin : float := 1.01%float.

(** [float(n)] for a Python int [n]; exact below [2^53]. *)
Definition of_int (n : Z) : float :=
  match n with
  | Z0 => PrimFloat.zero
  | Zpos p => SF2Prim (binary_normalize prec emax (Zpos p) 0 false)
  | Zneg p => SF2Prim (binary_normalize prec emax (Zneg p) 0 false)
  end.

(** Nearest integer to [num / den], ties to the even one ([den > 0]). *)
Definition div_half_even (num den : Z) : Z :=
  let q := num / den in
  let r := num mod den in
  match Z.compare (2 * r) den with
  | Lt => q
  | Gt => q + 1
  | Eq => if Z.even q then q else q + 1
  end.

(** The built-in [round(x, 2)] on a float: the decimal with two digits
    after the point that is nearest to the exact value of [x] (ties to
    even), then the binary64 value nearest to that decimal. NaN,
    infinities and zeros are returned as they are. *)
Definition round2 (x : float) : float :=
  match Prim2SF x with
  | S754_finite s m e =>
      let n :=
        match e with
        | Zneg k => div_half_even (100 * Zpos m) (Z.pow_pos 2 k)
        | _ => 100 * Zpos m * 2 ^ e
        end in
      match n with
      | Zpos p =>
          SF2Prim (SFdiv prec emax (S754_finite s p 0) (S754_finite false 100 0))
      | _ => if s then PrimFloat.neg_zero else PrimFloat.zero
      end
  | _ => x
  end.

(** [x / y] on floats: a zero divisor raises. *)
Definition truediv (x y : float) : res float :=
  if PrimFloat.eqb y PrimFloat.zero then Raise ZeroDivisionError
  else Ok (PrimFloat.div x y).

(** [math.floor(x)]: the largest int not above [x]. An infinity raises
    OverflowError and a NaN raises ValueError. *)
Definition floor (x : float) : res Z :=
  match Prim2SF x with
  | S754_finite s m e =>
      let v := if s then Zneg m else Zpos m in
      match e with
      | Zneg k => Ok (v / Z.pow_pos 2 k)
      | _ => Ok (v * 2 ^ e)
      end
  | S754_zero _ => Ok 0
  | S754_infinity _ => Raise OverflowError
  | S754_nan => Raise ValueError
  end.

(** [sum(...)] of floats: the running total starts at the int [0] and
    the items are added left to right. *)
Definition sum (xs : list float) : float :=
  fold_left PrimFloat.add xs PrimFloat.zero.

(** [min(xs)] on a non-empty list keeps the first item and replaces it
    by a later one only when that one is strictly smaller. *)
Definition min_from (x : float) (xs : list float) : float :=
  fold_left (fun m y => if PrimFloat.ltb y m then y else m) xs x.

End PyFloat.

(** ** The ledger: [TradingDataManager] *)

Module OpenTbl.
(** A row of table [Open]; [get_open_positions] returns the same five
    fields as a dict. *)
Record row : Type := mk {
  Id : Z;
  BuyDate : string;
  BuyAmountUSD : float;
  AmountBTC : float;
  BuyPrice : float
}.
End OpenTbl.

Module CloseTbl.
(** A row of table [Close]. [Id] is this table's own rowid. *)
Record row : Type := mk {
  Id : Z;
  BuyDate : string;
  SellDate : string;
  BuyAmountUSD : float;
  SellAmountUSD : float;
  AmountBTC : float;
  BuyPrice : float;
  SellPrice : float;
  Profit : float
}.
End CloseTbl.

Module ClosePos.
(** The dict [get_close_positions] builds for a row: no [Id] key. *)
Record dict : Type := mk {
  BuyDate : string;
  SellDate : string;
  BuyAmountUSD : float;
  SellAmountUSD : float;
  AmountBTC : float;
  BuyPrice : float;
  SellPrice : float;
  Profit : float
}.
End ClosePos.

(** Values bound to SQL parameters and stored in the dynamically typed
    columns of table [KPI]. *)
Inductive pyval : Type :=
| PyStr (s : string)
| PyInt (n : Z)
| PyFloat (x : float).

Module KPITbl.
Record row : Type := mk {
  Date : pyval;
  TotalProfit : pyval;
  TotalInvestment : pyval;
  TotalOperations : pyval;
  WinningTrades : pyval;
  LosingTrades : pyval;
  AverageProfitPerTrade : pyval;
  ROI : pyval
}.
End KPITbl.

Record Store : Type := mkStore {
  Open : list OpenTbl.row;
  Close : list CloseTbl.row;
  KPI : list KPITbl.row
}.

(** [_create_tables] on a fresh database file. *)
Definition empty_store : Store := mkStore [] [] [].

(** *** What [sqlite3] binds

    A Python int is bound as a 64-bit integer, and one outside that
    range raises [OverflowError] before the statement runs.  A float
    NaN is bound as NULL; every float column of [Open] and [Close] is
    declared NOT NULL, so the INSERT then fails with [IntegrityError]
    and writes nothing.  Every other float is stored as it is, except
    [-0.0], which a REAL column keeps as the integer [0] and gives back
    as [0.0]: the rows below hold the float that was bound, which is
    equal ([==]) to the one stored, and the same float whenever it is
    [stored_as_given]. *)
Definition int64 (n : Z) : bool := (- 2 ^ 63 <=? n) && (n <? 2 ^ 63).

Definition not_null (xs : list float) : bool :=
  forallb (fun x => negb (PrimFloat.is_nan x)) xs.

(** The largest rowid of SQLite. *)
Definition max_rowid : Z := 2 ^ 63 - 1.

(** The rowid SQLite gives to a row inserted without one into a table
    declared [Id INTEGER PRIMARY KEY] (no AUTOINCREMENT): one more than
    the largest rowid now in the table, [1] when the table is empty.
    This is the rule for a table whose rowids lie between [1] and
    [max_rowid - 1], as they do in a table filled by this program; once
    [max_rowid] itself is in use SQLite tries unused rowids at random. *)
Definition next_rowid (ids : list Z) : Z := 1 + fold_right Z.max 0 ids.

Definition open_ids (s : Store) : list Z := map OpenTbl.Id (Open s).
Definition close_ids (s : Store) : list Z := map CloseTbl.Id (Close s).

(** [SELECT * FROM Open WHERE Id = ?] followed by [fetchone()], for an
    [id] that can be bound ([int64]). *)
Definition select_open (id : Z) (s : Store) : option OpenTbl.row :=
  find (fun r => OpenTbl.Id r =? id) (Open s).

(** *** Statements on the connection

    [sqlite3] opens a transaction before the first INSERT or DELETE and
    keeps the writes private to the connection until [commit()].
    [durable] is the database file, which is what any other connection
    reads (the KPI aggregator opens its own); [view] is the file as this
    connection sees it, with its uncommitted writes. *)

Record Conn : Type := mkConn {
  durable : Store;
  view : Store
}.

Definition connect (s : Store) : Conn := mkConn s s.

Inductive stmt : Type :=
| InsertOpen (buy_date : string) (buy_amount_usd amount_btc buy_price : float)
| InsertClose (buy_date sell_date : string)
    (buy_amount_usd sell_amount_usd amount_btc buy_price sell_price profit : float)
| DeleteOpen (id : Z)
| Commit.

(** [DELETE FROM Open WHERE Id = ?]. *)
Definition delete_open (id : Z) (rows : list OpenTbl.row) : list OpenTbl.row :=
  filter (fun r => negb (OpenTbl.Id r =? id)) rows.

(** The effect of a statement on the tables, or the exception it
    raises; a statement that raises writes nothing. *)
Definition apply_stmt (st : stmt) (s : Store) : res Store :=
  match st with
  | InsertOpen buy_date buy_amount_usd amount_btc buy_price =>
      if not_null [buy_amount_usd; amount_btc; buy_price]
      then
        Ok (mkStore
              (Open s ++ [OpenTbl.mk (next_rowid (open_ids s)) buy_date buy_amount_usd
                            amount_btc buy_price])
              (Close s) (KPI s))
      else Raise IntegrityError
  | InsertClose buy_date sell_date buy_amount_usd sell_amount_usd amount_btc
      buy_price sell_price profit =>
      if not_null [buy_amount_usd; sell_amount_usd; amount_btc; buy_price;
                   sell_price; profit]
      then
        Ok (mkStore
              (Open s)
              (Close s ++ [CloseTbl.mk (next_rowid (close_ids s)) buy_date sell_date
                             buy_amount_usd sell_amount_usd amount_btc buy_price
                             sell_price profit])
              (KPI s))
      else Raise IntegrityError
  | DeleteOpen id =>
      if int64 id
      then Ok (mkStore (delete_open id (Open s)) (Close s) (KPI s))
      else Raise OverflowError
  | Commit => Ok s
  end.

(** [conn.execute(st)] and [conn.commit()]. *)
Definition execute (st : stmt) : SE Conn unit :=
  fun c =>
    match st with
    | Commit => (Ok tt, mkConn (view c) (view c))
    | _ =>
        match apply_stmt st (view c) with
        | Ok v => (Ok tt, mkConn (durable c) v)
        | Raise e => (Raise e, c)
        end
    end.

(** Statements one after the other, up to the first that raises. *)
Definition run (stmts : list stmt) : SE Conn unit := for_each stmts execute.

(** The statements [record_buy] issues; [now] is the string
    [datetime.now().strftime(...)]. *)
Definition record_buy_stmts (now : string) (buy_amount_usd amount_btc buy_price : float)
    : list stmt :=
  [InsertOpen now buy_amount_usd amount_btc buy_price; Commit].

(** The statements [record_sell] issues after its SELECT: none at all,
    not even the commit, when no row was fetched. *)
Definition record_sell_stmts (now : string) (id : Z) (sell_amount_usd sell_price : float)
    (c : Conn) : list stmt :=
  match select_open id (view c) with
  | Some transaction =>
      let buy_date := OpenTbl.BuyDate transaction in
      let buy_amount_usd := OpenTbl.BuyAmountUSD transaction in
      let amount_btc := OpenTbl.AmountBTC transaction in
      let buy_price := OpenTbl.BuyPrice transaction in
      let sell_date := now in
      let profit := PrimFloat.sub sell_amount_usd buy_amount_usd in
      [InsertClose buy_date sell_date buy_amount_usd sell_amount_usd amount_btc
         buy_price sell_price profit;
       DeleteOpen id;
       Commit]
  | None => []
  end.

(** The two recording methods on the database file, for a connection
    that enters the call with nothing uncommitted: the result of the
    call, and the file after it. *)
Definition record_buy (now : string) (buy_amount_usd amount_btc buy_price : float)
    : SE Store unit :=
  fun s =>
    let (r, c) :=
      run (record_buy_stmts now buy_amount_usd amount_btc buy_price) (connect s) in
    (r, durable c).

(** The SELECT of [record_sell] binds [id] first. *)
Definition record_sell (now : string) (id : Z) (sell_amount_usd sell_price : float)
    : SE Store unit :=
  fun s =>
    if int64 id
    then
      let (r, c) :=
        run (record_sell_stmts now id sell_amount_usd sell_price (connect s))
          (connect s) in
      (r, durable c)
    else (Raise OverflowError, s).

Definition get_open_positions (s : Store) : list OpenTbl.row := Open s.

Definition get_close_positions (s : Store) : list ClosePos.dict :=
  map (fun position =>
         ClosePos.mk
           (CloseTbl.BuyDate position)
           (CloseTbl.SellDate position)
           (CloseTbl.BuyAmountUSD position)
           (CloseTbl.SellAmountUSD position)
           (CloseTbl.AmountBTC position)
           (CloseTbl.BuyPrice position)
           (CloseTbl.SellPrice position)
           (PyFloat.round2 (CloseTbl.Profit position)))
      (Close s).

(** Python dicts with string keys, in insertion order. *)
Definition pydict (V : Type) : Type := list (string * V).

Fixpoint dict_get {V : Type} (k : string) (d : pydict V) : option V :=
  match d with
  | [] => None
  | (k', v) :: d' => if String.eqb k' k then Some v else dict_get k d'
  end.

(** [d[k] = v]: replaces the value of a key that is present, appends a
    new key otherwise. *)
Fixpoint dict_set {V : Type} (k : string) (v : V) (d : pydict V) : pydict V :=
  match d with
  | [] => [(k, v)]
  | (k', v') :: d' =>
      if String.eqb k' k then (k', v) :: d' else (k', v') :: dict_set k v d'
  end.

(** [d[k]] as an expression. *)
Definition dict_item {V : Type} (k : string) (d : pydict V) : res V :=
  match dict_get k d with
  | Some v => Ok v
  | None => Raise KeyError
  end.

Definition pyval_eqb (a b : pyval) : bool :=
  match a, b with
  | PyStr x, PyStr y => String.eqb x y
  | PyInt x, PyInt y => Z.eqb x y
  | PyFloat x, PyFloat y => PrimFloat.eqb x y
  | _, _ => false
  end.

(** Binding of a named SQL parameter [:name] from the dict passed to
    [execute]: sqlite3 raises [ProgrammingError] when the dict has no
    such key. *)
Definition bind_param (name : string) (params : pydict pyval) : res pyval :=
  match dict_get name params with
  | Some v => Ok v
  | None => Raise ProgrammingError
  end.

(** [insert_kpis]: the eight named parameters of the INSERT are bound
    from [kpis]; column [Date] is the primary key of table [KPI]. The
    row holds the values as they are bound and the key is compared on
    them: this is what SQLite stores for a value of its column's type
    ([kept_as_bound] below). A value of another type is converted by
    the column's affinity (an int in a REAL column becomes a float, a
    NaN is stored as NULL), which the row of this model does not
    show. *)
Definition insert_kpis (kpis : pydict pyval) (s : Store) : res Store :=
  res_bind (bind_param "Date" kpis) (fun date =>
  res_bind (bind_param "TotalProfit" kpis) (fun total_profit =>
  res_bind (bind_param "TotalInvestment" kpis) (fun total_investment =>
  res_bind (bind_param "TotalOperations" kpis) (fun total_operations =>
  res_bind (bind_param "WinningTrades" kpis) (fun winning_trades =>
  res_bind (bind_param "LosingTrades" kpis) (fun losing_trades =>
  res_bind (bind_param "AverageProfitPerTrade" kpis) (fun average =>
  res_bind (bind_param "ROI" kpis) (fun roi =>
  if existsb (fun r => pyval_eqb (KPITbl.Date r) date) (KPI s)
  then Raise IntegrityError
  else Ok (mkStore (Open s) (Close s)
             (KPI s ++ [KPITbl.mk date total_profit total_investment
                          total_operations winning_trades losing_trades
                          average roi]))
  )))))))).

(** ** Attribute lookup on the data manager

    [kpis.py] reaches the ledger only through attributes of
    [self.data_manager], looked up by name when the call is made. A
    class is the dict of the methods it defines. *)

Inductive attr : Type :=
| OpenListing (f : Store -> list OpenTbl.row)
| CloseListing (f : Store -> list ClosePos.dict)
| KpiInsert (f : pydict pyval -> Store -> res Store)
| OtherMethod.

Definition pyclass : Type := pydict attr.

(** The methods [class TradingDataManager] defines, in source order. *)
Definition TradingDataManager : pyclass :=
  [("__init__", OtherMethod);
   ("_create_tables", OtherMethod);
   ("record_buy", OtherMethod);
   ("record_sell", OtherMethod);
   ("close", OtherMethod);
   ("get_open_positions", OpenListing get_open_positions);
   ("get_close_positions", CloseListing get_close_positions);
   ("insert_kpis", KpiInsert insert_kpis);
   ("get_kpis", OtherMethod)].

Definition getattr (cls : pyclass) (name : string) : res attr :=
  match dict_get name cls with
  | Some a => Ok a
  | None => Raise AttributeError
  end.

Definition call_open_listing (cls : pyclass) (name : string) (s : Store)
    : res (list OpenTbl.row) :=
  res_bind (getattr cls name) (fun a =>
  match a with
  | OpenListing f => Ok (f s)
  | _ => Raise TypeError
  end).

Definition call_close_listing (cls : pyclass) (name : string) (s : Store)
    : res (list ClosePos.dict) :=
  res_bind (getattr cls name) (fun a =>
  match a with
  | CloseListing f => Ok (f s)
  | _ => Raise TypeError
  end).

Definition call_kpi_insert (cls : pyclass) (name : string) (kpis : pydict pyval)
    (s : Store) : res Store :=
  res_bind (getattr cls name) (fun a =>
  match a with
  | KpiInsert f => f kpis s
  | _ => Raise TypeError
  end).

(** ** Python arithmetic on ints and floats, as [kpis.py] uses it *)

Module Py.

Definition to_float (v : pyval) : res float :=
  match v with
  | PyInt n => Ok (PyFloat.of_int n)
  | PyFloat x => Ok x
  | PyStr _ => Raise TypeError
  end.

(** [sum(xs)] over floats: the int [0] when there is no item. *)
Definition sum (xs : list float) : pyval :=
  match xs with
  | [] => PyInt 0
  | _ :: _ => PyFloat (PyFloat.sum xs)
  end.

(** [v > 0] *)
Definition gt0 (v : pyval) : res bool :=
  match v with
  | PyInt n => Ok (0 <? n)
  | PyFloat x => Ok (PrimFloat.ltb PrimFloat.zero x)
  | PyStr _ => Raise TypeError
  end.

(** [v == 0] *)
Definition eq0 (v : pyval) : bool :=
  match v with
  | PyInt n => n =? 0
  | PyFloat x => PrimFloat.eqb x PrimFloat.zero
  | PyStr _ => false
  end.

(** [a / b]: true division; of two ints below [2^53] it is the float
    quotient of their conversions. *)
Definition truediv (a b : pyval) : res pyval :=
  res_bind (to_float a) (fun x =>
  res_bind (to_float b) (fun y =>
  res_bind (PyFloat.truediv x y) (fun q => Ok (PyFloat q)))).

(** [a * b] with at least one float operand, or two ints. *)
Definition mul (a b : pyval) : res pyval :=
  match a, b with
  | PyInt m, PyInt n => Ok (PyInt (m * n))
  | _, _ =>
      res_bind (to_float a) (fun x =>
      res_bind (to_float b) (fun y => Ok (PyFloat (PrimFloat.mul x y))))
  end.

(** [a - b] *)
Definition sub (a b : pyval) : res pyval :=
  match a, b with
  | PyInt m, PyInt n => Ok (PyInt (m - n))
  | _, _ =>
      res_bind (to_float a) (fun x =>
      res_bind (to_float b) (fun y => Ok (PyFloat (PrimFloat.sub x y))))
  end.

End Py.

(** ** The KPI aggregator: [TradingBotKPIs]

    [dm] is the class of [self.data_manager] and [s] the database it is
    connected to. *)

Module KPIs.

Notation "x <- c ;; k" := (res_bind c (fun x => k))
  (at level 61, c at next level, right associativity).

Definition count {A : Type} (p : A -> bool) (xs : list A) : Z :=
  Z.of_nat (List.length (filter p xs)).

Definition calculate_total_return (dm : pyclass) (s : Store) : res pyval :=
  closed_positions <- call_close_listing dm "get_closed_positions" s ;;
  let total_invested := Py.sum (map ClosePos.BuyAmountUSD closed_positions) in
  let total_returned := Py.sum (map ClosePos.SellAmountUSD closed_positions) in
  if Py.eq0 total_invested then Ok (PyInt 0)
  else
    d <- Py.sub total_returned total_invested ;;
    q <- Py.truediv d total_invested ;;
    Py.mul q (PyInt 100).

Definition calculate_win_rate (dm : pyclass) (s : Store) : res pyval :=
  closed_positions <- call_close_listing dm "get_closed_positions" s ;;
  let wins := count (fun pos => PrimFloat.ltb PrimFloat.zero (ClosePos.Profit pos))
                closed_positions in
  let total := Z.of_nat (List.length closed_positions) in
  if total =? 0 then Ok (PyInt 0)
  else
    q <- Py.truediv (PyInt wins) (PyInt total) ;;
    Py.mul q (PyInt 100).

Definition calculate_max_drawdown : pyval := PyFloat (-10.0)%float.

(** The loop body starts by evaluating [self.client], an attribute
    [TradingBotKPIs.__init__] never sets, so the first open position
    raises; with no open position the two zeros are returned. *)
Definition calculate_unrealized_losses (dm : pyclass) (s : Store)
    : res (pyval * pyval) :=
  open_positions <- call_open_listing dm "get_open_positions" s ;;
  let total_unrealized_losses := PyInt 0 in
  let losing_positions_count := PyInt 0 in
  match open_positions with
  | [] => Ok (total_unrealized_losses, losing_positions_count)
  | position :: _ => Raise AttributeError
  end.

Definition get_total_profit (dm : pyclass) (s : Store) : res pyval :=
  closed_positions <- call_close_listing dm "get_closed_positions" s ;;
  let total_profit := Py.sum (map ClosePos.Profit closed_positions) in
  Ok total_profit.

Definition get_total_investment (dm : pyclass) (s : Store) : res pyval :=
  closed_positions <- call_close_listing dm "get_closed_positions" s ;;
  let total_investment := Py.sum (map ClosePos.BuyAmountUSD closed_positions) in
  Ok total_investment.

Definition get_total_operations (dm : pyclass) (s : Store) : res Z :=
  closed_positions <- call_close_listing dm "get_closed_positions" s ;;
  Ok (Z.of_nat (List.length closed_positions)).

Definition get_winning_trades (dm : pyclass) (s : Store) : res Z :=
  closed_positions <- call_close_listing dm "get_closed_positions" s ;;
  let winning_trades :=
    count (fun pos => PrimFloat.ltb PrimFloat.zero (ClosePos.Profit pos))
      closed_positions in
  Ok winning_trades.

Definition get_losing_trades (dm : pyclass) (s : Store) : res Z :=
  closed_positions <- call_close_listing dm "get_closed_positions" s ;;
  let losing_trades :=
    count (fun pos => PrimFloat.leb (ClosePos.Profit pos) PrimFloat.zero)
      closed_positions in
  Ok losing_trades.

Definition get_average_profit_per_trade (dm : pyclass) (s : Store) : res pyval :=
  total_profit <- get_total_profit dm s ;;
  total_operations <- get_total_operations dm s ;;
  if 0 <? total_operations
  then Py.truediv total_profit (PyInt total_operations)
  else Ok (PyInt 0).

Definition get_roi_percentage (dm : pyclass) (s : Store) : res pyval :=
  total_profit <- get_total_profit dm s ;;
  total_investment <- get_total_investment dm s ;;
  positive <- Py.gt0 total_investment ;;
  if positive
  then q <- Py.truediv total_profit total_investment ;; Py.mul q (PyInt 100)
  else Ok (PyInt 0).

(** [get_performance_metrics]: the dict literal is evaluated entry by
    entry, then handed to [insert_kpis]. The result is the dict and
    the database after the insert. *)
Definition get_performance_metrics (dm : pyclass) (now : string) (s : Store)
    : res (pydict pyval * Store) :=
  total_profit_usd <- get_total_profit dm s ;;
  total_investment_usd <- get_total_investment dm s ;;
  total_operations <- get_total_operations dm s ;;
  winning_trades <- get_winning_trades dm s ;;
  losing_trades <- get_losing_trades dm s ;;
  average_profit_per_trade_usd <- get_average_profit_per_trade dm s ;;
  roi_percentage <- get_roi_percentage dm s ;;
  unralized_losses <- calculate_unrealized_losses dm s ;;
  losing_positions_count <- calculate_unrealized_losses dm s ;;
  win_rate <- calculate_win_rate dm s ;;
  total_return <- calculate_total_return dm s ;;
  let kpis :=
    [("date", PyStr now);
     ("total_profit_usd", total_profit_usd);
     ("total_investment_usd", total_investment_usd);
     ("total_operations", PyInt total_operations);
     ("winning_trades", PyInt winning_trades);
     ("losing_trades", PyInt losing_trades);
     ("average_profit_per_trade_usd", average_profit_per_trade_usd);
     ("roi_percentage", roi_percentage);
     ("unralized_losses", fst unralized_losses);
     ("losing_positions_count", snd losing_positions_count);
     ("calculate_win_rate", win_rate);
     ("calculate_total_return", total_return)] in
  s' <- call_kpi_insert dm "insert_kpis" kpis s ;;
  Ok (kpis, s').

End KPIs.

(** ** The exchange and the bots *)

Record fill : Type := mkFill {
  qty : float;
  price : float
}.

(** The response of a market order; such a dict is never empty. *)
Record Order : Type := mkOrder {
  fills : list fill
}.

(** The Binance client and the clock, over the state [X] of everything
    outside the process. Text fields of the responses ([price],
    [stepSize], [free], candle fields, [qty]) are given as the floats
    they denote. *)
Record Client (X : Type) : Type := mkClient {
  get_historical_klines : string -> SE X (list (list float));
  get_symbol_ticker : string -> SE X float;
  (** [get_symbol_info] reduced to the [stepSize] of its LOT_SIZE filter *)
  get_symbol_info : string -> SE X float;
  (** [get_account()["balances"]] as pairs of [asset] and [free] *)
  get_account : SE X (list (string * float));
  order_market_buy : string -> float -> SE X Order;
  order_market_sell : string -> float -> SE X Order;
  create_test_order : string -> bool -> float -> SE X unit;
  datetime_now : X -> string
}.

Arguments get_historical_klines {X} _ _ _.
Arguments get_symbol_ticker {X} _ _ _.
Arguments get_symbol_info {X} _ _ _.
Arguments get_account {X} _ _.
Arguments order_market_buy {X} _ _ _ _.
Arguments order_market_sell {X} _ _ _ _.
Arguments create_test_order {X} _ _ _ _ _.
Arguments datetime_now {X} _ _.

(** The two numeric functions of [execute_order] that are not computed
    here: [math.log10], which raises ValueError on a step size that is
    not positive, and [10 ** decimals] as [pow 10 decimals], which
    raises OverflowError when the power is out of range. *)
Record Math : Type := mkMath {
  log10 : float -> res float;
  pow : float -> float -> res float
}.

(** A call of [self.execute_order] made by the trading bot, with its
    outcome. *)
Record Call : Type := mkCall {
  call_symbol : string;
  call_amount : float;
  call_is_buy : bool;
  call_is_amount_in_usd : bool;
  (** whether the call returned something true in [if order:] *)
  call_returned : bool
}.

(** What a trading cycle acts on: the ledger, the outside, and the
    calls of [self.execute_order] made so far. *)
Record World (X : Type) : Type := mkWorld {
  db : Store;
  env : X;
  calls : list Call
}.

Arguments mkWorld {X} _ _ _.
Arguments db {X} _.
Arguments env {X} _.
Arguments calls {X} _.

Section Bots.

Context {X : Type}.
Variable client : Client X.
Variable math : Math.

Local Open Scope se_scope.

(** *** [BinanceBot] *)

(** [math.floor(value * factor) / factor]: the int that [floor]
    returns is the value of a float, so its conversion for the division
    is exact. *)
Definition round_down (value decimals : float) : res float :=
  res_bind (pow math 10%float decimals) (fun factor =>
  res_bind (PyFloat.floor (PrimFloat.mul value factor)) (fun n =>
  PyFloat.truediv (PyFloat.of_int n) factor)).

(** [self.round_down(amount, -math.log10(step_size))] *)
Definition lot_quantity (amount step_size : float) : res float :=
  res_bind (log10 math step_size) (fun l => round_down amount (PrimFloat.opp l)).

Definition execute_order (symbol : string) (amount : float)
    (is_buy is_amount_in_usd : bool) : SE X (option Order) :=
  try_except
    (amount <- (if is_amount_in_usd
                then price <- get_symbol_ticker client symbol ;;
                     expr (PyFloat.truediv amount price)
                else ret amount) ;;
     step_size <- get_symbol_info client symbol ;;
     amount <- expr (lot_quantity amount step_size) ;;
     let order_func :=
       if is_buy then order_market_buy client else order_market_sell client in
     order <- order_func symbol amount ;;
     ret (Some order))
    BinanceAPIException
    (ret None).

Definition get_current_price (symbol : string) : SE X float :=
  get_symbol_ticker client symbol.

Definition get_account_balances : SE X (pydict (float * float)) :=
  try_except
    (account_info <- get_account client ;;
     let balances :=
       fold_left
         (fun d balance =>
            if PrimFloat.ltb PrimFloat.zero (snd balance)
            then dict_set (fst balance) (snd balance) d
            else d)
         account_info [] in
     for_fold balances []
       (fun balances_in_usd item =>
          let asset := fst item in
          let balance := snd item in
          if negb (String.eqb asset "USDT")
          then
            let symbol := String.append asset "USDT" in
            try_except
              (price <- get_symbol_ticker client symbol ;;
               if PrimFloat.ltb 10%float (PrimFloat.mul price balance)
               then ret (dict_set asset (balance, PrimFloat.mul price balance)
                           balances_in_usd)
               else ret balances_in_usd)
              BinanceAPIException
              (ret balances_in_usd)
          else ret (dict_set "USD" (balance, balance) balances_in_usd)))
    BinanceAPIException
    (ret []).

(** *** [PriceTrendTradingBotTest.execute_order]

    The price query is outside its [try]; [create_test_order] answers
    with an empty dict and the handler returns one too, and an empty
    dict is false in [if order:], like [None]. *)
Definition execute_order_test (symbol : string) (amount : float)
    (is_buy is_amount_in_usd : bool) : SE X (option Order) :=
  quantity <- (if is_amount_in_usd
               then price <- get_symbol_ticker client symbol ;;
                    expr (PyFloat.truediv amount price)
               else ret amount) ;;
  try_except
    (create_test_order client symbol is_buy quantity ;;; ret None)
    BinanceAPIException
    (ret None).

(** *** [PriceTrendTradingBot]

    [self_execute_order] is the method [self.execute_order] resolves
    to: [execute_order] for the bot itself, [execute_order_test] for
    its test subclass. *)

Variable self_execute_order : string -> float -> bool -> bool -> SE X (option Order).
Variable invest_amount_usd : float.

Definition lift_env {A : Type} (c : SE X A) : SE (World X) A :=
  fun w =>
    let (r, x') := c (env w) in
    (r, mkWorld (db w) x' (calls w)).

Definition call_execute_order (symbol : string) (amount : float)
    (is_buy is_amount_in_usd : bool) : SE (World X) (option Order) :=
  fun w =>
    let (r, x') := self_execute_order symbol amount is_buy is_amount_in_usd (env w) in
    let returned := match r with Ok (Some _) => true | _ => false end in
  (r, mkWorld (db w) x'
        (calls w ++ [mkCall symbol amount is_buy is_amount_in_usd returned])).

Definition data_manager_get_open_positions : SE (World X) (list OpenTbl.row) :=
  fun w => (Ok (get_open_positions (db w)), w).

Definition data_manager_record_buy (buy_amount_usd amount_btc buy_price : float)
    : SE (World X) unit :=
  fun w =>
    let (r, s') :=
      record_buy (datetime_now client (env w)) buy_amount_usd amount_btc buy_price
        (db w) in
    (r, mkWorld s' (env w) (calls w)).

Definition data_manager_record_sell (id : Z) (sell_amount_usd sell_price : float)
    : SE (World X) unit :=
  fun w =>
    let (r, s') :=
      record_sell (datetime_now client (env w)) id sell_amount_usd sell_price (db w) in
    (r, mkWorld s' (env w) (calls w)).

(** Every dict of [get_open_positions] has the key ["BuyPrice"], so
    the comprehension keeps every position. *)
Definition _get_minimum_buy_price (positions : list OpenTbl.row) : option float :=
  match positions with
  | [] => None
  | _ :: _ =>
      let buy_prices := map OpenTbl.BuyPrice positions in
      match buy_prices with
      | p :: ps => Some (PyFloat.min_from p ps)
      | [] => None
      end
  end.

(** [x < y] where [y] may be [None]: ordering a float against [None]
    raises [TypeError]. *)
Definition lt_maybe_none {S : Type} (x : float) (y : option float) : SE S bool :=
  match y with
  | Some y => ret (PrimFloat.ltb x y)
  | None => raise TypeError
  end.

Definition compare_and_buy (symbol : string) : SE (World X) unit :=
  positions <- data_manager_get_open_positions ;;
  let min_buy_price := _get_minimum_buy_price positions in
  prices <- lift_env (get_historical_klines client symbol) ;;
  candle0 <- list_item prices 0 ;;
  price_yesterday <- list_item candle0 4 ;;
  candle1 <- list_item prices 1 ;;
  price_today <- list_item candle1 4 ;;
  if PrimFloat.ltb (PrimFloat.mul price_today PyFloat.margin) price_yesterday
  then
    cheaper <- lt_maybe_none (PrimFloat.mul price_today PyFloat.margin) min_buy_price ;;
    if (cheaper : bool)
    then
      balances <- lift_env get_account_balances ;;
      usd <- expr (dict_item "USD" balances) ;;
      if PrimFloat.ltb invest_amount_usd (snd usd)
      then
        order <- call_execute_order symbol invest_amount_usd true true ;;
        match order with
        | Some order =>
            fill_qty <- list_item (fills order) 0 ;;
            fill_price <- list_item (fills order) 0 ;;
            data_manager_record_buy invest_amount_usd (qty fill_qty) (price fill_price)
        | None => ret tt
        end
      else ret tt
    else ret tt
  else ret tt.

(** The body of the [for] loop of [check_and_close_positions]. *)
Definition close_if_profitable (symbol : string) (current_price : float)
    (position : OpenTbl.row) : SE (World X) unit :=
  if PrimFloat.ltb (PrimFloat.mul (OpenTbl.BuyPrice position) PyFloat.margin)
       current_price
  then
    let amount_to_sell := OpenTbl.AmountBTC position in
    order <- call_execute_order symbol amount_to_sell false false ;;
    match order with
    | Some order =>
        data_manager_record_sell (OpenTbl.Id position)
          (PrimFloat.mul amount_to_sell current_price) current_price
    | None => ret tt
    end
  else ret tt.

Definition check_and_close_positions (symbol : string) : SE (World X) unit :=
  open_positions <- data_manager_get_open_positions ;;
  current_price <- lift_env (get_symbol_ticker client symbol) ;;
  for_each open_positions (close_if_profitable symbol current_price).

(** The daily script: both evaluations inside one [try], any
    exception printed. The result tells whether one was caught. *)
Definition daily_cycle (symbol : string) : SE (World X) (option exn) :=
  try_except_all
    (compare_and_buy symbol ;;;
     check_and_close_positions symbol ;;;
     ret None)
    (fun e => ret (Some e)).

End Bots.

(** ** Sequences of ledger operations *)

Inductive op : Type :=
| Buy (now : string) (buy_amount_usd amount_btc buy_price : float)
| Sell (now : string) (id : Z) (sell_amount_usd sell_price : float).

(** The database file after a call, whether it returned or raised. *)
Definition apply_op (s : Store) (o : op) : Store :=
  match o with
  | Buy now buy_amount_usd amount_btc buy_price =>
      snd (record_buy now buy_amount_usd amount_btc buy_price s)
  | Sell now id sell_amount_usd sell_price =>
      snd (record_sell now id sell_amount_usd sell_price s)
  end.

Definition run_ops (ops : list op) (s : Store) : Store := fold_left apply_op ops s.

(** A buy that [record_buy] records: it is refused when one of its
    values is a NaN. *)
Definition is_recorded_buy (o : op) : bool :=
  match o with
  | Buy _ buy_amount_usd amount_btc buy_price =>
      not_null [buy_amount_usd; amount_btc; buy_price]
  | Sell _ _ _ _ => false
  end.

(** The ids that a [record_sell] of the sequence found open and closed,
    in order. *)
Fixpoint closed_position_ids (ops : list op) (s : Store) : list Z :=
  match ops with
  | [] => []
  | o :: ops' =>
      match o with
      | Sell now id sell_amount_usd sell_price =>
          if existsb (Z.eqb id) (open_ids s) &&
             is_ok (fst (record_sell now id sell_amount_usd sell_price s))
          then [id] else []
      | Buy _ _ _ _ => []
      end ++ closed_position_ids ops' (apply_op s o)
  end.

(** ** A scripted exchange for concrete runs

    Every query has one fixed answer, [None] for a failed API call;
    market orders are answered from a list, one answer per order, and
    fail once the list is used up. *)

Record Sim : Type := mkSim {
  sim_klines : option (list (list float));
  sim_ticker : option float;
  sim_step : option float;
  sim_account : option (list (string * float));
  sim_orders : list (option Order);
  sim_now : string
}.

Definition api_result {A : Type} (o : option A) : res A :=
  match o with
  | Some a => Ok a
  | None => Raise BinanceAPIException
  end.

Definition sim_answer {A : Type} (r : Sim -> option A) : SE Sim A :=
  fun x => (api_result (r x), x).

Definition sim_order : SE Sim Order :=
  fun x =>
    match sim_orders x with
    | [] => (Raise BinanceAPIException, x)
    | r :: rest =>
        (api_result r,
         mkSim (sim_klines x) (sim_ticker x) (sim_step x) (sim_account x)
           rest (sim_now x))
    end.

Definition sim_client : Client Sim :=
  mkClient Sim
    (fun _ => sim_answer sim_klines)
    (fun _ => sim_answer sim_ticker)
    (fun _ => sim_answer sim_step)
    (sim_answer sim_account)
    (fun _ _ => sim_order)
    (fun _ _ => sim_order)
    (fun _ _ _ => sim_answer (fun _ => Some tt))
    sim_now.

(** [math] restricted to a step size of one unit: [log10(1.0)] is zero
    and ten to the power zero is one. *)
Definition unit_step_math : Math :=
  mkMath (fun _ => Ok PrimFloat.zero) (fun _ _ => Ok PrimFloat.one).

(** A candle whose close, field 4, is [c]. *)
Definition candle (c : float) : list float :=
  [PrimFloat.zero; c; c; c; c; PrimFloat.zero].

Definition position (id : Z) (buy_amount_usd amount_btc buy_price : float)
    : OpenTbl.row :=
  OpenTbl.mk id "2024-01-01 00:00:00" buy_amount_usd amount_btc buy_price.

(** The trading bot on the scripted exchange. *)
Definition sim_compare_and_buy (invest_amount_usd : float) (symbol : string)
    : SE (World Sim) unit :=
  compare_and_buy sim_client (execute_order sim_client unit_step_math)
    invest_amount_usd symbol.

Definition sim_check_and_close_positions (symbol : string) : SE (World Sim) unit :=
  check_and_close_positions sim_client (execute_order sim_client unit_step_math)
    symbol.

(** ** Vocabulary of the statements *)

(** The sell signal in the words of the rule: [Pc > Pb * 1.01]. *)
Definition sell_signal (Pc : float) (position : OpenTbl.row) : bool :=
  PrimFloat.ltb (PrimFloat.mul (OpenTbl.BuyPrice position) PyFloat.margin) Pc.

(** The call that asks for a market sell of the whole [AmountBTC] of a
    position. *)
Definition sell_call (symbol : string) (ok : OpenTbl.row * bool) : Call :=
  mkCall symbol (OpenTbl.AmountBTC (fst ok)) false false (snd ok).

Definition not_among (sold : list OpenTbl.row) (r : OpenTbl.row) : bool :=
  negb (existsb (Z.eqb (OpenTbl.Id r)) (map OpenTbl.Id sold)).

(** [r] records the close of [position] at price [Pc]. *)
Record closes (Pc : float) (position : OpenTbl.row) (r : CloseTbl.row) : Prop :=
  mkCloses {
    closes_buy_date : CloseTbl.BuyDate r = OpenTbl.BuyDate position;
    closes_buy_amount : CloseTbl.BuyAmountUSD r = OpenTbl.BuyAmountUSD position;
    closes_amount : CloseTbl.AmountBTC r = OpenTbl.AmountBTC position;
    closes_buy_price : CloseTbl.BuyPrice r = OpenTbl.BuyPrice position;
    closes_sell_amount :
      CloseTbl.SellAmountUSD r = PrimFloat.mul (OpenTbl.AmountBTC position) Pc;
    closes_sell_price : CloseTbl.SellPrice r = Pc;
    closes_profit :
      CloseTbl.Profit r =
      PrimFloat.sub (PrimFloat.mul (OpenTbl.AmountBTC position) Pc)
        (OpenTbl.BuyAmountUSD position)
  }.

Definition api_failure_only {A : Type} (r : res A) : Prop :=
  match r with
  | Ok _ => True
  | Raise e => e = BinanceAPIException
  end.

(** The buy rule in the words of the specification, with [>=] on the
    balance and an absent minimum accepted. *)
Definition buy_rule_as_specified (minBuyPrice : option float)
    (Pt Py balance invest : float) : bool :=
  PrimFloat.ltb (PrimFloat.mul Pt PyFloat.margin) Py &&
  match minBuyPrice with
  | None => true
  | Some m => PrimFloat.ltb (PrimFloat.mul Pt PyFloat.margin) m
  end &&
  PrimFloat.leb invest balance.

(** The buy rule as [compare_and_buy] evaluates it when a minimum
    exists. *)
Definition buy_rule (m Pt Py balance invest : float) : bool :=
  PrimFloat.ltb (PrimFloat.mul Pt PyFloat.margin) Py &&
  PrimFloat.ltb (PrimFloat.mul Pt PyFloat.margin) m &&
  PrimFloat.ltb invest balance.

(** ** Invariants, predicates and concrete inputs of the statements *)

(** What every sequence of [record_buy] and [record_sell] preserves:
    open ids are distinct, the rows of [Close] are numbered from one in
    the order of the closes, every close row carries the difference of
    its two amounts, and no buy is lost or duplicated. *)
Record ledger_inv (buys : nat) (s : Store) : Prop := mkInv {
  inv_open_nodup : NoDup (open_ids s);
  inv_close_ids : close_ids s = map Z.of_nat (seq 1 (List.length (Close s)));
  inv_profit :
    forall r, In r (Close s) ->
      CloseTbl.Profit r =
      PrimFloat.sub (CloseTbl.SellAmountUSD r) (CloseTbl.BuyAmountUSD r);
  inv_count : (List.length (Open s) + List.length (Close s) = buys)%nat
}.

(** Two open positions bought at 100 and 105, a ticker at 102 and an
    exchange that fills the next order. *)
Definition two_positions : Store :=
  mkStore [position 1 100 1 100; position 2 100 1 105] [] [].

Definition ticker_102 : Sim :=
  mkSim (Some [candle 110; candle 108]) (Some 102%float) (Some 1%float)
    (Some [("USDT", 1000%float)]) [Some (mkOrder [mkFill 1 102])]
    "2024-01-02 00:00:00".

(** One open position bought at 100, closes of 110 then 98, and a USD
    balance equal to the amount to invest. *)
Definition one_position : Store := mkStore [position 1 100 1 100] [] [].

Definition downtrend (usdt : float) : Sim :=
  mkSim (Some [candle 110; candle 98]) (Some 98%float) (Some 1%float)
    (Some [("USDT", usdt)]) [Some (mkOrder [mkFill 1 98])]
    "2024-01-02 00:00:00".






Definition sim_daily_cycle (invest_amount_usd : float) (symbol : string)
    : SE (World Sim) (option exn) :=
  daily_cycle sim_client (execute_order sim_client unit_step_math)
    invest_amount_usd symbol.

(** An order filled in two parts, 0.5 at 98 and 0.5 at 99. *)
Definition two_fills : Order := mkOrder [mkFill 0.5 98; mkFill 0.5 99].

Definition downtrend_filling (order : Order) : Sim :=
  mkSim (Some [candle 110; candle 98]) (Some 98%float) (Some 1%float)
    (Some [("USDT", 1000%float)]) [Some order] "2024-01-02 00:00:00".

(** The data manager with the listing also bound to the name the
    aggregator asks for. *)
Definition with_get_closed_positions : pyclass :=
  ("get_closed_positions", CloseListing get_close_positions) :: TradingDataManager.

(** A position bought for 100 and sold for 100.00390625. *)
Definition small_gain : Store :=
  run_ops [Buy "2024-01-01 00:00:00" 100 1 100;
           Sell "2024-01-02 00:00:00" 1 100.00390625 100.00390625] empty_store.

(** ** The vocabulary of the amended statements *)

(** What [except BinanceAPIException: return None], around a body that
    ends in [return order], makes of the outcome of the body. *)
Definition caught {A : Type} (r : res A) : res (option A) :=
  match r with
  | Ok a => Ok (Some a)
  | Raise BinanceAPIException => Ok None
  | Raise e => Raise e
  end.


(** An order as the exchange receives it. *)
Inductive request : Type :=
| MarketBuy (symbol : string) (quantity : float)
| MarketSell (symbol : string) (quantity : float).

Definition unrecorded {X A : Type} (c : SE X A) : SE (X * list request) A :=
  fun xl => let (r, x') := c (fst xl) in (r, (x', snd xl)).

Definition recorded {X A : Type} (c : SE X A) (q : request) : SE (X * list request) A :=
  fun xl => let (r, x') := c (fst xl) in (r, (x', snd xl ++ [q])).

(** A client together with the list of the orders sent through it. *)
Definition recording {X : Type} (client : Client X) : Client (X * list request) :=
  mkClient (X * list request)
    (fun symbol => unrecorded (get_historical_klines client symbol))
    (fun symbol => unrecorded (get_symbol_ticker client symbol))
    (fun symbol => unrecorded (get_symbol_info client symbol))
    (unrecorded (get_account client))
    (fun symbol quantity =>
       recorded (order_market_buy client symbol quantity) (MarketBuy symbol quantity))
    (fun symbol quantity =>
       recorded (order_market_sell client symbol quantity) (MarketSell symbol quantity))
    (fun symbol is_buy quantity =>
       unrecorded (create_test_order client symbol is_buy quantity))
    (fun xl => datetime_now client (fst xl)).

(** [math] on the two lot steps of the runs: [log10(1e-05)] is [-5.0]
    and [10 ** 5.0] is [100000.0]; [log10(1.0)] is [0.0] and
    [10 ** -0.0] is [1.0].  The runs reach no other argument. *)
Definition lot_math : Math :=
  mkMath
    (fun x =>
       if PrimFloat.eqb x 0.00001 then Ok (-5)%float
       else if PrimFloat.eqb x 1 then Ok PrimFloat.zero
       else Raise ValueError)
    (fun _ e =>
       if PrimFloat.eqb e 5 then Ok 100000%float
       else if PrimFloat.eqb e 0 then Ok 1%float
       else Raise OverflowError).

(** BTCUSDT quoted at 98000 with a lot step of 0.00001, and an exchange
    that fills the next order. *)
Definition btc_at_98000 : Sim :=
  mkSim (Some [candle 99000; candle 98000]) (Some 98000%float) (Some 0.00001%float)
    (Some [("USDT", 1000%float)]) [Some (mkOrder [mkFill 0.00103 98000])]
    "2024-01-02 00:00:00".

(** One open position of 0.00104 BTC, bought for 100 USD at 96000. *)
Definition small_position : Store := mkStore [position 1 100 0.00104 96000] [] [].


(** A ticker at 110 and an exchange that refuses the next order and
    fills the one after. *)
Definition refuses_first_order : Sim :=
  mkSim (Some [candle 110; candle 108]) (Some 110%float) (Some 1%float)
    (Some [("USDT", 1000%float)]) [None; Some (mkOrder [mkFill 1 110])]
    "2024-01-02 00:00:00".

(** ** Further vocabulary *)

(** An implementation of [execute_order] that never returns something
    true in [if order:]. *)
Definition never_orders {X : Type}
    (impl : string -> float -> bool -> bool -> SE X (option Order)) : Prop :=
  forall symbol amount is_buy is_amount_in_usd x o,
    fst (impl symbol amount is_buy is_amount_in_usd x) <> Ok (Some o).

(** A computation that neither calls [self.execute_order] nor writes to
    the ledger. *)
Definition silent {X A : Type} (c : SE (World X) A) : Prop :=
  forall w : World X, calls (snd (c w)) = calls w /\ db (snd (c w)) = db w.

(** A computation that takes the ledger to one related to it by [R]. *)
Definition ledger_steps {X A : Type} (R : Store -> Store -> Prop)
    (c : SE (World X) A) : Prop :=
  forall w : World X, R (db w) (db (snd (c w))).

(** A ledger on which the invariant of the recording methods holds. *)
Definition ledger_ok (s : Store) : Prop := exists buys : nat, ledger_inv buys s.

Definition keeps_ok (s s' : Store) : Prop := ledger_ok s -> ledger_ok s'.

(** The end of [compare_and_buy]: the call of [self.execute_order] and
    the recording of the order it returned. *)
Definition buy_and_record {X : Type} (client : Client X)
    (impl : string -> float -> bool -> bool -> SE X (option Order))
    (invest : float) (symbol : string) : SE (World X) unit :=
  bind (call_execute_order impl symbol invest true true)
    (fun order =>
       match order with
       | Some order =>
           bind (list_item (fills order) 0) (fun fill_qty =>
           bind (list_item (fills order) 0) (fun fill_price =>
           data_manager_record_buy client invest (qty fill_qty) (price fill_price)))
       | None => ret tt
       end).

(** What one buy evaluation may do to the calls and to the ledger:
    nothing, or one call asking to buy for the invest amount, followed
    or not by the recording of one position bought for that amount. *)
Definition buy_shaped {X : Type} (client : Client X) (invest : float) (symbol : string)
    (w w' : World X) : Prop :=
  (calls w' = calls w /\ db w' = db w) \/
  (exists ok : bool,
     calls w' = calls w ++ [mkCall symbol invest true true ok] /\
     (db w' = db w \/
      (ok = true /\
       exists f : fill,
         db w' =
         snd (record_buy (datetime_now client (env w')) invest (qty f) (price f)
                (db w))))).


(** The names the INSERT of [insert_kpis] binds. *)
Definition kpi_parameters : list string :=
  ["Date"; "TotalProfit"; "TotalInvestment"; "TotalOperations"; "WinningTrades";
   "LosingTrades"; "AverageProfitPerTrade"; "ROI"].

(** The free USDT of an account, when it is positive. *)
Definition free_usdt (account_info : list (string * float)) : option float :=
  match find (fun balance => String.eqb (fst balance) "USDT") account_info with
  | Some balance =>
      if PrimFloat.ltb PrimFloat.zero (snd balance) then Some (snd balance) else None
  | None => None
  end.

Definition is_sell_of (symbol : string) (c : Call) : Prop :=
  call_symbol c = symbol /\ call_is_buy c = false /\ call_is_amount_in_usd c = false.

(** The body of the loop of [get_account_balances] over the positive
    balances (bots.py, lines 96-109). *)
Definition usd_value_of {X : Type} (client : Client X)
    (balances_in_usd : pydict (float * float))
    (item : string * float) : SE X (pydict (float * float)) :=
  let asset := fst item in
  let balance := snd item in
  if negb (String.eqb asset "USDT")
  then
    let symbol := String.append asset "USDT" in
    try_except
      (bind (get_symbol_ticker client symbol) (fun price =>
         if PrimFloat.ltb 10%float (PrimFloat.mul price balance)
         then ret (dict_set asset (balance, PrimFloat.mul price balance) balances_in_usd)
         else ret balances_in_usd))
      BinanceAPIException
      (ret balances_in_usd)
  else ret (dict_set "USD" (balance, balance) balances_in_usd).

(** The account query shows no spendable USDT: it fails with
    [BinanceAPIException], or it lists every asset once, none named
    USD, and no positive free USDT. *)
Definition no_usd_balance {X : Type} (client : Client X) (x : X) : Prop :=
  fst (get_account client x) = Raise BinanceAPIException \/
  exists account_info,
    fst (get_account client x) = Ok account_info /\
    NoDup (map fst account_info) /\
    ~ In "USD" (map fst account_info) /\
    free_usdt account_info = None.

(** An account holding 0.5 BTC, 250 USDT and no ETH, BTC quoted at 98. *)
Definition mixed_account : Sim :=
  mkSim (Some [candle 110; candle 98]) (Some 98%float) (Some 1%float)
    (Some [("BTC", 0.5%float); ("USDT", 250%float); ("ETH", 0%float)])
    [Some (mkOrder [mkFill 1 98])]
    "2024-01-02 00:00:00".

(** The downtrend of [downtrend] with the account query failing. *)
Definition downtrend_no_account : Sim :=
  mkSim (Some [candle 110; candle 98]) (Some 98%float) (Some 1%float)
    None [Some (mkOrder [mkFill 1 98])]
    "2024-01-02 00:00:00".

(** A value sqlite3 binds as it is given: a Python int outside 64 bits
    is refused with OverflowError before the statement runs. *)
Definition sqlite_value (v : pyval) : Prop :=
  match v with
  | PyInt n => - 2 ^ 63 <= n < 2 ^ 63
  | _ => True
  end.

(** The values under the names the INSERT binds can all be bound. *)
Definition bindable (kpis : pydict pyval) : Prop :=
  forall name v,
    In name kpi_parameters -> dict_get name kpis = Some v -> sqlite_value v.

Definition is_text (v : pyval) : Prop := exists d, v = PyStr d.

(** Column [Date] has TEXT affinity: the key comparison is the
    comparison of the bound values when the dates are strings. *)
Definition text_dates (kpis : pydict pyval) (s : Store) : Prop :=
  (forall v, dict_get "Date" kpis = Some v -> is_text v) /\
  Forall (fun r => is_text (KPITbl.Date r)) (KPI s).

(** A snapshot dict with the keys of the INSERT, stamped [now]. *)
Definition snapshot_at (now : string) : pydict pyval :=
  [("Date", PyStr now); ("TotalProfit", PyFloat 3); ("TotalInvestment", PyFloat 100);
   ("TotalOperations", PyInt 1); ("WinningTrades", PyInt 1); ("LosingTrades", PyInt 0);
   ("AverageProfitPerTrade", PyFloat 3); ("ROI", PyFloat 3)].

(** A float that is a number: a NaN is bound as NULL, which the NOT
    NULL columns of [Open] and [Close] refuse. *)
Definition is_number (x : float) : Prop := PrimFloat.is_nan x = false.

(** The values [record_sell] would insert into [Close] for [id] are
    numbers (nothing is inserted when [id] is not open). *)
Definition close_row_stored (id : Z) (sell_amount_usd sell_price : float) (s : Store)
    : Prop :=
  forall transaction,
    select_open id s = Some transaction ->
    is_number sell_amount_usd /\ is_number sell_price /\
    is_number (PrimFloat.sub sell_amount_usd (OpenTbl.BuyAmountUSD transaction)).

Definition is_neg_zero (x : float) : bool :=
  match Prim2SF x with
  | S754_zero true => true
  | _ => false
  end.

(** A float that a REAL NOT NULL column gives back as it was bound: a
    number, and not [-0.0], which SQLite keeps as [0] and gives back as
    [0.0]. *)
Definition stored_as_given (x : float) : Prop :=
  PrimFloat.is_nan x = false /\ is_neg_zero x = false.

(** Rowids as SQLite assigns them one after the other. *)
Definition rowids_in_sequence (ids : list Z) : Prop :=
  Forall (fun i => 1 <= i < max_rowid) ids.

(** The declared types of the columns of table [KPI]
    (data_manager.py, lines 57-68). *)
Inductive column_type : Type := TEXT | REAL | INTEGER.

Definition kpi_column (name : string) : column_type :=
  if String.eqb name "Date" then TEXT
  else if (String.eqb name "TotalOperations" || String.eqb name "WinningTrades"
           || String.eqb name "LosingTrades")%bool then INTEGER
  else REAL.

(** A value that a column of the given type stores and returns as it
    was bound: a string in a TEXT column, a float that is neither NaN
    nor [-0.0] in a REAL column, an int within 64 bits in an INTEGER
    column. *)
Definition kept_as_bound (t : column_type) (v : pyval) : Prop :=
  match t, v with
  | TEXT, PyStr _ => True
  | REAL, PyFloat x => stored_as_given x
  | INTEGER, PyInt n => int64 n = true
  | _, _ => False
  end.

(** Every value the INSERT binds has the type of its column. *)
Definition typed_as_columns (kpis : pydict pyval) : Prop :=
  forall name v,
    In name kpi_parameters -> dict_get name kpis = Some v ->
    kept_as_bound (kpi_column name) v.

(** * Properties *)

(** ** Concrete runs *)

Example round2_values :
  PyFloat.round2 0.125 = 0.12%float /\
  PyFloat.round2 0.375 = 0.38%float /\
  PyFloat.round2 2.675 = 2.67%float /\
  PyFloat.round2 1.005 = 1%float /\
  PyFloat.round2 (-3.14159) = (-3.14)%float /\
  PyFloat.round2 123456789.98765 = 123456789.99%float /\
  PyFloat.round2 (-0.004) = PrimFloat.neg_zero /\
  PyFloat.round2 1e300 = 1e300%float /\
  PyFloat.round2 PrimFloat.infinity = PrimFloat.infinity.
Proof. repeat split; vm_compute; reflexivity. Qed.

(** The distance between a float and its rounding to two decimals is
    0.005 only up to the representation of the result: [0.125] is
    rounded to [0.12], and the float difference of the two exceeds the
    float [0.005]. *)
Example round2_distance :
  PrimFloat.sub 0.125 (PyFloat.round2 0.125) = 0.0050000000000000044%float /\
  PrimFloat.ltb 0.005 (PrimFloat.sub 0.125 (PyFloat.round2 0.125)) = true.
Proof. split; vm_compute; reflexivity. Qed.

(** With open positions bought at 100 and 105 and a close of 110
    yesterday: a close of 108 today does not buy, a close of 98 does. *)
Example buy_gate :
  calls (snd (compare_and_buy sim_client (execute_order sim_client unit_step_math)
                100 "BTCUSDT"
                (mkWorld two_positions
                   (mkSim (Some [candle 110; candle 108]) (Some 108%float) (Some 1%float)
                      (Some [("USDT", 1000%float)]) [Some (mkOrder [mkFill 1 108])]
                      "2024-01-02 00:00:00") []))) = [] /\
  calls (snd (compare_and_buy sim_client (execute_order sim_client unit_step_math)
                100 "BTCUSDT"
                (mkWorld two_positions (downtrend 1000) []))) =
    [mkCall "BTCUSDT" 100 true true true].
Proof. split; vm_compute; reflexivity. Qed.

(** A position bought at 100 has the sell signal at 102.5 and at 102,
    and has none at 101 or below. *)
Example sell_gate :
  sell_signal 102.5 (position 1 100 1 100) = true /\
  sell_signal 102 (position 1 100 1 100) = true /\
  sell_signal 101 (position 1 100 1 100) = false /\
  sell_signal 100.5 (position 1 100 1 100) = false.
Proof. repeat split. Qed.

(** A buy of 100 USD at 100 and its close at 103. *)
Example buy_then_sell :
  run_ops [Buy "2024-01-01 00:00:00" 100 1 100;
           Sell "2024-01-02 00:00:00" 1 103 103] empty_store =
  mkStore []
    [CloseTbl.mk 1 "2024-01-01 00:00:00" "2024-01-02 00:00:00" 100 103 1 100 103 3]
    [].
Proof. vm_compute. reflexivity. Qed.

(** ** The ledger *)

Lemma record_buy_eq (now : string) (buy_amount_usd amount_btc buy_price : float)
    (s : Store) :
  record_buy now buy_amount_usd amount_btc buy_price s =
  if not_null [buy_amount_usd; amount_btc; buy_price]
  then
    (Ok tt,
     mkStore
       (Open s ++ [OpenTbl.mk (next_rowid (open_ids s)) now buy_amount_usd amount_btc
                     buy_price])
       (Close s) (KPI s))
  else (Raise IntegrityError, s).
Proof.
  unfold record_buy, record_buy_stmts, run. cbn [for_each]. unfold bind, execute.
  cbn [apply_stmt connect view durable].
  destruct (not_null [buy_amount_usd; amount_btc; buy_price]); reflexivity.
Qed.

(** The floats of the close row that [record_sell] inserts for [t]. *)
Lemma record_sell_eq (now : string) (id : Z) (sell_amount_usd sell_price : float)
    (s : Store) :
  record_sell now id sell_amount_usd sell_price s =
  if int64 id
  then
    match select_open id s with
    | Some t =>
        if not_null [OpenTbl.BuyAmountUSD t; sell_amount_usd; OpenTbl.AmountBTC t;
                     OpenTbl.BuyPrice t; sell_price;
                     PrimFloat.sub sell_amount_usd (OpenTbl.BuyAmountUSD t)]
        then
          (Ok tt,
           mkStore
             (delete_open id (Open s))
             (Close s ++
                [CloseTbl.mk (next_rowid (close_ids s)) (OpenTbl.BuyDate t) now
                   (OpenTbl.BuyAmountUSD t) sell_amount_usd (OpenTbl.AmountBTC t)
                   (OpenTbl.BuyPrice t) sell_price
                   (PrimFloat.sub sell_amount_usd (OpenTbl.BuyAmountUSD t))])
             (KPI s))
        else (Raise IntegrityError, s)
    | None => (Ok tt, s)
    end
  else (Raise OverflowError, s).
Proof.
  unfold record_sell, record_sell_stmts. cbn [connect view].
  destruct (int64 id) eqn:Hid; [|reflexivity].
  destruct (select_open id s) as [t|]; [|reflexivity].
  unfold run. cbn [for_each]. unfold bind, execute.
  cbn [apply_stmt connect view durable].
  destruct (not_null _); [|reflexivity].
  cbn [view durable Open Close KPI]. rewrite Hid. reflexivity.
Qed.

Lemma select_open_none (id : Z) (s : Store) :
  ~ In id (open_ids s) -> select_open id s = None.
Proof.
  unfold select_open, open_ids. intros Hnot.
  induction (Open s) as [|r rows IH]; cbn; [reflexivity|].
  destruct (Z.eqb_spec (OpenTbl.Id r) id) as [Heq|Hne].
  - exfalso. apply Hnot. left. exact Heq.
  - apply IH. intros Hin. apply Hnot. right. exact Hin.
Qed.

Lemma select_open_some (id : Z) (s : Store) (t : OpenTbl.row) :
  select_open id s = Some t -> In t (Open s) /\ OpenTbl.Id t = id.
Proof.
  unfold select_open. intros Hfind.
  apply find_some in Hfind. destruct Hfind as [Hin Heq].
  split; [exact Hin | apply Z.eqb_eq; exact Heq].
Qed.

Lemma select_open_in (id : Z) (s : Store) :
  In id (open_ids s) -> exists t, select_open id s = Some t.
Proof.
  intros Hin. destruct (select_open id s) as [t|] eqn:Hsel.
  - exists t. reflexivity.
  - exfalso. unfold open_ids in Hin. apply in_map_iff in Hin.
    destruct Hin as [r [Hid Hr]].
    unfold select_open in Hsel.
    pose proof (find_none _ _ Hsel r Hr) as Hno. cbn in Hno.
    rewrite Hid, Z.eqb_refl in Hno. discriminate.
Qed.

Lemma delete_open_notin (id : Z) (rows : list OpenTbl.row) :
  ~ In id (map OpenTbl.Id rows) -> delete_open id rows = rows.
Proof.
  unfold delete_open. induction rows as [|q rows IH]; cbn; intros Hnot; [reflexivity|].
  destruct (Z.eqb_spec (OpenTbl.Id q) id) as [E|E]; cbn.
  - exfalso. apply Hnot. left. exact E.
  - f_equal. apply IH. intros H. apply Hnot. right. exact H.
Qed.

(** Under distinct ids the SELECT returns the one row with the id, and
    the DELETE removes that row and no other. *)
Lemma delete_open_split (id : Z) (rows : list OpenTbl.row) (t : OpenTbl.row) :
  NoDup (map OpenTbl.Id rows) ->
  find (fun r => OpenTbl.Id r =? id) rows = Some t ->
  exists l1 l2,
    rows = l1 ++ t :: l2 /\ delete_open id rows = l1 ++ l2 /\
    ~ In id (map OpenTbl.Id (l1 ++ l2)).
Proof.
  induction rows as [|r rows IH]; cbn [find map]; intros Hnd Hfind; [discriminate|].
  inversion Hnd as [|? ? Hnotin Hnd']; subst.
  destruct (Z.eqb_spec (OpenTbl.Id r) id) as [Heq|Hne].
  - inversion Hfind; subst t. subst id. exists [], rows.
    split; [reflexivity|]. split; [|exact Hnotin].
    unfold delete_open. cbn [filter]. rewrite Z.eqb_refl. cbn [negb app].
    apply delete_open_notin. exact Hnotin.
  - destruct (IH Hnd' Hfind) as [l1 [l2 [Hrows [Hdel Hfresh]]]].
    exists (r :: l1), l2. split; [|split].
    + rewrite Hrows. reflexivity.
    + unfold delete_open. cbn [filter].
      destruct (Z.eqb_spec (OpenTbl.Id r) id) as [E|_]; [contradiction|].
      cbn [negb app]. f_equal. exact Hdel.
    + cbn [app map]. intros [H|H]; [exact (Hne H) | exact (Hfresh H)].
Qed.

Lemma find_by_id (rows : list OpenTbl.row) (p : OpenTbl.row) :
  NoDup (map OpenTbl.Id rows) -> In p rows ->
  find (fun r => OpenTbl.Id r =? OpenTbl.Id p) rows = Some p.
Proof.
  induction rows as [|r rows IH]; cbn [find map In]; intros Hnd Hin; [tauto|].
  inversion Hnd as [|? ? Hnotin Hnd']; subst.
  destruct Hin as [Heq|Hin].
  - subst r. rewrite Z.eqb_refl. reflexivity.
  - destruct (Z.eqb_spec (OpenTbl.Id r) (OpenTbl.Id p)) as [E|_].
    + exfalso. apply Hnotin. rewrite E. apply in_map. exact Hin.
    + apply IH; assumption.
Qed.

Lemma next_rowid_above (ids : list Z) (id : Z) : In id ids -> id < next_rowid ids.
Proof.
  unfold next_rowid. induction ids as [|i ids IH]; cbn [fold_right In]; [tauto|].
  intros [H|H]; [subst; lia | specialize (IH H); lia].
Qed.

Lemma next_rowid_fresh (ids : list Z) : ~ In (next_rowid ids) ids.
Proof. intros H. apply next_rowid_above in H. lia. Qed.

Lemma next_rowid_count (k : nat) :
  next_rowid (map Z.of_nat (seq 1 k)) = Z.of_nat (S k).
Proof.
  unfold next_rowid.
  assert (H : fold_right Z.max 0 (map Z.of_nat (seq 1 k)) = Z.of_nat k).
  { induction k as [|k IH]; [reflexivity|].
    rewrite seq_S, map_app, fold_right_app. cbn [map fold_right Nat.add].
    clear IH.
    assert (G : forall (l : list Z) (m : Z),
               Forall (fun i => i <= m) l -> 0 <= m -> fold_right Z.max m l = m).
    { induction l as [|i l IHl]; cbn; intros m Hall Hm; [reflexivity|].
      inversion Hall; subst. rewrite IHl by assumption. lia. }
    rewrite G; [lia| |lia].
    apply Forall_forall. intros i Hi. apply in_map_iff in Hi.
    destruct Hi as [n [Hn Hin]]. apply in_seq in Hin. lia. }
  rewrite H. lia.
Qed.

Lemma ledger_inv_empty : ledger_inv 0 empty_store.
Proof.
  split; cbn.
  - constructor.
  - reflexivity.
  - tauto.
  - reflexivity.
Qed.

Lemma NoDup_snoc {A : Type} (l : list A) (x : A) :
  ~ In x l -> NoDup l -> NoDup (l ++ [x]).
Proof.
  induction l as [|y l IH]; cbn [app]; intros Hx Hnd.
  - constructor; [intros [] | constructor].
  - inversion Hnd as [|? ? Hy Hl]; subst. constructor.
    + intros Hin. apply in_app_or in Hin. destruct Hin as [Hin|[Hin|[]]].
      * exact (Hy Hin).
      * apply Hx. left. symmetry. exact Hin.
    + apply IH; [|exact Hl]. intros Hin. apply Hx. right. exact Hin.
Qed.

Lemma ledger_inv_buy (n : nat) (s : Store) (now : string) (a b c : float) :
  ledger_inv n s ->
  ledger_inv (if not_null [a; b; c] then S n else n) (snd (record_buy now a b c s)).
Proof.
  intros Hinv. rewrite record_buy_eq.
  destruct (not_null [a; b; c]); [|exact Hinv].
  destruct Hinv as [Hnd Hids Hprofit Hcount]. split; cbn [snd Open Close KPI].
  - unfold open_ids at 1. cbn [Open]. rewrite map_app. cbn [map OpenTbl.Id].
    apply NoDup_snoc; [apply next_rowid_fresh | exact Hnd].
  - exact Hids.
  - exact Hprofit.
  - rewrite length_app. cbn [List.length]. lia.
Qed.

Lemma ledger_inv_sell (n : nat) (s : Store) (now : string) (id : Z) (a p : float) :
  ledger_inv n s -> ledger_inv n (snd (record_sell now id a p s)).
Proof.
  intros Hinv. rewrite record_sell_eq.
  destruct (int64 id); [|exact Hinv].
  destruct (select_open id s) as [t|] eqn:Hsel; [|exact Hinv].
  destruct (not_null _); [|exact Hinv].
  destruct Hinv as [Hnd Hids Hprofit Hcount].
  destruct (delete_open_split id (Open s) t Hnd Hsel) as [l1 [l2 [Hrows [Hdel Hfresh]]]].
  split; cbn [snd Open Close KPI].
  - unfold open_ids. cbn [Open]. rewrite Hdel.
    unfold open_ids in Hnd. rewrite Hrows, map_app in Hnd. cbn in Hnd.
    rewrite map_app. eapply NoDup_remove_1. exact Hnd.
  - unfold close_ids at 1. cbn [Close]. rewrite map_app, length_app.
    cbn [map CloseTbl.Id List.length].
    rewrite Nat.add_1_r, seq_S, map_app. cbn [map].
    change (map CloseTbl.Id (Close s)) with (close_ids s).
    rewrite Hids, next_rowid_count. reflexivity.
  - intros r Hin. apply in_app_or in Hin. destruct Hin as [Hin|[Hin|[]]].
    + apply Hprofit. exact Hin.
    + subst r. reflexivity.
  - rewrite Hdel, length_app. rewrite Hrows in Hcount.
    rewrite !length_app in *. cbn in *. lia.
Qed.

Lemma ledger_inv_run (ops : list op) (n : nat) (s : Store) :
  ledger_inv n s ->
  ledger_inv (n + List.length (filter is_recorded_buy ops)) (run_ops ops s).
Proof.
  revert n s. induction ops as [|o ops IH]; intros n s Hinv; cbn [run_ops fold_left filter].
  - cbn. rewrite Nat.add_0_r. exact Hinv.
  - destruct o as [now a b c|now id a p]; cbn [apply_op is_recorded_buy].
    + pose proof (ledger_inv_buy n s now a b c Hinv) as Hstep.
      destruct (not_null [a; b; c]); cbn [List.length].
      * rewrite Nat.add_succ_r. apply (IH (S n)). exact Hstep.
      * apply IH. exact Hstep.
    + apply IH. apply ledger_inv_sell. exact Hinv.
Qed.

(** The floats of the open rows of a store built by the two recording
    methods are numbers. *)
Lemma open_rows_are_numbers (ops : list op) :
  Forall (fun t => not_null [OpenTbl.BuyAmountUSD t; OpenTbl.AmountBTC t;
                             OpenTbl.BuyPrice t] = true)
    (Open (run_ops ops empty_store)).
Proof.
  assert (G : forall (s : Store),
             Forall (fun t => not_null [OpenTbl.BuyAmountUSD t; OpenTbl.AmountBTC t;
                                        OpenTbl.BuyPrice t] = true) (Open s) ->
             Forall (fun t => not_null [OpenTbl.BuyAmountUSD t; OpenTbl.AmountBTC t;
                                        OpenTbl.BuyPrice t] = true)
               (Open (run_ops ops s))).
  { induction ops as [|o ops IH]; intros s Hs; [exact Hs|].
    cbn [run_ops fold_left]. apply IH.
    destruct o as [now a b c|now id a p]; cbn [apply_op].
    - rewrite record_buy_eq. destruct (not_null [a; b; c]) eqn:Hnum; [|exact Hs].
      cbn [snd Open]. apply Forall_app. split; [exact Hs|].
      constructor; [exact Hnum | constructor].
    - rewrite record_sell_eq. destruct (int64 id); [|exact Hs].
      destruct (select_open id s); [|exact Hs].
      destruct (not_null _); [|exact Hs].
      cbn [snd Open]. unfold delete_open. apply Forall_forall. intros t Ht.
      apply filter_In in Ht. destruct Ht as [Ht _].
      exact (proj1 (Forall_forall _ _) Hs t Ht). }
  apply G. constructor.
Qed.

(** The database file changes only at the commit: after any number of
    the statements of a [record_sell] it is the file before the call or
    the file after it, also when one of the statements raises. *)
Lemma record_sell_atomic (now : string) (id : Z) (a p : float) (s : Store) (k : nat) :
  let c := snd (run (firstn k (record_sell_stmts now id a p (connect s))) (connect s)) in
  durable c = s \/ durable c = snd (record_sell now id a p s).
Proof.
  cbn zeta. rewrite record_sell_eq. unfold record_sell_stmts. cbn [connect view].
  destruct (select_open id s) as [t|]; [|left; rewrite firstn_nil; reflexivity].
  destruct k as [|[|[|k]]]; cbn [firstn]; try rewrite firstn_nil;
    unfold run; cbn [for_each]; unfold bind, execute;
    cbn [apply_stmt connect view durable ret snd].
  - left. reflexivity.
  - destruct (not_null _); left; reflexivity.
  - destruct (not_null _); cbn [view durable snd]; [|left; reflexivity].
    destruct (int64 id); left; reflexivity.
  - destruct (not_null _); cbn [view durable snd]; [|left; reflexivity].
    destruct (int64 id); cbn [view durable snd]; [right | left]; reflexivity.
Qed.

(** C3, as stated, fails on both readings of "position id appearing in
    the ClosedTrades table". Read on the [Id] column of [Close]: after
    two buys and the close of position 2 the close row has [Id] 1 while
    position 1 is still open. Read on the ids passed to a successful
    [record_sell]: after a buy, the close of position 1 and another
    buy, the new position is open under id 1 again. *)
Lemma C3_closed_id_open_again :
  ~ (forall (ops : list op) (id : Z),
       In id (close_ids (run_ops ops empty_store)) ->
       ~ In id (open_ids (run_ops ops empty_store))) /\
  ~ (forall (ops later : list op) (id : Z),
       In id (closed_position_ids ops empty_store) ->
       ~ In id (open_ids (run_ops (ops ++ later) empty_store))).
Proof.
  split.
  - intros H.
    apply (H [Buy "d1" 100 1 100; Buy "d2" 100 1 100; Sell "d3" 2 103 103] 1).
    + vm_compute. left. reflexivity.
    + vm_compute. left. reflexivity.
  - intros H.
    apply (H [Buy "d1" 100 1 100; Sell "d2" 1 103 103] [Buy "d3" 100 1 100] 1).
    + vm_compute. left. reflexivity.
    + vm_compute. left. reflexivity.
Qed.

Lemma close_row_stored_numbers (id : Z) (a p : float) (s : Store) (t : OpenTbl.row) :
  select_open id s = Some t ->
  not_null [OpenTbl.BuyAmountUSD t; OpenTbl.AmountBTC t; OpenTbl.BuyPrice t] = true ->
  (close_row_stored id a p s <->
   not_null [OpenTbl.BuyAmountUSD t; a; OpenTbl.AmountBTC t; OpenTbl.BuyPrice t; p;
             PrimFloat.sub a (OpenTbl.BuyAmountUSD t)] = true).
Proof.
  intros Hsel Ht. unfold close_row_stored, is_number, not_null in *.
  cbn [forallb] in *. rewrite Hsel.
  repeat rewrite andb_true_iff in *. repeat rewrite negb_true_iff in *.
  split.
  - intros H. destruct (H t eq_refl) as [Ha [Hp Hprofit]]. tauto.
  - intros H t' Ht'. inversion Ht'; subst t'. tauto.
Qed.

(** C3, amended: in every store reached from the empty one by
    [record_buy] and [record_sell] calls (fewer than 2^63 - 1 of them,
    so that SQLite numbers the rows one after the other), open ids are
    distinct, the
    rows of [Close] are numbered 1, 2, ... by the table itself, and
    open rows plus close rows count the buys recorded. A [record_sell]
    that returns on an open id has appended exactly one close row,
    built from the position with that id, and removed exactly that
    position, after which the id is not open; it returns when the id is
    within 64 bits and the values of the close row are numbers, raises
    [OverflowError] or [IntegrityError] otherwise, and then changes
    nothing, as it does on an id that is not open. The database file
    passes from the store before to the store after at the commit,
    with no state in between. *)
Theorem C3_close_moves_one_position :
  forall (ops : list op) (now : string) (id : Z) (sell_amount_usd sell_price : float),
    Z.of_nat (List.length ops) < max_rowid ->
    let s := run_ops ops empty_store in
    let result := fst (record_sell now id sell_amount_usd sell_price s) in
    let s' := snd (record_sell now id sell_amount_usd sell_price s) in
    NoDup (open_ids s) /\
    close_ids s = map Z.of_nat (seq 1 (List.length (Close s))) /\
    (List.length (Open s) + List.length (Close s) =
     List.length (filter is_recorded_buy ops))%nat /\
    (In id (open_ids s) -> result = Ok tt ->
       exists l1 t l2 r,
         Open s = l1 ++ t :: l2 /\ OpenTbl.Id t = id /\
         Open s' = l1 ++ l2 /\ ~ In id (open_ids s') /\
         Close s' = Close s ++ [r] /\
         CloseTbl.BuyDate r = OpenTbl.BuyDate t /\
         CloseTbl.BuyAmountUSD r = OpenTbl.BuyAmountUSD t /\
         CloseTbl.AmountBTC r = OpenTbl.AmountBTC t /\
         CloseTbl.BuyPrice r = OpenTbl.BuyPrice t /\
         KPI s' = KPI s) /\
    (int64 id = true ->
       (close_row_stored id sell_amount_usd sell_price s -> result = Ok tt) /\
       (~ close_row_stored id sell_amount_usd sell_price s ->
        result = Raise IntegrityError)) /\
    (int64 id = false -> result = Raise OverflowError) /\
    (result <> Ok tt -> s' = s) /\
    (~ In id (open_ids s) -> s' = s) /\
    (forall k : nat,
       let c := snd (run (firstn k (record_sell_stmts now id sell_amount_usd sell_price
                                      (connect s))) (connect s)) in
       durable c = s \/ durable c = s').
Proof.
  intros ops now id a p _ s result s'.
  pose proof (ledger_inv_run ops 0 empty_store ledger_inv_empty) as Hinv.
  fold s in Hinv. destruct Hinv as [Hnd Hids _ Hcount].
  pose proof (open_rows_are_numbers ops) as Hnum. fold s in Hnum.
  split; [exact Hnd|]. split; [exact Hids|]. split; [exact Hcount|].
  subst result s'. rewrite record_sell_eq.
  split; [|split; [|split; [|split; [|split]]]].
  - intros Hin Hok. destruct (select_open_in id s Hin) as [t Hsel].
    destruct (delete_open_split id (Open s) t Hnd Hsel) as [l1 [l2 [Hrows [Hdel Hfresh]]]].
    destruct (select_open_some id s t Hsel) as [_ Hid].
    rewrite Hsel in *.
    destruct (int64 id); [|discriminate Hok].
    destruct (not_null _); [|discriminate Hok].
    eexists l1, t, l2, _. cbn [snd Open Close KPI].
    split; [exact Hrows|]. split; [exact Hid|]. split; [exact Hdel|].
    split; [unfold open_ids; cbn [Open]; rewrite Hdel; exact Hfresh|].
    split; [reflexivity|]. cbn. repeat split.
  - intros Hid. rewrite Hid.
    destruct (select_open id s) as [t|] eqn:Hsel.
    + destruct (select_open_some id s t Hsel) as [Hin _].
      pose proof (proj1 (Forall_forall _ _) Hnum t Hin) as Ht.
      pose proof (close_row_stored_numbers id a p s t Hsel Ht) as Hiff.
      destruct (not_null [OpenTbl.BuyAmountUSD t; a; OpenTbl.AmountBTC t;
                          OpenTbl.BuyPrice t; p;
                          PrimFloat.sub a (OpenTbl.BuyAmountUSD t)]); cbn [fst].
      * split; [reflexivity|]. intros Hno. exfalso. apply Hno. apply Hiff. reflexivity.
      * split; [|reflexivity]. intros Hyes. apply Hiff in Hyes. discriminate Hyes.
    + cbn [fst]. split; [reflexivity|]. intros Hno. exfalso. apply Hno.
      intros t Ht. rewrite Hsel in Ht. discriminate Ht.
  - intros Hid. rewrite Hid. reflexivity.
  - destruct (int64 id); [|reflexivity].
    destruct (select_open id s); [|reflexivity].
    destruct (not_null _); cbn [fst snd]; [|reflexivity].
    intros H. exfalso. apply H. reflexivity.
  - intros Hnot. rewrite (select_open_none id s Hnot).
    destruct (int64 id); reflexivity.
  - intros k. cbn zeta. rewrite <- record_sell_eq. apply record_sell_atomic.
Qed.

Lemma C3_close_moves_one_position_witness :
  Z.of_nat (List.length [Buy "2024-01-01 00:00:00" 100 1 100]) < max_rowid /\
  close_row_stored 1 103 103 (run_ops [Buy "2024-01-01 00:00:00" 100 1 100] empty_store) /\
  record_sell "2024-01-02 00:00:00" 1 103 103
    (run_ops [Buy "2024-01-01 00:00:00" 100 1 100] empty_store) =
  (Ok tt,
   mkStore []
     [CloseTbl.mk 1 "2024-01-01 00:00:00" "2024-01-02 00:00:00" 100 103 1 100 103 3] []).
Proof.
  assert (Hlen : Z.of_nat (List.length [Buy "2024-01-01 00:00:00" 100 1 100]) < max_rowid)
    by (vm_compute; reflexivity).
  assert (H : close_row_stored 1 103 103
                (run_ops [Buy "2024-01-01 00:00:00" 100 1 100] empty_store)).
  { intros transaction Hsel. vm_compute in Hsel. inversion Hsel; subst transaction.
    repeat split; vm_compute; reflexivity. }
  split; [exact Hlen|]. split; [exact H|].
  pose proof (C3_close_moves_one_position [Buy "2024-01-01 00:00:00" 100 1 100]
                "2024-01-02 00:00:00" 1 103 103 Hlen) as Hmove.
  cbv zeta in Hmove. destruct Hmove as [_ [_ [_ [_ [Hreturns _]]]]].
  pose proof (proj1 (Hreturns eq_refl) H) as Hok.
  vm_compute in Hok |- *. reflexivity.
Defined.

Lemma is_number_eqb (x : float) : PrimFloat.is_nan x = false -> PrimFloat.eqb x x = true.
Proof. unfold PrimFloat.is_nan. intros H. apply negb_false_iff in H. exact H. Qed.

(** C4: the close row that [record_sell] inserts when it returns on
    the id of an open position [t] (ids being distinct, [t] is the
    position with that id, and it is the one removed; the rows of
    [Close] being numbered in sequence, the new row is the last)
    stores as
    [Profit] the float difference of the [sell_amount_usd] argument and
    the [BuyAmountUSD] stored on [t], next to those two amounts
    themselves. Equality is that of floats, [==]; the stored value is
    the very float computed unless that float is [-0.0], which SQLite
    keeps without its sign. Hence every close row of a store reached
    from the empty one has [Profit = SellAmountUSD - BuyAmountUSD]. *)
Theorem C4_profit_is_sell_minus_buy :
  forall (now : string) (id : Z) (sell_amount_usd sell_price : float)
         (s : Store) (t : OpenTbl.row),
    NoDup (open_ids s) ->
    rowids_in_sequence (close_ids s) ->
    In t (Open s) ->
    OpenTbl.Id t = id ->
    fst (record_sell now id sell_amount_usd sell_price s) = Ok tt ->
    let s' := snd (record_sell now id sell_amount_usd sell_price s) in
    let profit := PrimFloat.sub sell_amount_usd (OpenTbl.BuyAmountUSD t) in
    (exists l1 l2 r,
       Open s = l1 ++ t :: l2 /\ Open s' = l1 ++ l2 /\
       Close s' = Close s ++ [r] /\
       PrimFloat.eqb (CloseTbl.Profit r) profit = true /\
       PrimFloat.eqb (CloseTbl.SellAmountUSD r) sell_amount_usd = true /\
       PrimFloat.eqb (CloseTbl.BuyAmountUSD r) (OpenTbl.BuyAmountUSD t) = true /\
       (stored_as_given profit -> CloseTbl.Profit r = profit)) /\
    (forall (ops : list op) (r : CloseTbl.row),
       In r (Close (run_ops ops empty_store)) ->
       CloseTbl.Profit r =
       PrimFloat.sub (CloseTbl.SellAmountUSD r) (CloseTbl.BuyAmountUSD r)).
Proof.
  intros now id a p s t Hnd _ Hin Hid Hok s' profit. subst s' profit. split.
  - assert (Hsel : select_open id s = Some t).
    { subst id. unfold select_open. apply find_by_id; assumption. }
    destruct (delete_open_split id (Open s) t Hnd Hsel) as [l1 [l2 [Hrows [Hdel _]]]].
    rewrite record_sell_eq, Hsel in *.
    destruct (int64 id); [|discriminate Hok].
    destruct (not_null _) eqn:Hnum; [|discriminate Hok].
    unfold not_null in Hnum. cbn [forallb] in Hnum.
    repeat rewrite andb_true_iff in Hnum. repeat rewrite negb_true_iff in Hnum.
    destruct Hnum as [Hb [Ha [_ [_ [_ [Hprofit _]]]]]].
    eexists l1, l2, _. cbn [snd Open Close].
    split; [exact Hrows|]. split; [exact Hdel|]. split; [reflexivity|].
    cbn [CloseTbl.Profit CloseTbl.SellAmountUSD CloseTbl.BuyAmountUSD].
    split; [apply is_number_eqb; exact Hprofit|].
    split; [apply is_number_eqb; exact Ha|].
    split; [apply is_number_eqb; exact Hb|].
    intros _. reflexivity.
  - intros ops r Hr.
    pose proof (ledger_inv_run ops 0 empty_store ledger_inv_empty) as Hinv.
    exact (inv_profit _ _ Hinv r Hr).
Qed.

Lemma C4_profit_is_sell_minus_buy_witness :
  NoDup (open_ids (mkStore [position 1 100 1 100] [] [])) /\
  rowids_in_sequence (close_ids (mkStore [position 1 100 1 100] [] [])) /\
  fst (record_sell "2024-01-02 00:00:00" 1 103 103
         (mkStore [position 1 100 1 100] [] [])) = Ok tt /\
  exists l1 l2 r,
    [position 1 100 1 100] = l1 ++ position 1 100 1 100 :: l2 /\
    Open (snd (record_sell "2024-01-02 00:00:00" 1 103 103
                 (mkStore [position 1 100 1 100] [] []))) = l1 ++ l2 /\
    Close (snd (record_sell "2024-01-02 00:00:00" 1 103 103
                  (mkStore [position 1 100 1 100] [] []))) = [] ++ [r] /\
    CloseTbl.Profit r = 3%float.
Proof.
  assert (Hnd : NoDup (open_ids (mkStore [position 1 100 1 100] [] []))).
  { cbn. constructor; [intros [] | constructor]. }
  split; [exact Hnd|]. split; [apply Forall_nil|]. split; [reflexivity|].
  destruct (C4_profit_is_sell_minus_buy "2024-01-02 00:00:00" 1 103 103
              (mkStore [position 1 100 1 100] [] []) (position 1 100 1 100)
              Hnd (Forall_nil _) (or_introl eq_refl) eq_refl eq_refl)
    as [[l1 [l2 [r [Hopen [Hopen' [Hclose [_ [_ [_ Hprofit]]]]]]]]] _].
  exists l1, l2, r. split; [exact Hopen|]. split; [exact Hopen'|].
  split; [exact Hclose|]. rewrite Hprofit; [reflexivity|]. split; reflexivity.
Defined.



(** ** The decision engine *)

Lemma NoDup_map_filter {A B : Type} (f : A -> B) (g : A -> bool) (l : list A) :
  NoDup (map f l) -> NoDup (map f (filter g l)).
Proof.
  induction l as [|a l IH]; cbn [map filter]; intros Hnd; [constructor|].
  inversion Hnd as [|? ? Hnotin Hnd']; subst.
  destruct (g a); cbn [map]; [|apply IH; exact Hnd'].
  constructor; [|apply IH; exact Hnd'].
  intros Hin. apply Hnotin. apply in_map_iff in Hin.
  destruct Hin as [b [Hb Hin]]. apply filter_In in Hin.
  rewrite <- Hb. apply in_map. tauto.
Qed.

Lemma filter_filter {A : Type} (f g : A -> bool) (l : list A) :
  filter f (filter g l) = filter (fun a => g a && f a) l.
Proof.
  induction l as [|a l IH]; cbn [filter]; [reflexivity|].
  destruct (g a); cbn [filter andb]; [destruct (f a)|]; rewrite IH; reflexivity.
Qed.

Lemma filter_keep_all {A : Type} (f : A -> bool) (l : list A) :
  (forall a, f a = true) -> filter f l = l.
Proof.
  intros Hf. induction l as [|a l IH]; cbn [filter]; [reflexivity|].
  rewrite Hf, IH. reflexivity.
Qed.

Section EngineFacts.

Context {X : Type}.
Variable client : Client X.
Variable impl : string -> float -> bool -> bool -> SE X (option Order).
Variable symbol : string.

(** One turn of the sell loop, case by case. *)
Lemma close_if_profitable_step (Pc : float) (p : OpenTbl.row) (w : World X) :
  close_if_profitable client impl symbol Pc p w =
  if sell_signal Pc p
  then
    match impl symbol (OpenTbl.AmountBTC p) false false (env w) with
    | (Ok (Some _), x') =>
        (fst (record_sell (datetime_now client x') (OpenTbl.Id p)
                (PrimFloat.mul (OpenTbl.AmountBTC p) Pc) Pc (db w)),
         mkWorld
           (snd (record_sell (datetime_now client x') (OpenTbl.Id p)
                   (PrimFloat.mul (OpenTbl.AmountBTC p) Pc) Pc (db w)))
           x' (calls w ++ [sell_call symbol (p, true)]))
    | (Ok None, x') =>
        (Ok tt, mkWorld (db w) x' (calls w ++ [sell_call symbol (p, false)]))
    | (Raise e, x') =>
        (Raise e, mkWorld (db w) x' (calls w ++ [sell_call symbol (p, false)]))
    end
  else (Ok tt, w).
Proof.
  unfold close_if_profitable, sell_signal.
  destruct (PrimFloat.ltb _ Pc); [|reflexivity].
  unfold bind, call_execute_order, data_manager_record_sell.
  destruct (impl symbol (OpenTbl.AmountBTC p) false false (env w)) as [[[o|]|e] x'];
    cbn [db env calls]; [|reflexivity|reflexivity].
  destruct (record_sell _ _ _ _ _). reflexivity.
Qed.

End EngineFacts.

Lemma try_except_catches {S A : Type} (body handler : SE S A) (e : exn) (s : S) :
  (forall s', fst (handler s') <> Raise e) ->
  fst (try_except body e handler s) <> Raise e.
Proof.
  intros Hhandler. unfold try_except.
  destruct (body s) as [[a|e'] s']; cbn [fst]; [discriminate|].
  destruct (exn_eqb e' e) eqn:Heq; [apply Hhandler|].
  cbn [fst]. intros H. inversion H; subst e'.
  destruct e; discriminate Heq.
Qed.

(** Whatever the client does, no [BinanceAPIException] leaves
    [execute_order]. *)
Lemma execute_order_catches {X : Type} (client : Client X) (math : Math)
    (symbol : string) (amount : float) (is_buy is_amount_in_usd : bool) (x : X) :
  fst (execute_order client math symbol amount is_buy is_amount_in_usd x) <>
  Raise BinanceAPIException.
Proof.
  unfold execute_order. apply try_except_catches. intros s'. cbn. discriminate.
Qed.

Lemma try_except_caught {S A : Type} (body : SE S A) (s : S) :
  try_except (bind body (fun a => ret (Some a))) BinanceAPIException (ret None) s =
  (caught (fst (body s)), snd (body s)).
Proof.
  unfold try_except, bind, ret. destruct (body s) as [[a|e] s']; [reflexivity|].
  destruct e; reflexivity.
Qed.

Section ExecuteOrder.

Context {X : Type}.
Variable client : Client X.
Variable math : Math.
Variable symbol : string.







End ExecuteOrder.

(** C2 at a position of 0.00104 BTC, a multiple of the lot step
    0.00001 of BTCUSDT, with the price at 98000 above 96000 * 1.01:
    the sell evaluation asks [execute_order] for the whole 0.00104, but
    [round_down] computes [0.00104 * 100000.0 = 103.99999999999999],
    whose floor is 103, so that the exchange is sent an order for
    0.00103; the order is returned, and the position is closed in the
    ledger with the proceeds of 0.00104 at 98000. *)
Theorem C2_exchange_is_sent_less_than_the_position :
  Open small_position = [position 1 100 0.00104 96000] /\
  sell_signal 98000 (position 1 100 0.00104 96000) = true /\
  PrimFloat.mul 0.00104 100000 = 103.99999999999999%float /\
  lot_quantity lot_math 0.00104 0.00001 = Ok 0.00103%float /\
  check_and_close_positions (recording sim_client)
    (execute_order (recording sim_client) lot_math) "BTCUSDT"
    (mkWorld small_position (btc_at_98000, []) []) =
  (Ok tt,
   mkWorld
     (mkStore []
        [CloseTbl.mk 1 "2024-01-01 00:00:00" "2024-01-02 00:00:00" 100
           (PrimFloat.mul 0.00104 98000) 0.00104 96000 98000
           (PrimFloat.sub (PrimFloat.mul 0.00104 98000) 100)]
        [])
     (mkSim (Some [candle 99000; candle 98000]) (Some 98000%float) (Some 0.00001%float)
        (Some [("USDT", 1000%float)]) [] "2024-01-02 00:00:00",
      [MarketSell "BTCUSDT" 0.00103])
     [mkCall "BTCUSDT" 0.00104 false false true]).
Proof.
  repeat split; vm_compute; reflexivity.
Qed.

(** The buy evaluation up to the rule, once the candles are there and
    a minimum exists. *)
Lemma compare_and_buy_unfold {X : Type} (client : Client X)
    (impl : string -> float -> bool -> bool -> SE X (option Order))
    (invest : float) (symbol : string) (w : World X)
    (prices : list (list float)) (x1 : X) (c0 c1 : list float) (Py Pt m : float) :
  get_historical_klines client symbol (env w) = (Ok prices, x1) ->
  nth_error prices 0 = Some c0 -> nth_error c0 4 = Some Py ->
  nth_error prices 1 = Some c1 -> nth_error c1 4 = Some Pt ->
  _get_minimum_buy_price (Open (db w)) = Some m ->
  compare_and_buy client impl invest symbol w =
  if PrimFloat.ltb (PrimFloat.mul Pt PyFloat.margin) Py &&
     PrimFloat.ltb (PrimFloat.mul Pt PyFloat.margin) m
  then
    match get_account_balances client x1 with
    | (Ok balances, x2) =>
        match dict_get "USD" balances with
        | Some usd =>
            if PrimFloat.ltb invest (snd usd)
            then
              bind (call_execute_order impl symbol invest true true)
                (fun order =>
                   match order with
                   | Some order =>
                       bind (list_item (fills order) 0) (fun fill_qty =>
                       bind (list_item (fills order) 0) (fun fill_price =>
                       data_manager_record_buy client invest (qty fill_qty)
                         (price fill_price)))
                   | None => ret tt
                   end)
                (mkWorld (db w) x2 (calls w))
            else (Ok tt, mkWorld (db w) x2 (calls w))
        | None => (Raise KeyError, mkWorld (db w) x2 (calls w))
        end
    | (Raise e, x2) => (Raise e, mkWorld (db w) x2 (calls w))
    end
  else (Ok tt, mkWorld (db w) x1 (calls w)).
Proof.
  intros Hklines H0 H04 H1 H14 Hmin.
  unfold compare_and_buy.
  unfold bind at 1. unfold data_manager_get_open_positions at 1.
  unfold get_open_positions. rewrite Hmin.
  unfold bind at 1. unfold lift_env at 1. rewrite Hklines.
  unfold bind at 1. unfold list_item at 1. rewrite H0. unfold ret at 1.
  unfold bind at 1. unfold list_item at 1. rewrite H04. unfold ret at 1.
  unfold bind at 1. unfold list_item at 1. rewrite H1. unfold ret at 1.
  unfold bind at 1. unfold list_item at 1. rewrite H14. unfold ret at 1.
  cbn [db env calls].
  destruct (PrimFloat.ltb (PrimFloat.mul Pt PyFloat.margin) Py); cbn [andb];
    [|reflexivity].
  unfold bind at 1. unfold lt_maybe_none, ret at 1.
  destruct (PrimFloat.ltb (PrimFloat.mul Pt PyFloat.margin) m); [|reflexivity].
  unfold bind at 1. unfold lift_env at 1. cbn [db env calls].
  destruct (get_account_balances client x1) as [[balances|e] x2]; [|reflexivity].
  unfold bind at 1. unfold expr, dict_item.
  destruct (dict_get "USD" balances) as [usd|]; [|reflexivity].
  destruct (PrimFloat.ltb invest (snd usd)); reflexivity.
Qed.

(** With no open position the minimum is [None]: as soon as the
    downtrend holds, the comparison with it raises, before the balance
    is looked at and before any order. *)
Lemma buy_evaluation_without_positions {X : Type} (client : Client X)
    (impl : string -> float -> bool -> bool -> SE X (option Order))
    (invest : float) (symbol : string) (w : World X)
    (prices : list (list float)) (x1 : X) (c0 c1 : list float) (Py Pt : float) :
  Open (db w) = [] ->
  get_historical_klines client symbol (env w) = (Ok prices, x1) ->
  nth_error prices 0 = Some c0 -> nth_error c0 4 = Some Py ->
  nth_error prices 1 = Some c1 -> nth_error c1 4 = Some Pt ->
  compare_and_buy client impl invest symbol w =
  if PrimFloat.ltb (PrimFloat.mul Pt PyFloat.margin) Py
  then (Raise TypeError, mkWorld (db w) x1 (calls w))
  else (Ok tt, mkWorld (db w) x1 (calls w)).
Proof.
  intros Hopen Hklines H0 H04 H1 H14.
  unfold compare_and_buy.
  unfold bind at 1. unfold data_manager_get_open_positions at 1.
  unfold get_open_positions. rewrite Hopen. cbn [_get_minimum_buy_price].
  unfold bind at 1. unfold lift_env at 1. rewrite Hklines.
  unfold bind at 1. unfold list_item at 1. rewrite H0. unfold ret at 1.
  unfold bind at 1. unfold list_item at 1. rewrite H04. unfold ret at 1.
  unfold bind at 1. unfold list_item at 1. rewrite H1. unfold ret at 1.
  unfold bind at 1. unfold list_item at 1. rewrite H14. unfold ret at 1.
  cbn [db env calls].
  destruct (PrimFloat.ltb (PrimFloat.mul Pt PyFloat.margin) Py); reflexivity.
Qed.

(** C1, as stated, fails in two ways. With a balance equal to the
    invest amount the three conditions of the claim hold and no buy is
    attempted. With no open position, a downtrend and a sufficient
    balance the claim promises a buy; the evaluation ends in
    [TypeError] with nothing ordered and nothing recorded. *)
Lemma C1_buy_rule_differs :
  (buy_rule_as_specified (_get_minimum_buy_price (Open one_position))
     98 110 100 100 = true /\
   sim_compare_and_buy 100 "BTCUSDT" (mkWorld one_position (downtrend 100) []) =
     (Ok tt, mkWorld one_position (downtrend 100) [])) /\
  (buy_rule_as_specified (_get_minimum_buy_price (Open empty_store))
     98 110 1000 100 = true /\
   sim_compare_and_buy 100 "BTCUSDT" (mkWorld empty_store (downtrend 1000) []) =
     (Raise TypeError, mkWorld empty_store (downtrend 1000) [])).
Proof.
  split; split; vm_compute; reflexivity.
Qed.

(** C1, amended: with at least one open position, so that the minimum
    buy price [m] exists, the buy evaluation asks for a market buy of
    the invest amount exactly when [Pt * 1.01 < Py], [Pt * 1.01 < m]
    and the invest amount is strictly below the USD balance; otherwise
    it asks for nothing and leaves the ledger as it is. *)
Theorem C1_buy_evaluation :
  forall (X : Type) (client : Client X)
         (impl : string -> float -> bool -> bool -> SE X (option Order))
         (invest : float) (symbol : string) (w : World X)
         (prices : list (list float)) (x1 x2 : X) (c0 c1 : list float)
         (Py Pt m : float) (balances : pydict (float * float)) (usd : float * float),
    get_historical_klines client symbol (env w) = (Ok prices, x1) ->
    nth_error prices 0 = Some c0 -> nth_error c0 4 = Some Py ->
    nth_error prices 1 = Some c1 -> nth_error c1 4 = Some Pt ->
    _get_minimum_buy_price (Open (db w)) = Some m ->
    get_account_balances client x1 = (Ok balances, x2) ->
    dict_get "USD" balances = Some usd ->
    let w' := snd (compare_and_buy client impl invest symbol w) in
    if buy_rule m Pt Py (snd usd) invest
    then exists ok : bool, calls w' = calls w ++ [mkCall symbol invest true true ok]
    else calls w' = calls w /\ db w' = db w.
Proof.
  intros X client impl invest symbol w prices x1 x2 c0 c1 Py Pt m balances usd
    Hklines H0 H04 H1 H14 Hmin Hbal Husd w'.
  subst w'.
  rewrite (compare_and_buy_unfold client impl invest symbol w prices x1 c0 c1 Py Pt m
             Hklines H0 H04 H1 H14 Hmin).
  unfold buy_rule.
  destruct (PrimFloat.ltb (PrimFloat.mul Pt PyFloat.margin) Py &&
            PrimFloat.ltb (PrimFloat.mul Pt PyFloat.margin) m); cbn [andb].
  - rewrite Hbal, Husd.
    destruct (PrimFloat.ltb invest (snd usd)); [|split; reflexivity].
    unfold bind at 1. unfold call_execute_order. cbn [db env calls].
    destruct (impl symbol invest true true x2) as [[[order|]|e] x3].
    + exists true. unfold bind, list_item, ret, raise, data_manager_record_buy.
      destruct (nth_error (fills order) 0); cbn [snd calls db env];
        [destruct (record_buy _ _ _ _ _)|]; reflexivity.
    + exists false. reflexivity.
    + exists false. reflexivity.
  - split; reflexivity.
Qed.

Lemma C1_buy_evaluation_witness :
  _get_minimum_buy_price (Open one_position) = Some 100%float /\
  get_account_balances sim_client (downtrend 1000) =
    (Ok [("USD", (1000%float, 1000%float))], downtrend 1000) /\
  buy_rule 100 98 110 1000 100 = true /\
  exists ok : bool,
    calls (snd (sim_compare_and_buy 100 "BTCUSDT"
                  (mkWorld one_position (downtrend 1000) []))) =
    [] ++ [mkCall "BTCUSDT" 100 true true ok].
Proof.
  split; [reflexivity|]. split; [reflexivity|]. split; [reflexivity|].
  exact (C1_buy_evaluation Sim sim_client (execute_order sim_client unit_step_math)
           100 "BTCUSDT" (mkWorld one_position (downtrend 1000) [])
           [candle 110; candle 98] (downtrend 1000) (downtrend 1000)
           (candle 110) (candle 98) 110 98 100
           [("USD", (1000%float, 1000%float))] (1000%float, 1000%float)
           eq_refl eq_refl eq_refl eq_refl eq_refl eq_refl eq_refl eq_refl).
Defined.

(** ** Exchange failures *)

Section Silent.

Context {X : Type}.

Lemma silent_ret {A : Type} (a : A) : silent (@ret (World X) A a).
Proof. intros w. split; reflexivity. Qed.

Lemma silent_raise {A : Type} (e : exn) : silent (@raise (World X) A e).
Proof. intros w. split; reflexivity. Qed.

Lemma silent_expr {A : Type} (r : res A) : silent (@expr (World X) A r).
Proof. intros w. split; reflexivity. Qed.

Lemma silent_lift_env {A : Type} (c : SE X A) : silent (lift_env c).
Proof. intros w. unfold lift_env. destruct (c (env w)). split; reflexivity. Qed.

Lemma silent_list_item {A : Type} (xs : list A) (i : nat) :
  silent (@list_item (World X) A xs i).
Proof.
  unfold list_item. destruct (nth_error xs i); [apply silent_ret | apply silent_raise].
Qed.

Lemma silent_get_open_positions : silent (@data_manager_get_open_positions X).
Proof. intros w. split; reflexivity. Qed.

Lemma silent_bind {A B : Type} (c : SE (World X) A) (k : A -> SE (World X) B) :
  silent c -> (forall a, silent (k a)) -> silent (bind c k).
Proof.
  intros Hc Hk w. unfold bind. destruct (Hc w) as [Hcalls Hdb].
  destruct (c w) as [[a|e] w1]; cbn [snd] in *; [|split; assumption].
  destruct (Hk a w1) as [Hcalls' Hdb']. split; congruence.
Qed.

End Silent.

Lemma compare_and_buy_tail {X : Type} (client : Client X)
    (impl : string -> float -> bool -> bool -> SE X (option Order))
    (invest : float) (symbol : string) :
  compare_and_buy client impl invest symbol =
  bind data_manager_get_open_positions (fun positions =>
  bind (lift_env (get_historical_klines client symbol)) (fun prices =>
  bind (list_item prices 0) (fun candle0 =>
  bind (list_item candle0 4) (fun price_yesterday =>
  bind (list_item prices 1) (fun candle1 =>
  bind (list_item candle1 4) (fun price_today =>
  if PrimFloat.ltb (PrimFloat.mul price_today PyFloat.margin) price_yesterday
  then
    bind (lt_maybe_none (PrimFloat.mul price_today PyFloat.margin)
            (_get_minimum_buy_price positions)) (fun cheaper =>
    if (cheaper : bool)
    then
      bind (lift_env (get_account_balances client)) (fun balances =>
      bind (expr (dict_item "USD" balances)) (fun usd =>
      if PrimFloat.ltb invest (snd usd)
      then buy_and_record client impl invest symbol
      else ret tt))
    else ret tt)
  else ret tt)))))).
Proof. reflexivity. Qed.

Section WritesFollowOrders.

Context {X : Type}.
Variable client : Client X.
Variable impl : string -> float -> bool -> bool -> SE X (option Order).













End WritesFollowOrders.



(** Two positions with the sell signal, the first order refused by the
    exchange: the first position stays open, the loop goes on, and the
    second position is closed. *)
Example sell_loop_goes_on_after_a_refused_order :
  sim_check_and_close_positions "BTCUSDT" (mkWorld two_positions refuses_first_order []) =
  (Ok tt,
   mkWorld
     (mkStore [position 1 100 1 100]
        [CloseTbl.mk 1 "2024-01-01 00:00:00" "2024-01-02 00:00:00" 100 110 1 105 110 10]
        [])
     (mkSim (Some [candle 110; candle 108]) (Some 110%float) (Some 1%float)
        (Some [("USDT", 1000%float)]) [] "2024-01-02 00:00:00")
     [mkCall "BTCUSDT" 1 false false false; mkCall "BTCUSDT" 1 false false true]).
Proof. vm_compute. reflexivity. Qed.

(** ** What the ledger keeps of a buy *)

(** C9 at an order with two fills: the buy is recorded with the
    quantity and the price of the first fill, 0.5 at 98, while the order
    bought 1.0 in all. *)
Theorem C9_first_fill_only :
  PyFloat.sum (map qty (fills two_fills)) = 1%float /\
  sim_compare_and_buy 100 "BTCUSDT"
    (mkWorld one_position (downtrend_filling two_fills) []) =
  (Ok tt,
   mkWorld
     (mkStore
        [position 1 100 1 100;
         OpenTbl.mk 2 "2024-01-02 00:00:00" 100 0.5 98]
        [] [])
     (mkSim (Some [candle 110; candle 98]) (Some 98%float) (Some 1%float)
        (Some [("USDT", 1000%float)]) [] "2024-01-02 00:00:00")
     [mkCall "BTCUSDT" 100 true true true]).
Proof.
  split; vm_compute; reflexivity.
Qed.

(** ** The KPI aggregator *)

(** [TradingDataManager] defines [get_close_positions]; the name every
    method of [TradingBotKPIs] asks for is [get_closed_positions]. *)
Lemma no_get_closed_positions :
  getattr TradingDataManager "get_closed_positions" = Raise AttributeError /\
  getattr TradingDataManager "get_close_positions" = Ok (CloseListing get_close_positions).
Proof. split; reflexivity. Qed.

Lemma res_bind_not_ok {A B : Type} (c : res A) (k : A -> res B) :
  (forall a, is_ok (k a) = false) -> is_ok (res_bind c k) = false.
Proof. intros Hk. destruct c as [a|e]; cbn; [apply Hk | reflexivity]. Qed.

(** What the aggregator computes from a data manager whose class does
    provide a closed-trade listing under the name it asks for. *)
Section WithListing.

Variable dm : pyclass.
Variable listing : Store -> list ClosePos.dict.
Hypothesis dm_listing : dict_get "get_closed_positions" dm = Some (CloseListing listing).

Lemma call_listing (s : Store) :
  call_close_listing dm "get_closed_positions" s = Ok (listing s).
Proof. unfold call_close_listing, getattr. rewrite dm_listing. reflexivity. Qed.

Lemma winning_and_losing_trades (s : Store) :
  KPIs.get_winning_trades dm s =
    Ok (KPIs.count (fun pos => PrimFloat.ltb PrimFloat.zero (ClosePos.Profit pos))
          (listing s)) /\
  KPIs.get_losing_trades dm s =
    Ok (KPIs.count (fun pos => PrimFloat.leb (ClosePos.Profit pos) PrimFloat.zero)
          (listing s)).
Proof.
  unfold KPIs.get_winning_trades, KPIs.get_losing_trades.
  rewrite call_listing. split; reflexivity.
Qed.

Lemma average_and_roi (s : Store) :
  let total_profit := Py.sum (map ClosePos.Profit (listing s)) in
  let total_investment := Py.sum (map ClosePos.BuyAmountUSD (listing s)) in
  let total_operations := Z.of_nat (List.length (listing s)) in
  KPIs.get_average_profit_per_trade dm s =
    (if 0 <? total_operations
     then Py.truediv total_profit (PyInt total_operations)
     else Ok (PyInt 0)) /\
  KPIs.get_roi_percentage dm s =
    res_bind (Py.gt0 total_investment) (fun positive =>
      if positive
      then res_bind (Py.truediv total_profit total_investment)
             (fun q => Py.mul q (PyInt 100))
      else Ok (PyInt 0)).
Proof.
  unfold KPIs.get_average_profit_per_trade, KPIs.get_roi_percentage,
    KPIs.get_total_profit, KPIs.get_total_investment, KPIs.get_total_operations.
  rewrite call_listing. split; reflexivity.
Qed.

Lemma kpis_without_trades (s : Store) :
  listing s = [] ->
  KPIs.get_average_profit_per_trade dm s = Ok (PyInt 0) /\
  KPIs.get_roi_percentage dm s = Ok (PyInt 0).
Proof.
  intros Hnone. destruct (average_and_roi s) as [Havg Hroi].
  rewrite Havg, Hroi, Hnone. split; reflexivity.
Qed.

End WithListing.

(** C7 on the aggregator as it is: each of the four KPI methods raises
    [AttributeError] on every store, the one without closed trades
    included, because the data manager has no [get_closed_positions]. *)
Theorem C7_kpi_methods_raise :
  forall s : Store,
    KPIs.get_winning_trades TradingDataManager s = Raise AttributeError /\
    KPIs.get_losing_trades TradingDataManager s = Raise AttributeError /\
    KPIs.get_average_profit_per_trade TradingDataManager s = Raise AttributeError /\
    KPIs.get_roi_percentage TradingDataManager s = Raise AttributeError /\
    KPIs.get_roi_percentage TradingDataManager empty_store = Raise AttributeError.
Proof. intros s. repeat split. Qed.

(** C8 on the aggregator as it is: [get_performance_metrics] raises
    [AttributeError] on every store and appends nothing. Were the
    listing found, it would still never return: with an open position
    [calculate_unrealized_losses] raises, and otherwise [insert_kpis]
    is handed a dict without the keys its statement names. *)
Theorem C8_performance_metrics_never_returns :
  forall (now : string) (s : Store),
    KPIs.get_performance_metrics TradingDataManager now s = Raise AttributeError /\
    is_ok (KPIs.get_performance_metrics with_get_closed_positions now s) = false /\
    KPIs.get_performance_metrics with_get_closed_positions now empty_store =
      Raise ProgrammingError /\
    KPIs.get_performance_metrics with_get_closed_positions now one_position =
      Raise AttributeError.
Proof.
  intros now s. split; [reflexivity|]. split; [|split; reflexivity].
  unfold KPIs.get_performance_metrics.
  do 11 (apply res_bind_not_ok; intros ?).
  cbv zeta. reflexivity.
Qed.

(** C10: the closed-trade listing returns [round(Profit, 2)] and every
    other field as stored, so that the returned [Profit] need not be
    the difference of the two returned amounts (here [0.0] against
    [0.00390625]); but no KPI method reads this listing: they ask the
    data manager for [get_closed_positions] and raise. *)
Theorem C10_rounded_listing_is_never_aggregated :
  (forall (s : Store) (i : nat) (r : CloseTbl.row),
     nth_error (Close s) i = Some r ->
     exists d : ClosePos.dict,
       nth_error (get_close_positions s) i = Some d /\
       ClosePos.Profit d = PyFloat.round2 (CloseTbl.Profit r) /\
       ClosePos.BuyAmountUSD d = CloseTbl.BuyAmountUSD r /\
       ClosePos.SellAmountUSD d = CloseTbl.SellAmountUSD r /\
       ClosePos.AmountBTC d = CloseTbl.AmountBTC r /\
       ClosePos.BuyPrice d = CloseTbl.BuyPrice r /\
       ClosePos.SellPrice d = CloseTbl.SellPrice r /\
       ClosePos.BuyDate d = CloseTbl.BuyDate r /\
       ClosePos.SellDate d = CloseTbl.SellDate r) /\
  (exists d : ClosePos.dict,
     get_close_positions small_gain = [d] /\
     ClosePos.Profit d = 0%float /\
     PrimFloat.sub (ClosePos.SellAmountUSD d) (ClosePos.BuyAmountUSD d) =
       0.00390625%float) /\
  (forall s : Store,
     KPIs.get_total_profit TradingDataManager s = Raise AttributeError /\
     KPIs.get_winning_trades TradingDataManager s = Raise AttributeError /\
     KPIs.get_losing_trades TradingDataManager s = Raise AttributeError).
Proof.
  split; [|split].
  - intros s i r Hnth. unfold get_close_positions.
    eexists. split; [apply map_nth_error; exact Hnth|]. cbn. repeat split.
  - eexists. split; [vm_compute; reflexivity|]. split; vm_compute; reflexivity.
  - intros s. repeat split.
Qed.

(** * Further properties *)

(** ** Order of floats *)

Lemma SFltb_irrefl (a : spec_float) : SFltb a a = false.
Proof.
  unfold SFltb, SFcompare. destruct a as [s| s| |s m e]; try destruct s; try reflexivity;
    rewrite Z.compare_refl, Pos.compare_cont_refl; reflexivity.
Qed.

Ltac split_compares ma mb mc :=
  repeat match goal with
    | H : context [Z.compare ?x ?y] |- _ => destruct (Z.compare_spec x y)
    | |- context [Z.compare ?x ?y] => destruct (Z.compare_spec x y)
    end;
  try discriminate; try lia; subst;
  fold (Pos.compare ma mb) in *; fold (Pos.compare mb mc) in *;
  fold (Pos.compare ma mc) in *; fold (Pos.compare mb ma) in *;
  repeat match goal with
    | H : context [Pos.compare ?x ?y] |- _ => destruct (Pos.compare_spec x y)
    | |- context [Pos.compare ?x ?y] => destruct (Pos.compare_spec x y)
    end;
  cbn in *; try discriminate; try reflexivity; try lia.

Lemma SFltb_trans (a b c : spec_float) :
  SFltb a b = true -> SFltb b c = true -> SFltb a c = true.
Proof.
  unfold SFltb, SFcompare.
  destruct a as [sa|sa| |sa ma ea], b as [sb|sb| |sb mb eb], c as [sc|sc| |sc mc ec];
    try destruct sa; try destruct sb; try destruct sc;
    try discriminate; try reflexivity; intros Hab Hbc;
    split_compares ma mb mc.
Qed.

Lemma ltb_irrefl (x : float) : PrimFloat.ltb x x = false.
Proof. rewrite ltb_spec. apply SFltb_irrefl. Qed.

Lemma ltb_trans (x y z : float) :
  PrimFloat.ltb x y = true -> PrimFloat.ltb y z = true -> PrimFloat.ltb x z = true.
Proof. rewrite !ltb_spec. apply SFltb_trans. Qed.

Lemma ltb_not_leb (x y : float) : PrimFloat.ltb x y = true -> PrimFloat.leb y x = false.
Proof.
  rewrite ltb_spec, leb_spec. unfold SFltb, SFleb, SFcompare.
  destruct (Prim2SF x) as [sa|sa| |sa ma ea], (Prim2SF y) as [sb|sb| |sb mb eb];
    try destruct sa; try destruct sb; try discriminate; try reflexivity; intros Hab;
    split_compares ma mb ma.
Qed.

(** ** The minimum buy price *)

Lemma min_from_spec (xs : list float) :
  forall x : float,
    In (PyFloat.min_from x xs) (x :: xs) /\
    (forall y, In y (x :: xs) -> PrimFloat.ltb y (PyFloat.min_from x xs) = false).
Proof.
  unfold PyFloat.min_from.
  assert (G : forall xs m seen,
            In m seen ->
            (forall y, In y seen -> PrimFloat.ltb y m = false) ->
            let r := fold_left (fun m y => if PrimFloat.ltb y m then y else m) xs m in
            In r (seen ++ xs) /\
            (forall y, In y (seen ++ xs) -> PrimFloat.ltb y r = false)).
  { clear xs. induction xs as [|z xs IH]; intros m seen Hm Hlow; cbn [fold_left].
    - cbn zeta. rewrite app_nil_r. split; assumption.
    - cbn zeta. replace (seen ++ z :: xs) with ((seen ++ [z]) ++ xs)
        by (rewrite <- app_assoc; reflexivity).
      apply IH.
      + destruct (PrimFloat.ltb z m); apply in_or_app; [right; left; reflexivity | left; exact Hm].
      + intros y Hy. apply in_app_or in Hy.
        destruct (PrimFloat.ltb z m) eqn:Hzm.
        * destruct Hy as [Hy|[Hy|[]]].
          -- destruct (PrimFloat.ltb y z) eqn:Hyz; [|reflexivity].
             rewrite <- (Hlow y Hy). symmetry. exact (ltb_trans y z m Hyz Hzm).
          -- subst y. apply ltb_irrefl.
        * destruct Hy as [Hy|[Hy|[]]]; [exact (Hlow y Hy) | subst y; exact Hzm]. }
  intros x.
  exact (G xs x [x] (or_introl eq_refl)
           (fun y Hy => match Hy with
                        | or_introl E => eq_ind x (fun y => PrimFloat.ltb y x = false)
                                           (ltb_irrefl x) y E
                        | or_intror F => match F with end
                        end)).
Qed.

(** [_get_minimum_buy_price] returns [None] exactly on the empty list;
    otherwise it returns the buy price of one of the positions, and no
    position has a buy price strictly below it. *)
Theorem minimum_buy_price_is_a_minimum :
  forall positions : list OpenTbl.row,
    match _get_minimum_buy_price positions with
    | None => positions = []
    | Some m =>
        (exists p, In p positions /\ OpenTbl.BuyPrice p = m) /\
        (forall p, In p positions -> PrimFloat.ltb (OpenTbl.BuyPrice p) m = false)
    end.
Proof.
  intros [|p ps]; cbn [_get_minimum_buy_price map]; [reflexivity|].
  destruct (min_from_spec (map OpenTbl.BuyPrice ps) (OpenTbl.BuyPrice p)) as [Hin Hlow].
  split.
  - change (OpenTbl.BuyPrice p :: map OpenTbl.BuyPrice ps)
      with (map OpenTbl.BuyPrice (p :: ps)) in Hin.
    apply in_map_iff in Hin. destruct Hin as [q [Hq Hin]]. exists q. split; assumption.
  - intros q Hq. apply Hlow.
    change (OpenTbl.BuyPrice p :: map OpenTbl.BuyPrice ps)
      with (map OpenTbl.BuyPrice (p :: ps)).
    apply in_map. exact Hq.
Qed.

(** ** More on the ledger *)

Lemma find_app {A : Type} (f : A -> bool) (l l' : list A) :
  find f (l ++ l') = match find f l with Some a => Some a | None => find f l' end.
Proof.
  induction l as [|a l IH]; cbn [app find]; [reflexivity|].
  destruct (f a); [reflexivity | exact IH].
Qed.

Lemma select_open_fresh (s : Store) :
  find (fun r => OpenTbl.Id r =? next_rowid (open_ids s)) (Open s) = None.
Proof.
  pose proof (next_rowid_fresh (open_ids s)) as Hfresh.
  exact (select_open_none (next_rowid (open_ids s)) s Hfresh).
Qed.

Lemma stored_numbers (xs : list float) :
  Forall stored_as_given xs -> not_null xs = true.
Proof.
  induction 1 as [|x xs [Hx _] _ IH]; [reflexivity|].
  cbn [not_null forallb]. rewrite Hx. exact IH.
Qed.

Lemma next_rowid_in_range (ids : list Z) :
  rowids_in_sequence ids -> int64 (next_rowid ids) = true.
Proof.
  intros Hids. unfold int64, next_rowid.
  assert (H : 0 <= fold_right Z.max 0 ids < max_rowid).
  { induction Hids as [|i ids Hi _ IH]; cbn [fold_right]; [unfold max_rowid; lia|].
    lia. }
  unfold max_rowid in H. apply andb_true_iff. split; [apply Z.leb_le | apply Z.ltb_lt]; lia.
Qed.

Lemma select_open_new (now : string) (a b c : float) (s : Store) :
  not_null [a; b; c] = true ->
  select_open (next_rowid (open_ids s)) (snd (record_buy now a b c s)) =
  Some (OpenTbl.mk (next_rowid (open_ids s)) now a b c).
Proof.
  intros Hnum. rewrite record_buy_eq, Hnum. unfold select_open. cbn [snd Open].
  rewrite find_app, select_open_fresh. cbn [find OpenTbl.Id].
  rewrite Z.eqb_refl. reflexivity.
Qed.

(** A position recorded by [record_buy], with values that SQLite
    gives back as they were bound, in a table whose rowids were
    assigned in sequence: the call returns, the position gets an id
    above every open id, is found under that id with the three values
    recorded, and the lookup of every other id is as before. *)
Theorem record_buy_then_lookup :
  forall (now : string) (buy_amount_usd amount_btc buy_price : float) (s : Store),
    stored_as_given buy_amount_usd ->
    stored_as_given amount_btc ->
    stored_as_given buy_price ->
    rowids_in_sequence (open_ids s) ->
    let id := next_rowid (open_ids s) in
    let s' := snd (record_buy now buy_amount_usd amount_btc buy_price s) in
    fst (record_buy now buy_amount_usd amount_btc buy_price s) = Ok tt /\
    int64 id = true /\
    (forall id', In id' (open_ids s) -> id' < id) /\
    select_open id s' = Some (OpenTbl.mk id now buy_amount_usd amount_btc buy_price) /\
    (forall id', int64 id' = true -> id' <> id ->
       select_open id' s' = select_open id' s) /\
    Close s' = Close s /\ KPI s' = KPI s.
Proof.
  intros now a b c s Ha Hb Hc Hids id s'. subst s' id.
  assert (Hnum : not_null [a; b; c] = true).
  { apply stored_numbers. repeat (apply Forall_cons; [assumption|]). apply Forall_nil. }
  split; [rewrite record_buy_eq, Hnum; reflexivity|].
  split; [apply next_rowid_in_range; exact Hids|].
  split; [intros id' Hin; apply next_rowid_above; exact Hin|].
  split; [apply select_open_new; exact Hnum|].
  rewrite record_buy_eq, Hnum. unfold select_open. cbn [snd Open Close KPI].
  split; [|split; reflexivity].
  intros id' _ Hne. rewrite find_app.
  destruct (find (fun r => OpenTbl.Id r =? id') (Open s)); [reflexivity|].
  cbn [find OpenTbl.Id].
  destruct (Z.eqb_spec (next_rowid (open_ids s)) id') as [E|_]; [|reflexivity].
  exfalso. apply Hne. symmetry. exact E.
Qed.

Lemma record_buy_then_lookup_witness :
  stored_as_given 100 /\ stored_as_given 1 /\
  rowids_in_sequence (open_ids empty_store) /\
  select_open 1 (snd (record_buy "2024-01-01 00:00:00" 100 1 100 empty_store)) =
    Some (OpenTbl.mk 1 "2024-01-01 00:00:00" 100 1 100).
Proof.
  assert (H100 : stored_as_given 100) by (split; reflexivity).
  assert (H1 : stored_as_given 1) by (split; reflexivity).
  assert (Hids : rowids_in_sequence (open_ids empty_store)) by constructor.
  split; [exact H100|]. split; [exact H1|]. split; [exact Hids|].
  destruct (record_buy_then_lookup "2024-01-01 00:00:00" 100 1 100 empty_store
              H100 H1 H100 Hids) as [_ [_ [_ [Hsel _]]]].
  exact Hsel.
Defined.

(** A buy followed by the close of the position it created, with
    values that SQLite gives back as they were bound, in tables whose
    rowids were assigned in sequence: both calls return, the open
    positions are those from before the buy, and [Close] has one more
    row, which pairs the amounts of the buy with those of the sell. *)
Theorem record_buy_then_record_sell :
  forall (now now' : string) (buy_amount_usd amount_btc buy_price : float)
         (sell_amount_usd sell_price : float) (s : Store),
    stored_as_given buy_amount_usd ->
    stored_as_given amount_btc ->
    stored_as_given buy_price ->
    stored_as_given sell_amount_usd ->
    stored_as_given sell_price ->
    stored_as_given (PrimFloat.sub sell_amount_usd buy_amount_usd) ->
    rowids_in_sequence (open_ids s) ->
    rowids_in_sequence (close_ids s) ->
    let id := next_rowid (open_ids s) in
    fst (record_buy now buy_amount_usd amount_btc buy_price s) = Ok tt /\
    record_sell now' id sell_amount_usd sell_price
      (snd (record_buy now buy_amount_usd amount_btc buy_price s)) =
    (Ok tt,
     mkStore (Open s)
       (Close s ++
          [CloseTbl.mk (next_rowid (close_ids s)) now now' buy_amount_usd sell_amount_usd
             amount_btc buy_price sell_price
             (PrimFloat.sub sell_amount_usd buy_amount_usd)])
       (KPI s)).
Proof.
  intros now now' a b c sa sp s Ha Hb Hc Hsa Hsp Hprofit Hids _ id. subst id.
  assert (Hnum : not_null [a; b; c] = true).
  { apply stored_numbers. repeat (apply Forall_cons; [assumption|]). apply Forall_nil. }
  assert (Hnum' : not_null [a; sa; b; c; sp; PrimFloat.sub sa a] = true).
  { apply stored_numbers. repeat (apply Forall_cons; [assumption|]). apply Forall_nil. }
  split; [rewrite record_buy_eq, Hnum; reflexivity|].
  rewrite record_sell_eq, (next_rowid_in_range _ Hids), (select_open_new now a b c s Hnum).
  cbn [OpenTbl.BuyDate OpenTbl.BuyAmountUSD OpenTbl.AmountBTC OpenTbl.BuyPrice].
  rewrite Hnum'. rewrite record_buy_eq, Hnum. cbn [snd Open Close KPI].
  f_equal. f_equal. unfold delete_open. rewrite filter_app. cbn [filter OpenTbl.Id].
  rewrite Z.eqb_refl. cbn [negb]. rewrite app_nil_r.
  apply (delete_open_notin (next_rowid (open_ids s)) (Open s)).
  apply next_rowid_fresh.
Qed.

Lemma record_buy_then_record_sell_witness :
  stored_as_given (PrimFloat.sub 103 100) /\
  rowids_in_sequence (open_ids empty_store) /\
  record_sell "2024-01-02 00:00:00" 1 103 103
    (snd (record_buy "2024-01-01 00:00:00" 100 1 100 empty_store)) =
  (Ok tt,
   mkStore []
     [CloseTbl.mk 1 "2024-01-01 00:00:00" "2024-01-02 00:00:00" 100 103 1 100 103
        (PrimFloat.sub 103 100)]
     []).
Proof.
  assert (H100 : stored_as_given 100) by (split; reflexivity).
  assert (H1 : stored_as_given 1) by (split; reflexivity).
  assert (H103 : stored_as_given 103) by (split; reflexivity).
  assert (H3 : stored_as_given (PrimFloat.sub 103 100)) by (split; reflexivity).
  assert (Hids : rowids_in_sequence (open_ids empty_store)) by constructor.
  assert (Hids' : rowids_in_sequence (close_ids empty_store)) by constructor.
  split; [exact H3|]. split; [exact Hids|].
  exact (proj2 (record_buy_then_record_sell "2024-01-01 00:00:00" "2024-01-02 00:00:00"
                  100 1 100 103 103 empty_store H100 H1 H100 H103 H103 H3 Hids Hids')).
Defined.

Lemma select_open_after_delete (id : Z) (rows : list OpenTbl.row) :
  find (fun r => OpenTbl.Id r =? id) (delete_open id rows) = None.
Proof.
  destruct (find (fun r => OpenTbl.Id r =? id) (delete_open id rows)) as [r|] eqn:Hfind;
    [|reflexivity].
  apply find_some in Hfind. destruct Hfind as [Hin Heq].
  unfold delete_open in Hin. apply filter_In in Hin. destruct Hin as [_ Hne].
  rewrite Heq in Hne. discriminate Hne.
Qed.

(** After a [record_sell] that stored its values, a second
    [record_sell] with the same id, whatever its amounts, changes
    nothing, on any store: a position is closed once, and the repeated
    call inserts no second close row. *)
Theorem record_sell_twice :
  forall (now now' : string) (id : Z) (a p a' p' : float) (s : Store),
    close_row_stored id a p s ->
    snd (record_sell now' id a' p' (snd (record_sell now id a p s))) =
    snd (record_sell now id a p s).
Proof.
  intros now now' id a p a' p' s Hstored.
  rewrite (record_sell_eq now id a p s).
  destruct (int64 id) eqn:Hid; cbn [snd]; [|rewrite record_sell_eq, Hid; reflexivity].
  destruct (select_open id s) as [t|] eqn:Hsel; cbn [snd];
    [|rewrite record_sell_eq, Hid, Hsel; reflexivity].
  destruct (Hstored t Hsel) as [Ha [Hp Hprofit]]. unfold is_number in *.
  destruct (not_null [OpenTbl.BuyAmountUSD t; a; OpenTbl.AmountBTC t; OpenTbl.BuyPrice t;
                      p; PrimFloat.sub a (OpenTbl.BuyAmountUSD t)]) eqn:Hnum; cbn [snd].
  - rewrite record_sell_eq, Hid. unfold select_open at 1. cbn [Open].
    rewrite select_open_after_delete. reflexivity.
  - rewrite record_sell_eq, Hid, Hsel.
    assert (Hnum' : not_null [OpenTbl.BuyAmountUSD t; a'; OpenTbl.AmountBTC t;
                              OpenTbl.BuyPrice t; p';
                              PrimFloat.sub a' (OpenTbl.BuyAmountUSD t)] = false).
    { unfold not_null in *. cbn [forallb] in *. rewrite Ha, Hp, Hprofit in Hnum.
      cbn [negb] in Hnum. rewrite !andb_true_r in Hnum.
      destruct (PrimFloat.is_nan (OpenTbl.BuyAmountUSD t)); cbn [negb andb];
        [reflexivity|].
      cbn [negb andb] in Hnum.
      destruct (PrimFloat.is_nan a'); cbn [negb andb]; [reflexivity|].
      destruct (PrimFloat.is_nan (OpenTbl.AmountBTC t)); cbn [negb andb] in *;
        [reflexivity|].
      destruct (PrimFloat.is_nan (OpenTbl.BuyPrice t)); cbn [negb andb] in *;
        [reflexivity | discriminate Hnum]. }
    rewrite Hnum'. reflexivity.
Qed.

Lemma record_sell_twice_witness :
  close_row_stored 1 103 103 two_positions /\
  snd (record_sell "2024-01-03 00:00:00" 1 0 0
         (snd (record_sell "2024-01-02 00:00:00" 1 103 103 two_positions))) =
  snd (record_sell "2024-01-02 00:00:00" 1 103 103 two_positions).
Proof.
  assert (H : close_row_stored 1 103 103 two_positions).
  { intros transaction Hsel. vm_compute in Hsel. inversion Hsel; subst transaction.
    repeat split; vm_compute; reflexivity. }
  split; [exact H|].
  exact (record_sell_twice "2024-01-02 00:00:00" "2024-01-03 00:00:00" 1 103 103 0 0
           two_positions H).
Defined.

Lemma StronglySorted_snoc (l : list Z) (x : Z) :
  StronglySorted Z.lt l -> (forall y, In y l -> y < x) -> StronglySorted Z.lt (l ++ [x]).
Proof.
  induction l as [|y l IH]; cbn [app]; intros Hs Hlt.
  - constructor; constructor.
  - inversion Hs as [|? ? Hs' Hall]; subst. constructor.
    + apply IH; [exact Hs'|]. intros z Hz. apply Hlt. right. exact Hz.
    + apply Forall_app. split; [exact Hall|]. constructor; [|constructor].
      apply Hlt. left. reflexivity.
Qed.

Lemma StronglySorted_ids_filter (g : OpenTbl.row -> bool) (rows : list OpenTbl.row) :
  StronglySorted Z.lt (map OpenTbl.Id rows) ->
  StronglySorted Z.lt (map OpenTbl.Id (filter g rows)).
Proof.
  induction rows as [|r rows IH]; cbn [map filter]; intros Hs; [constructor|].
  inversion Hs as [|? ? Hs' Hall]; subst.
  destruct (g r); cbn [map]; [|exact (IH Hs')].
  constructor; [exact (IH Hs')|].
  apply Forall_forall. intros i Hi. apply in_map_iff in Hi.
  destruct Hi as [q [Hq Hin]]. apply filter_In in Hin. destruct Hin as [Hin _].
  rewrite Forall_forall in Hall. apply Hall. rewrite <- Hq. apply in_map. exact Hin.
Qed.

Lemma next_rowid_positive (ids : list Z) : 1 <= next_rowid ids.
Proof.
  unfold next_rowid. induction ids as [|i ids IH]; cbn [fold_right]; lia.
Qed.

Lemma open_ids_sorted_run (ops : list op) :
  forall s : Store,
    StronglySorted Z.lt (open_ids s) -> Forall (fun i => 1 <= i) (open_ids s) ->
    StronglySorted Z.lt (open_ids (run_ops ops s)) /\
    Forall (fun i => 1 <= i) (open_ids (run_ops ops s)).
Proof.
  induction ops as [|o ops IH]; intros s Hs Hpos; unfold run_ops; cbn [fold_left];
    [split; assumption|].
  apply IH; destruct o as [now a b c|now id a p]; cbn [apply_op].
  - rewrite record_buy_eq. destruct (not_null [a; b; c]); cbn [snd]; [|exact Hs].
    unfold open_ids at 1. cbn [Open]. rewrite map_app.
    cbn [map OpenTbl.Id]. apply StronglySorted_snoc; [exact Hs|].
    intros y Hy. apply next_rowid_above. exact Hy.
  - rewrite record_sell_eq. destruct (int64 id); cbn [snd]; [|exact Hs].
    destruct (select_open id s); [|exact Hs].
    destruct (not_null _); cbn [snd]; [|exact Hs].
    unfold open_ids. cbn [Open]. apply StronglySorted_ids_filter. exact Hs.
  - rewrite record_buy_eq. destruct (not_null [a; b; c]); cbn [snd]; [|exact Hpos].
    unfold open_ids at 1. cbn [Open]. rewrite map_app.
    cbn [map OpenTbl.Id]. apply Forall_app. split; [exact Hpos|].
    constructor; [apply next_rowid_positive | constructor].
  - rewrite record_sell_eq. destruct (int64 id); cbn [snd]; [|exact Hpos].
    destruct (select_open id s); [|exact Hpos].
    destruct (not_null _); cbn [snd]; [|exact Hpos].
    unfold open_ids. cbn [Open]. rewrite Forall_forall in *.
    intros i Hi. apply in_map_iff in Hi. destruct Hi as [q [Hq Hin]].
    apply filter_In in Hin. destruct Hin as [Hin _].
    apply Hpos. rewrite <- Hq. apply in_map. exact Hin.
Qed.

(** In every store reached from the empty one by [record_buy] and
    [record_sell] the open positions are listed by strictly increasing
    id, the ids start at 1, and the next buy gets an id above all of
    them: an open position listed earlier was bought earlier. *)
Theorem open_positions_in_id_order :
  forall ops : list op,
    let s := run_ops ops empty_store in
    StronglySorted Z.lt (map OpenTbl.Id (get_open_positions s)) /\
    Forall (fun i => 1 <= i) (map OpenTbl.Id (get_open_positions s)) /\
    Forall (fun i => i < next_rowid (open_ids s)) (map OpenTbl.Id (get_open_positions s)).
Proof.
  intros ops s.
  destruct (open_ids_sorted_run ops empty_store) as [Hs Hpos];
    [constructor | constructor |].
  split; [exact Hs|]. split; [exact Hpos|].
  apply Forall_forall. intros i Hi. apply next_rowid_above. exact Hi.
Qed.

(** ** KPI snapshots *)

Lemma insert_kpis_cases (kpis : pydict pyval) (s : Store) :
  (exists name, In name kpi_parameters /\ dict_get name kpis = None /\
                insert_kpis kpis s = Raise ProgrammingError) \/
  (exists date tp ti nops wt lt avg roi,
     dict_get "Date" kpis = Some date /\
     dict_get "TotalProfit" kpis = Some tp /\
     dict_get "TotalInvestment" kpis = Some ti /\
     dict_get "TotalOperations" kpis = Some nops /\
     dict_get "WinningTrades" kpis = Some wt /\
     dict_get "LosingTrades" kpis = Some lt /\
     dict_get "AverageProfitPerTrade" kpis = Some avg /\
     dict_get "ROI" kpis = Some roi /\
     insert_kpis kpis s =
       if existsb (fun r => pyval_eqb (KPITbl.Date r) date) (KPI s)
       then Raise IntegrityError
       else Ok (mkStore (Open s) (Close s)
                  (KPI s ++ [KPITbl.mk date tp ti nops wt lt avg roi]))).
Proof.
  unfold insert_kpis, bind_param, kpi_parameters.
  destruct (dict_get "Date" kpis) as [date|] eqn:H1;
    [|left; exists "Date"; cbn; tauto].
  destruct (dict_get "TotalProfit" kpis) as [tp|] eqn:H2;
    [|left; exists "TotalProfit"; cbn; tauto].
  destruct (dict_get "TotalInvestment" kpis) as [ti|] eqn:H3;
    [|left; exists "TotalInvestment"; cbn; tauto].
  destruct (dict_get "TotalOperations" kpis) as [nops|] eqn:H4;
    [|left; exists "TotalOperations"; cbn; tauto].
  destruct (dict_get "WinningTrades" kpis) as [wt|] eqn:H5;
    [|left; exists "WinningTrades"; cbn; tauto].
  destruct (dict_get "LosingTrades" kpis) as [lt|] eqn:H6;
    [|left; exists "LosingTrades"; cbn; tauto].
  destruct (dict_get "AverageProfitPerTrade" kpis) as [avg|] eqn:H7;
    [|left; exists "AverageProfitPerTrade"; cbn; tauto].
  destruct (dict_get "ROI" kpis) as [roi|] eqn:H8;
    [|left; exists "ROI"; cbn; tauto].
  right. exists date, tp, ti, nops, wt, lt, avg, roi. cbn [res_bind]. tauto.
Qed.

(** [insert_kpis] on a dict whose values have the types of their
    columns (a string [Date], floats other than NaN and [-0.0] for the
    REAL columns, ints within 64 bits for the INTEGER columns), on a
    table whose stored dates are strings: it appends one row, made of
    the values bound to the eight names of the statement and of
    nothing else in the dict, exactly when the dict has these eight
    keys and no snapshot with that [Date] is stored; it raises
    [ProgrammingError] when one of the keys is missing and
    [IntegrityError] when the [Date] is taken, and then stores
    nothing. [Open] and [Close] are never touched. *)
Theorem insert_kpis_outcomes :
  forall (kpis : pydict pyval) (s : Store),
    typed_as_columns kpis ->
    text_dates kpis s ->
    match insert_kpis kpis s with
    | Ok s' =>
        Open s' = Open s /\ Close s' = Close s /\
        exists row,
          KPI s' = KPI s ++ [row] /\
          dict_get "Date" kpis = Some (KPITbl.Date row) /\
          dict_get "TotalProfit" kpis = Some (KPITbl.TotalProfit row) /\
          dict_get "TotalInvestment" kpis = Some (KPITbl.TotalInvestment row) /\
          dict_get "TotalOperations" kpis = Some (KPITbl.TotalOperations row) /\
          dict_get "WinningTrades" kpis = Some (KPITbl.WinningTrades row) /\
          dict_get "LosingTrades" kpis = Some (KPITbl.LosingTrades row) /\
          dict_get "AverageProfitPerTrade" kpis =
            Some (KPITbl.AverageProfitPerTrade row) /\
          dict_get "ROI" kpis = Some (KPITbl.ROI row) /\
          existsb (fun r => pyval_eqb (KPITbl.Date r) (KPITbl.Date row)) (KPI s) = false
    | Raise e =>
        (e = ProgrammingError /\
         exists name, In name kpi_parameters /\ dict_get name kpis = None) \/
        (e = IntegrityError /\
         exists date,
           dict_get "Date" kpis = Some date /\
           existsb (fun r => pyval_eqb (KPITbl.Date r) date) (KPI s) = true)
    end.
Proof.
  intros kpis s _ _.
  destruct (insert_kpis_cases kpis s)
    as [[name [Hin [Hnone Hrun]]]
       |[date [tp [ti [nops [wt [lt [avg [roi
           [H1 [H2 [H3 [H4 [H5 [H6 [H7 [H8 Hrun]]]]]]]]]]]]]]]]]; rewrite Hrun.
  - left. split; [reflexivity|]. exists name. split; assumption.
  - destruct (existsb (fun r => pyval_eqb (KPITbl.Date r) date) (KPI s)) eqn:Hdup.
    + right. split; [reflexivity|]. exists date. split; assumption.
    + cbn [Open Close KPI]. split; [reflexivity|]. split; [reflexivity|].
      eexists. split; [reflexivity|]. cbn. repeat split; assumption.
Qed.

Lemma snapshot_at_bindable (now : string) : bindable (snapshot_at now).
Proof.
  intros name v Hin Hget. cbn in Hin.
  repeat (destruct Hin as [Hin|Hin];
          [subst name; cbn in Hget; inversion Hget; subst v; cbn; try exact I; lia|]).
  contradiction.
Qed.

Lemma snapshot_at_typed (now : string) : typed_as_columns (snapshot_at now).
Proof.
  intros name v Hin Hget. cbn in Hin.
  repeat (destruct Hin as [Hin|Hin];
          [subst name; cbn in Hget; inversion Hget; subst v;
           vm_compute; try exact I; try reflexivity; split; reflexivity|]).
  contradiction.
Qed.

Lemma insert_kpis_outcomes_witness :
  typed_as_columns (snapshot_at "2024-01-02 00:00:00") /\
  text_dates (snapshot_at "2024-01-02 00:00:00") empty_store /\
  match insert_kpis (snapshot_at "2024-01-02 00:00:00") empty_store with
  | Ok s' =>
      Open s' = Open empty_store /\ Close s' = Close empty_store /\
      exists row, KPI s' = KPI empty_store ++ [row]
  | Raise _ => False
  end.
Proof.
  assert (H1 : typed_as_columns (snapshot_at "2024-01-02 00:00:00"))
    by apply snapshot_at_typed.
  assert (H2 : text_dates (snapshot_at "2024-01-02 00:00:00") empty_store).
  { split; [|constructor]. intros v Hv. cbn in Hv. inversion Hv. eexists. reflexivity. }
  split; [exact H1|]. split; [exact H2|].
  pose proof (insert_kpis_outcomes (snapshot_at "2024-01-02 00:00:00") empty_store H1 H2)
    as H.
  cbn in H |- *. destruct H as [Ho [Hc [row [Hrow _]]]].
  split; [exact Ho|]. split; [exact Hc|]. exists row. exact Hrow.
Defined.

(** Two snapshots with the same [Date] string, as two runs of the
    aggregator within one second would produce, the second one with
    its eight keys and values that can be bound: when the first insert
    succeeds, the second raises [IntegrityError]. *)
Theorem second_snapshot_with_same_date :
  forall (kpis kpis' : pydict pyval) (d : string) (s s' : Store),
    dict_get "Date" kpis = Some (PyStr d) ->
    dict_get "Date" kpis' = Some (PyStr d) ->
    (forall name, In name kpi_parameters -> dict_get name kpis' <> None) ->
    bindable kpis' ->
    insert_kpis kpis s = Ok s' ->
    insert_kpis kpis' s' = Raise IntegrityError.
Proof.
  intros kpis kpis' d s s' Hd Hd' Hkeys _ Hok.
  destruct (insert_kpis_cases kpis s)
    as [[name [_ [_ Hrun]]]
       |[date [tp [ti [nops [wt [lt [avg [roi [H1 [_ [_ [_ [_ [_ [_ [_ Hrun]]]]]]]]]]]]]]]]];
    rewrite Hrun in Hok; [discriminate|].
  rewrite Hd in H1. inversion H1; subst date.
  destruct (existsb (fun r => pyval_eqb (KPITbl.Date r) (PyStr d)) (KPI s));
    [discriminate|].
  inversion Hok; subst s'. clear Hok Hrun.
  destruct (insert_kpis_cases kpis'
              (mkStore (Open s) (Close s)
                 (KPI s ++ [KPITbl.mk (PyStr d) tp ti nops wt lt avg roi])))
    as [[name [Hin [Hnone _]]]
       |[date [tp' [ti' [nops' [wt' [lt' [avg' [roi' [H1' [_ [_ [_ [_ [_ [_ [_ Hrun]]]]]]]]]]]]]]]]].
  - exfalso. exact (Hkeys name Hin Hnone).
  - rewrite Hrun. rewrite Hd' in H1'. inversion H1'; subst date.
    cbn [KPI]. rewrite existsb_app. cbn [existsb KPITbl.Date pyval_eqb].
    rewrite String.eqb_refl, orb_true_r. reflexivity.
Qed.

Lemma second_snapshot_with_same_date_witness :
  exists s',
    insert_kpis (snapshot_at "2024-01-02 00:00:00") empty_store = Ok s' /\
    insert_kpis (snapshot_at "2024-01-02 00:00:00") s' = Raise IntegrityError.
Proof.
  eexists. split; [reflexivity|].
  apply (second_snapshot_with_same_date (snapshot_at "2024-01-02 00:00:00")
           (snapshot_at "2024-01-02 00:00:00") "2024-01-02 00:00:00" empty_store).
  - reflexivity.
  - reflexivity.
  - intros name Hin. cbn in Hin.
    repeat (destruct Hin as [Hin|Hin]; [subst name; discriminate|]). contradiction.
  - apply snapshot_at_bindable.
  - reflexivity.
Defined.

(** ** What an evaluation may do *)

Section Steps.

Context {X : Type}.
Variable client : Client X.
Variable impl : string -> float -> bool -> bool -> SE X (option Order).

(** A silent computation followed by one with the shape of a buy. *)
Lemma buy_shaped_bind {A B : Type} (invest : float) (symbol : string)
    (c : SE (World X) A) (k : A -> SE (World X) B) :
  silent c ->
  (forall a w, buy_shaped client invest symbol w (snd (k a w))) ->
  forall w, buy_shaped client invest symbol w (snd (bind c k w)).
Proof.
  intros Hc Hk w. unfold bind. destruct (Hc w) as [Hcalls Hdb].
  destruct (c w) as [[a|e] w1]; cbn [snd] in *; [|left; split; assumption].
  specialize (Hk a w1). unfold buy_shaped in *. rewrite Hcalls, Hdb in Hk. exact Hk.
Qed.

Lemma buy_shaped_silent {A : Type} (invest : float) (symbol : string)
    (c : SE (World X) A) :
  silent c -> forall w, buy_shaped client invest symbol w (snd (c w)).
Proof. intros Hc w. left. exact (Hc w). Qed.

Lemma buy_and_record_shaped (invest : float) (symbol : string) (w : World X) :
  buy_shaped client invest symbol w (snd (buy_and_record client impl invest symbol w)).
Proof.
  destruct (impl symbol invest true true (env w)) as [[[order|]|e] x'] eqn:Himpl;
    unfold buy_and_record, bind, call_execute_order, list_item, ret, raise,
      data_manager_record_buy;
    cbv beta; rewrite Himpl.
  - right. exists true. destruct (nth_error (fills order) 0) as [f|]; cbn [snd calls db env].
    + destruct (record_buy (datetime_now client x') invest (qty f) (price f) (db w))
        as [r s'] eqn:Hrec. cbn [snd calls db env].
      split; [reflexivity|]. right. split; [reflexivity|]. exists f.
      rewrite Hrec. reflexivity.
    + split; [reflexivity|]. left. reflexivity.
  - right. exists false. split; [reflexivity|]. left. reflexivity.
  - right. exists false. split; [reflexivity|]. left. reflexivity.
Qed.

(** A buy evaluation makes at most one call of [self.execute_order],
    a buy for the invest amount given in USD, and writes at most one
    thing to the ledger: one new open position, bought for the invest
    amount, and only when that call returned an order. It closes
    nothing and sells nothing, whatever the client and the
    implementation of [execute_order] do. *)
Theorem buy_evaluation_does_at_most_one_buy :
  forall (invest : float) (symbol : string) (w : World X),
    buy_shaped client invest symbol w
      (snd (compare_and_buy client impl invest symbol w)).
Proof.
  intros invest symbol. rewrite (compare_and_buy_tail client impl).
  apply buy_shaped_bind; [apply silent_get_open_positions|]. intros positions.
  apply buy_shaped_bind; [apply silent_lift_env|]. intros prices.
  apply buy_shaped_bind; [apply silent_list_item|]. intros candle0.
  apply buy_shaped_bind; [apply silent_list_item|]. intros price_yesterday.
  apply buy_shaped_bind; [apply silent_list_item|]. intros candle1.
  apply buy_shaped_bind; [apply silent_list_item|]. intros price_today.
  destruct (PrimFloat.ltb _ price_yesterday); [|apply buy_shaped_silent, silent_ret].
  apply buy_shaped_bind.
  { unfold lt_maybe_none. destruct (_get_minimum_buy_price positions);
      [apply silent_ret | apply silent_raise]. }
  intros cheaper. destruct cheaper; [|apply buy_shaped_silent, silent_ret].
  apply buy_shaped_bind; [apply silent_lift_env|]. intros balances.
  apply buy_shaped_bind; [apply silent_expr|]. intros usd.
  destruct (PrimFloat.ltb invest (snd usd)); [|apply buy_shaped_silent, silent_ret].
  apply buy_and_record_shaped.
Qed.

End Steps.


Section SellLoopAny.

Context {X : Type}.
Variable client : Client X.
Variable impl : string -> float -> bool -> bool -> SE X (option Order).
Variable symbol : string.

(** The sell loop under any implementation of [execute_order], also
    one that raises in the middle of the loop. *)
Lemma sell_loop_any (Pc : float) (todo : list OpenTbl.row) :
  forall (w w' : World X) (result : res unit),
    for_each todo (close_if_profitable client impl symbol Pc) w = (result, w') ->
    NoDup (open_ids (db w)) ->
    NoDup (map OpenTbl.Id todo) ->
    incl todo (Open (db w)) ->
    exists (new : list Call) (sold : list OpenTbl.row) (rows : list CloseTbl.row),
      calls w' = calls w ++ new /\
      Forall (is_sell_of symbol) new /\
      incl sold (filter (sell_signal Pc) todo) /\
      Open (db w') = filter (not_among sold) (Open (db w)) /\
      Close (db w') = Close (db w) ++ rows /\
      Forall2 (closes Pc) sold rows /\
      KPI (db w') = KPI (db w) /\
      (List.length (Open (db w')) + List.length rows = List.length (Open (db w)))%nat /\
      (List.length new <= List.length todo)%nat.
Proof.
  induction todo as [|p rest IH]; intros w w' result Hrun Hnd Htodo Hincl.
  - cbn [for_each] in Hrun. unfold ret in Hrun. inversion Hrun; subst w' result.
    exists [], [], [].
    split; [rewrite app_nil_r; reflexivity|]. split; [constructor|].
    split; [intros q []|].
    split; [symmetry; apply filter_keep_all; reflexivity|].
    split; [rewrite app_nil_r; reflexivity|].
    split; [constructor|]. split; [reflexivity|]. cbn [List.length]. lia.
  - cbn [for_each] in Hrun. unfold bind in Hrun.
    rewrite close_if_profitable_step in Hrun.
    inversion Htodo as [|? ? Hp Hrest]; subst.
    assert (Hin : In p (Open (db w))) by (apply Hincl; left; reflexivity).
    assert (Hincl' : incl rest (Open (db w))).
    { intros q Hq. apply Hincl. right. exact Hq. }
    assert (Hsell : forall ok, is_sell_of symbol (sell_call symbol (p, ok))).
    { intros ok. repeat split. }
    cbn [filter]. destruct (sell_signal Pc p) eqn:Hsig.
    + destruct (impl symbol (OpenTbl.AmountBTC p) false false (env w)) as [[[o|]|e] x'].
      * assert (Hsel : select_open (OpenTbl.Id p) (db w) = Some p).
        { unfold select_open. apply find_by_id; assumption. }
        assert (Hstop : forall e : exn,
                  (Raise e,
                   mkWorld (db w) x' (calls w ++ [sell_call symbol (p, true)])) =
                  (result, w') ->
                  exists (new : list Call) (sold : list OpenTbl.row)
                         (rows : list CloseTbl.row),
                    calls w' = calls w ++ new /\
                    Forall (is_sell_of symbol) new /\
                    incl sold (p :: filter (sell_signal Pc) rest) /\
                    Open (db w') = filter (not_among sold) (Open (db w)) /\
                    Close (db w') = Close (db w) ++ rows /\
                    Forall2 (closes Pc) sold rows /\
                    KPI (db w') = KPI (db w) /\
                    (List.length (Open (db w')) + List.length rows =
                     List.length (Open (db w)))%nat /\
                    (List.length new <= List.length (p :: rest))%nat).
        { intros e Hstopped. inversion Hstopped; subst w' result.
          exists [sell_call symbol (p, true)], [], []. cbn [db calls].
          split; [reflexivity|]. split; [constructor; [apply Hsell | constructor]|].
          split; [intros q []|].
          split; [symmetry; apply filter_keep_all; reflexivity|].
          split; [rewrite app_nil_r; reflexivity|].
          split; [constructor|]. split; [reflexivity|]. cbn [List.length]. lia. }
        rewrite record_sell_eq, Hsel in Hrun.
        destruct (int64 (OpenTbl.Id p)); cbn [fst snd] in Hrun;
          [|exact (Hstop _ Hrun)].
        destruct (not_null _); cbn [fst snd] in Hrun; [|exact (Hstop _ Hrun)].
        clear Hstop.
        set (row := CloseTbl.mk (next_rowid (close_ids (db w))) (OpenTbl.BuyDate p)
                      (datetime_now client x') (OpenTbl.BuyAmountUSD p)
                      (PrimFloat.mul (OpenTbl.AmountBTC p) Pc) (OpenTbl.AmountBTC p)
                      (OpenTbl.BuyPrice p) Pc
                      (PrimFloat.sub (PrimFloat.mul (OpenTbl.AmountBTC p) Pc)
                         (OpenTbl.BuyAmountUSD p))) in Hrun.
        set (s1 := mkStore (delete_open (OpenTbl.Id p) (Open (db w)))
                     (Close (db w) ++ [row]) (KPI (db w))) in Hrun.
        assert (Hs1 : s1 =
                  mkStore (delete_open (OpenTbl.Id p) (Open (db w)))
                    (Close (db w) ++ [row]) (KPI (db w))) by reflexivity.
        destruct (IH _ _ _ Hrun)
          as [new [sold [rows [Hcalls [Hnew [Hsold [Hopen [Hclose [Hrows [Hkpi [Hlen Hnum]]]]]]]]]]].
        { cbn [db]. rewrite Hs1. unfold open_ids. cbn [Open].
          apply NoDup_map_filter. exact Hnd. }
        { exact Hrest. }
        { cbn [db]. rewrite Hs1. cbn [Open]. intros q Hq. unfold delete_open.
          apply filter_In. split; [apply Hincl'; exact Hq|].
          destruct (Z.eqb_spec (OpenTbl.Id q) (OpenTbl.Id p)) as [E|_]; [|reflexivity].
          exfalso. apply Hp. rewrite <- E. apply in_map. exact Hq. }
        cbn [db calls] in Hcalls, Hopen, Hclose, Hkpi, Hlen.
        exists (sell_call symbol (p, true) :: new), (p :: sold), (row :: rows).
        split; [rewrite Hcalls, <- app_assoc; reflexivity|].
        split; [constructor; [apply Hsell | exact Hnew]|].
        split; [intros q [Hq|Hq]; [left; exact Hq | right; apply Hsold; exact Hq]|].
        split; [|split; [|split]].
        -- rewrite Hopen, Hs1. cbn [Open]. unfold delete_open.
           rewrite filter_filter.
           apply filter_ext. intros r. unfold not_among.
           cbn [map existsb]. rewrite negb_orb. reflexivity.
        -- rewrite Hclose, Hs1. cbn [Close]. rewrite <- app_assoc. reflexivity.
        -- constructor; [|exact Hrows]. constructor; reflexivity.
        -- split; [rewrite Hkpi, Hs1; reflexivity|].
           destruct (delete_open_split (OpenTbl.Id p) (Open (db w)) p Hnd Hsel)
             as [l1 [l2 [Hsplit [Hdel _]]]].
           rewrite Hs1 in Hlen. cbn [Open] in Hlen. rewrite Hdel in Hlen.
           rewrite Hsplit. rewrite length_app in *. cbn [List.length] in *.
           split; lia.
      * destruct (IH _ _ _ Hrun)
          as [new [sold [rows [Hcalls [Hnew [Hsold [Hopen [Hclose [Hrows [Hkpi [Hlen Hnum]]]]]]]]]]];
          [exact Hnd | exact Hrest | exact Hincl' |].
        cbn [db calls] in Hcalls, Hopen, Hclose, Hkpi, Hlen.
        exists (sell_call symbol (p, false) :: new), sold, rows.
        split; [rewrite Hcalls, <- app_assoc; reflexivity|].
        split; [constructor; [apply Hsell | exact Hnew]|].
        split; [intros q Hq; right; apply Hsold; exact Hq|].
        cbn [List.length]. repeat split; try assumption. lia.
      * inversion Hrun; subst w' result.
        exists [sell_call symbol (p, false)], [], []. cbn [db calls].
        split; [reflexivity|]. split; [constructor; [apply Hsell | constructor]|].
        split; [intros q []|].
        split; [symmetry; apply filter_keep_all; reflexivity|].
        split; [rewrite app_nil_r; reflexivity|].
        split; [constructor|]. split; [reflexivity|]. cbn [List.length]. lia.
    + destruct (IH _ _ _ Hrun Hnd Hrest Hincl')
        as [new [sold [rows [Hcalls [Hnew [Hsold [Hopen [Hclose [Hrows [Hkpi [Hlen Hnum]]]]]]]]]]].
      exists new, sold, rows. cbn [List.length].
      repeat split; try assumption. lia.
Qed.

(** A sell evaluation on a ledger with distinct open ids, whatever the
    client and the implementation of [execute_order] do, also when one
    of them raises: every call it makes is a sell in the base asset, at
    most one per open position; no open position is added or altered;
    the rows of [Close] from before are kept in place, each new row
    takes one position out of [Open], and [KPI] is untouched. *)
Theorem sell_evaluation_only_sells :
  forall w : World X,
    NoDup (open_ids (db w)) ->
    let w' := snd (check_and_close_positions client impl symbol w) in
    exists (new : list Call) (rows : list CloseTbl.row),
      calls w' = calls w ++ new /\
      Forall (is_sell_of symbol) new /\
      (List.length new <= List.length (Open (db w)))%nat /\
      incl (Open (db w')) (Open (db w)) /\
      Close (db w') = Close (db w) ++ rows /\
      (List.length (Open (db w')) + List.length rows = List.length (Open (db w)))%nat /\
      KPI (db w') = KPI (db w).
Proof.
  intros w Hnd. cbn zeta.
  unfold check_and_close_positions, bind, data_manager_get_open_positions, lift_env,
    get_open_positions.
  destruct (get_symbol_ticker client symbol (env w)) as [[Pc|e] x1].
  - destruct (for_each (Open (db w)) (close_if_profitable client impl symbol Pc)
                (mkWorld (db w) x1 (calls w))) as [result w'] eqn:Hrun.
    destruct (sell_loop_any Pc (Open (db w)) _ _ _ Hrun Hnd Hnd (incl_refl _))
      as [new [sold [rows [Hcalls [Hnew [Hsold [Hopen [Hclose [Hrows [Hkpi [Hlen Hnum]]]]]]]]]]].
    cbn [snd db calls] in *.
    exists new, rows.
    split; [exact Hcalls|]. split; [exact Hnew|]. split; [exact Hnum|].
    split; [rewrite Hopen; intros q Hq; apply filter_In in Hq; tauto|].
    split; [exact Hclose|]. split; [exact Hlen | exact Hkpi].
  - exists [], []. cbn [snd db calls List.length].
    split; [rewrite app_nil_r; reflexivity|]. split; [constructor|].
    split; [lia|]. split; [apply incl_refl|].
    split; [rewrite app_nil_r; reflexivity|]. split; [lia | reflexivity].
Qed.


End SellLoopAny.

Lemma two_positions_distinct : NoDup (open_ids two_positions).
Proof.
  cbn. constructor.
  - cbn. intros [H|[]]. discriminate H.
  - constructor; [intros [] | constructor].
Qed.

Lemma sell_evaluation_only_sells_witness :
  let w := mkWorld two_positions ticker_102 [] in
  let w' := snd (check_and_close_positions sim_client
                   (execute_order sim_client unit_step_math) "BTCUSDT" w) in
  NoDup (open_ids (db w)) /\
  exists (new : list Call) (rows : list CloseTbl.row),
    calls w' = calls w ++ new /\
    Forall (is_sell_of "BTCUSDT") new /\
    (List.length new <= List.length (Open (db w)))%nat /\
    incl (Open (db w')) (Open (db w)) /\
    Close (db w') = Close (db w) ++ rows /\
    (List.length (Open (db w')) + List.length rows = List.length (Open (db w)))%nat /\
    KPI (db w') = KPI (db w).
Proof.
  intros w w'. split; [exact two_positions_distinct|].
  exact (sell_evaluation_only_sells sim_client (execute_order sim_client unit_step_math)
           "BTCUSDT" (mkWorld two_positions ticker_102 []) two_positions_distinct).
Defined.


(** ** Relating the ledger before and after an evaluation *)

Section LedgerSteps.

Context {X : Type}.
Variable client : Client X.
Variable impl : string -> float -> bool -> bool -> SE X (option Order).
Variable R : Store -> Store -> Prop.
Hypothesis R_refl : forall s, R s s.
Hypothesis R_trans : forall s1 s2 s3, R s1 s2 -> R s2 s3 -> R s1 s3.
Hypothesis R_buy :
  forall invest symbol, ledger_steps R (buy_and_record client impl invest symbol).
Hypothesis R_sell :
  forall symbol Pc p, ledger_steps R (close_if_profitable client impl symbol Pc p).

Lemma steps_of_silent {A : Type} (c : SE (World X) A) : silent c -> ledger_steps R c.
Proof. intros Hc w. destruct (Hc w) as [_ Hdb]. rewrite Hdb. apply R_refl. Qed.

Lemma steps_bind {A B : Type} (c : SE (World X) A) (k : A -> SE (World X) B) :
  ledger_steps R c -> (forall a, ledger_steps R (k a)) -> ledger_steps R (bind c k).
Proof.
  intros Hc Hk w. unfold bind. specialize (Hc w).
  destruct (c w) as [[a|e] w1]; cbn [snd] in *; [|exact Hc].
  exact (R_trans _ _ _ Hc (Hk a w1)).
Qed.

Lemma steps_compare_and_buy (invest : float) (symbol : string) :
  ledger_steps R (compare_and_buy client impl invest symbol).
Proof.
  rewrite compare_and_buy_tail.
  apply steps_bind; [apply steps_of_silent, silent_get_open_positions|]. intros positions.
  apply steps_bind; [apply steps_of_silent, silent_lift_env|]. intros prices.
  apply steps_bind; [apply steps_of_silent, silent_list_item|]. intros candle0.
  apply steps_bind; [apply steps_of_silent, silent_list_item|]. intros price_yesterday.
  apply steps_bind; [apply steps_of_silent, silent_list_item|]. intros candle1.
  apply steps_bind; [apply steps_of_silent, silent_list_item|]. intros price_today.
  destruct (PrimFloat.ltb _ price_yesterday); [|apply steps_of_silent, silent_ret].
  apply steps_bind.
  { apply steps_of_silent. unfold lt_maybe_none.
    destruct (_get_minimum_buy_price positions); [apply silent_ret | apply silent_raise]. }
  intros cheaper. destruct cheaper; [|apply steps_of_silent, silent_ret].
  apply steps_bind; [apply steps_of_silent, silent_lift_env|]. intros balances.
  apply steps_bind; [apply steps_of_silent, silent_expr|]. intros usd.
  destruct (PrimFloat.ltb invest (snd usd)); [|apply steps_of_silent, silent_ret].
  apply R_buy.
Qed.

Lemma steps_check_and_close_positions (symbol : string) :
  ledger_steps R (check_and_close_positions client impl symbol).
Proof.
  unfold check_and_close_positions.
  apply steps_bind; [apply steps_of_silent, silent_get_open_positions|].
  intros open_positions.
  apply steps_bind; [apply steps_of_silent, silent_lift_env|]. intros current_price.
  induction open_positions as [|p rest IH]; cbn [for_each];
    [apply steps_of_silent, silent_ret|].
  apply steps_bind; [apply R_sell | intros _; exact IH].
Qed.

Lemma steps_daily_cycle (invest : float) (symbol : string) :
  ledger_steps R (daily_cycle client impl invest symbol).
Proof.
  intros w. unfold daily_cycle, try_except_all.
  pose proof (steps_bind _ (fun _ : unit =>
                bind (check_and_close_positions client impl symbol)
                  (fun _ : unit => @ret (World X) (option exn) None))
                (steps_compare_and_buy invest symbol)
                (fun _ => steps_bind _ _ (steps_check_and_close_positions symbol)
                            (fun _ => steps_of_silent _ (silent_ret None))) w) as H.
  destruct (bind (compare_and_buy client impl invest symbol) _ w) as [[a|e] w1];
    cbn [snd ret] in *; exact H.
Qed.

End LedgerSteps.

(** ** A bot whose orders are never returned *)

Lemma never_orders_keeps_buy {X : Type} (client : Client X)
    (impl : string -> float -> bool -> bool -> SE X (option Order)) :
  never_orders impl ->
  forall invest symbol, ledger_steps eq (buy_and_record client impl invest symbol).
Proof.
  intros Hnever invest symbol w.
  pose proof (Hnever symbol invest true true (env w)) as Hno.
  destruct (impl symbol invest true true (env w)) as [[[order|]|e] x'] eqn:Himpl;
    unfold buy_and_record, bind, call_execute_order, ret; cbv beta; rewrite Himpl.
  - exfalso. exact (Hno order eq_refl).
  - reflexivity.
  - reflexivity.
Qed.

Lemma never_orders_keeps_sell {X : Type} (client : Client X)
    (impl : string -> float -> bool -> bool -> SE X (option Order)) :
  never_orders impl ->
  forall symbol Pc p, ledger_steps eq (close_if_profitable client impl symbol Pc p).
Proof.
  intros Hnever symbol Pc p w. rewrite close_if_profitable_step.
  destruct (sell_signal Pc p); [|reflexivity].
  pose proof (Hnever symbol (OpenTbl.AmountBTC p) false false (env w)) as Hno.
  destruct (impl symbol (OpenTbl.AmountBTC p) false false (env w)) as [[[order|]|e] x'].
  - exfalso. exact (Hno order eq_refl).
  - reflexivity.
  - reflexivity.
Qed.

Lemma execute_order_test_never_orders {X : Type} (client : Client X) :
  never_orders (execute_order_test client).
Proof.
  intros symbol amount is_buy in_usd x o.
  unfold execute_order_test, bind, try_except, ret, expr.
  destruct in_usd.
  - destruct (get_symbol_ticker client symbol x) as [[price|e] x1]; [|discriminate].
    destruct (PyFloat.truediv amount price) as [q|e]; [|discriminate].
    destruct (create_test_order client symbol is_buy q x1) as [[u|e] x2];
      [discriminate|].
    destruct (exn_eqb e BinanceAPIException); discriminate.
  - destruct (create_test_order client symbol is_buy amount x) as [[u|e] x2];
      [discriminate|].
    destruct (exn_eqb e BinanceAPIException); discriminate.
Qed.

(** The test bot, whose [execute_order] only simulates the order,
    never writes to the ledger: neither evaluation, nor a whole daily
    cycle, records a buy or a close, whatever the client answers. *)
Theorem test_bot_never_records :
  forall (X : Type) (client : Client X) (invest : float) (symbol : string) (w : World X),
    db (snd (compare_and_buy client (execute_order_test client) invest symbol w)) = db w /\
    db (snd (check_and_close_positions client (execute_order_test client) symbol w)) =
      db w /\
    db (snd (daily_cycle client (execute_order_test client) invest symbol w)) = db w.
Proof.
  intros X client invest symbol w.
  pose proof (execute_order_test_never_orders client) as Hnever.
  pose proof (never_orders_keeps_buy client _ Hnever) as Hbuy.
  pose proof (never_orders_keeps_sell client _ Hnever) as Hsell.
  assert (Htrans : forall s1 s2 s3 : Store, s1 = s2 -> s2 = s3 -> s1 = s3)
    by (intros; congruence).
  split; [|split]; symmetry.
  - exact (steps_compare_and_buy client _ eq (@eq_refl Store) Htrans Hbuy invest symbol w).
  - exact (steps_check_and_close_positions client _ eq (@eq_refl Store) Htrans Hsell
             symbol w).
  - exact (steps_daily_cycle client _ eq (@eq_refl Store) Htrans Hbuy Hsell invest symbol w).
Qed.

(** ** The ledger invariant over a cycle *)

Lemma keeps_ok_buy {X : Type} (client : Client X)
    (impl : string -> float -> bool -> bool -> SE X (option Order)) :
  forall invest symbol, ledger_steps keeps_ok (buy_and_record client impl invest symbol).
Proof.
  intros invest symbol w Hok.
  destruct (impl symbol invest true true (env w)) as [[[order|]|e] x'] eqn:Himpl;
    unfold buy_and_record, bind, call_execute_order, list_item, ret, raise,
      data_manager_record_buy; cbv beta; rewrite Himpl; cbn [snd db];
    try exact Hok.
  destruct (nth_error (fills order) 0) as [f|]; cbn [snd db env calls]; [|exact Hok].
  destruct Hok as [n Hinv].
  pose proof (ledger_inv_buy n (db w) (datetime_now client x') invest (qty f) (price f)
                Hinv) as Hbuy.
  destruct (record_buy (datetime_now client x') invest (qty f) (price f) (db w))
    as [r s1]; cbn [snd db] in *.
  eexists. exact Hbuy.
Qed.

Lemma keeps_ok_sell {X : Type} (client : Client X)
    (impl : string -> float -> bool -> bool -> SE X (option Order)) :
  forall symbol Pc p, ledger_steps keeps_ok (close_if_profitable client impl symbol Pc p).
Proof.
  intros symbol Pc p w Hok. rewrite close_if_profitable_step.
  destruct (sell_signal Pc p); [|exact Hok].
  destruct (impl symbol (OpenTbl.AmountBTC p) false false (env w)) as [[[order|]|e] x'];
    cbn [snd db]; try exact Hok.
  destruct Hok as [n Hinv]. exists n. apply ledger_inv_sell. exact Hinv.
Qed.

(** A daily cycle keeps what the recording methods keep, whatever the
    client and the implementation of [execute_order] do and whether or
    not an exception ends the cycle: after it the open ids are still
    distinct, the rows of [Close] are still numbered from one, and
    every close row still has [Profit = SellAmountUSD - BuyAmountUSD]. *)
Theorem daily_cycle_keeps_ledger_invariant :
  forall (X : Type) (client : Client X)
         (impl : string -> float -> bool -> bool -> SE X (option Order))
         (invest : float) (symbol : string) (w : World X),
    ledger_ok (db w) ->
    let s' := db (snd (daily_cycle client impl invest symbol w)) in
    NoDup (open_ids s') /\
    close_ids s' = map Z.of_nat (seq 1 (List.length (Close s'))) /\
    (forall r, In r (Close s') ->
       CloseTbl.Profit r =
       PrimFloat.sub (CloseTbl.SellAmountUSD r) (CloseTbl.BuyAmountUSD r)).
Proof.
  intros X client impl invest symbol w Hok s'.
  assert (Hrefl : forall s, keeps_ok s s) by (intros s H; exact H).
  assert (Htrans : forall s1 s2 s3, keeps_ok s1 s2 -> keeps_ok s2 s3 -> keeps_ok s1 s3)
    by (intros s1 s2 s3 H12 H23 H; exact (H23 (H12 H))).
  destruct (steps_daily_cycle client impl keeps_ok Hrefl Htrans
              (keeps_ok_buy client impl) (keeps_ok_sell client impl) invest symbol w Hok)
    as [n [Hnd Hids Hprofit _]].
  split; [exact Hnd|]. split; [exact Hids | exact Hprofit].
Qed.

Lemma daily_cycle_keeps_ledger_invariant_witness :
  ledger_ok two_positions /\
  NoDup (open_ids (db (snd (sim_daily_cycle 100 "BTCUSDT"
                              (mkWorld two_positions ticker_102 []))))).
Proof.
  assert (Hok : ledger_ok two_positions).
  { exists 2%nat.
    exact (ledger_inv_run [Buy "2024-01-01 00:00:00" 100 1 100;
                           Buy "2024-01-01 00:00:00" 100 1 105] 0 empty_store
             ledger_inv_empty). }
  split; [exact Hok|].
  exact (proj1 (daily_cycle_keeps_ledger_invariant Sim sim_client
                  (execute_order sim_client unit_step_math) 100 "BTCUSDT"
                  (mkWorld two_positions ticker_102 []) Hok)).
Defined.

(** ** The empty ledger *)

Lemma compare_and_buy_empty_is_silent {X : Type} (client : Client X)
    (impl : string -> float -> bool -> bool -> SE X (option Order))
    (invest : float) (symbol : string) (w : World X) :
  Open (db w) = [] ->
  calls (snd (compare_and_buy client impl invest symbol w)) = calls w /\
  db (snd (compare_and_buy client impl invest symbol w)) = db w.
Proof.
  intros Hopen.
  pose (rest :=
          bind (lift_env (get_historical_klines client symbol)) (fun prices =>
          bind (list_item prices 0) (fun candle0 =>
          bind (list_item candle0 4) (fun price_yesterday =>
          bind (list_item prices 1) (fun candle1 =>
          bind (list_item candle1 4) (fun price_today =>
          if PrimFloat.ltb (PrimFloat.mul price_today PyFloat.margin) price_yesterday
          then
            bind (@raise (World X) bool TypeError) (fun cheaper =>
            if (cheaper : bool)
            then
              bind (lift_env (get_account_balances client)) (fun balances =>
              bind (expr (dict_item "USD" balances)) (fun usd =>
              if PrimFloat.ltb invest (snd usd)
              then buy_and_record client impl invest symbol
              else ret tt))
            else ret tt)
          else ret tt)))))).
  assert (Hrest : silent rest).
  { subst rest.
    apply silent_bind; [apply silent_lift_env|]. intros prices.
    apply silent_bind; [apply silent_list_item|]. intros candle0.
    apply silent_bind; [apply silent_list_item|]. intros price_yesterday.
    apply silent_bind; [apply silent_list_item|]. intros candle1.
    apply silent_bind; [apply silent_list_item|]. intros price_today.
    destruct (PrimFloat.ltb _ price_yesterday); [|apply silent_ret].
    intros w0. split; reflexivity. }
  assert (Heq : compare_and_buy client impl invest symbol w = rest w).
  { rewrite compare_and_buy_tail. unfold bind at 1.
    unfold data_manager_get_open_positions, get_open_positions.
    rewrite Hopen. reflexivity. }
  rewrite Heq. exact (Hrest w).
Qed.

(** On a ledger without open positions a daily cycle makes no call of
    [self.execute_order] and leaves the ledger as it is, whatever the
    prices, the balance and the exchange: the bot as written cannot
    open its first position. *)
Theorem empty_ledger_stays_empty :
  forall (X : Type) (client : Client X)
         (impl : string -> float -> bool -> bool -> SE X (option Order))
         (invest : float) (symbol : string) (w : World X),
    Open (db w) = [] ->
    calls (snd (daily_cycle client impl invest symbol w)) = calls w /\
    db (snd (daily_cycle client impl invest symbol w)) = db w.
Proof.
  intros X client impl invest symbol w Hopen.
  destruct (compare_and_buy_empty_is_silent client impl invest symbol w Hopen)
    as [Hcalls Hdb].
  destruct (compare_and_buy client impl invest symbol w) as [[u|e] w1] eqn:Hbuy;
    cbn [snd] in Hcalls, Hdb.
  - assert (Hsell : calls (snd (check_and_close_positions client impl symbol w1)) =
                      calls w1 /\
                    db (snd (check_and_close_positions client impl symbol w1)) = db w1).
    { unfold check_and_close_positions, bind, data_manager_get_open_positions, lift_env,
        get_open_positions.
      rewrite Hdb, Hopen.
      destruct (get_symbol_ticker client symbol (env w1)) as [[Pc|e] x1];
        cbn [for_each ret snd calls db]; split; reflexivity. }
    destruct Hsell as [Hcalls' Hdb'].
    destruct (check_and_close_positions client impl symbol w1) as [[u'|e] w2] eqn:Hsell;
      cbn [snd] in Hcalls', Hdb';
      unfold daily_cycle, try_except_all, bind; rewrite Hbuy, Hsell; cbn [ret snd];
      split; congruence.
  - unfold daily_cycle, try_except_all, bind. rewrite Hbuy. cbn [ret snd].
    split; assumption.
Qed.

Lemma empty_ledger_stays_empty_witness :
  Open (db (mkWorld empty_store (downtrend 1000) [])) = [] /\
  calls (snd (sim_daily_cycle 100 "BTCUSDT" (mkWorld empty_store (downtrend 1000) []))) =
    [] /\
  db (snd (sim_daily_cycle 100 "BTCUSDT" (mkWorld empty_store (downtrend 1000) []))) =
    empty_store.
Proof.
  split; [reflexivity|].
  exact (empty_ledger_stays_empty Sim sim_client (execute_order sim_client unit_step_math)
           100 "BTCUSDT" (mkWorld empty_store (downtrend 1000) []) eq_refl).
Defined.

(** ** Account balances *)

Lemma dict_get_set_same {V : Type} (k : string) (v : V) (d : pydict V) :
  dict_get k (dict_set k v d) = Some v.
Proof.
  induction d as [|[k' v'] d IH]; cbn [dict_set dict_get].
  - rewrite String.eqb_refl. reflexivity.
  - destruct (String.eqb k' k) eqn:E; cbn [dict_get]; rewrite E; [reflexivity | exact IH].
Qed.

Lemma dict_get_set_other {V : Type} (k k' : string) (v : V) (d : pydict V) :
  k <> k' -> dict_get k (dict_set k' v d) = dict_get k d.
Proof.
  intros Hne. induction d as [|[k0 v0] d IH]; cbn [dict_set dict_get].
  - destruct (String.eqb_spec k' k) as [E|_]; [|reflexivity].
    exfalso. apply Hne. symmetry. exact E.
  - destruct (String.eqb_spec k0 k') as [E|E]; cbn [dict_get].
    + subst k0. destruct (String.eqb_spec k' k) as [E'|_]; [|reflexivity].
      exfalso. apply Hne. symmetry. exact E'.
    + destruct (String.eqb k0 k); [reflexivity | exact IH].
Qed.

Lemma dict_set_fresh {V : Type} (k : string) (v : V) (d : pydict V) :
  ~ In k (map fst d) -> dict_set k v d = d ++ [(k, v)].
Proof.
  induction d as [|[k' v'] d IH]; cbn [dict_set map fst app In]; intros Hnot;
    [reflexivity|].
  destruct (String.eqb_spec k' k) as [E|_]; [exfalso; apply Hnot; left; exact E|].
  f_equal. apply IH. intros H. apply Hnot. right. exact H.
Qed.

(** The dict of positive balances of an account that lists every asset
    once: the positive entries, in order. *)
Lemma positive_balances (account_info : list (string * float)) :
  forall acc : pydict float,
    NoDup (map fst acc ++ map fst account_info) ->
    fold_left
      (fun d balance =>
         if PrimFloat.ltb PrimFloat.zero (snd balance)
         then dict_set (fst balance) (snd balance) d
         else d)
      account_info acc =
    acc ++ filter (fun balance => PrimFloat.ltb PrimFloat.zero (snd balance)) account_info.
Proof.
  induction account_info as [|[asset free] rest IH]; intros acc Hnd;
    cbn [fold_left filter fst snd map] in *; [rewrite app_nil_r; reflexivity|].
  assert (Hfresh : ~ In asset (map fst acc)).
  { intros Hin. apply NoDup_remove_2 in Hnd. apply Hnd. apply in_or_app. left. exact Hin. }
  destruct (PrimFloat.ltb PrimFloat.zero free).
  - rewrite (dict_set_fresh _ _ _ Hfresh). rewrite IH.
    + rewrite <- app_assoc. reflexivity.
    + rewrite map_app. cbn [map fst]. rewrite <- app_assoc. exact Hnd.
  - apply IH. apply NoDup_remove_1 in Hnd. exact Hnd.
Qed.

Section Balances.

Context {X : Type}.
Variable client : Client X.
Hypothesis ticker_failures :
  forall sym x, api_failure_only (fst (get_symbol_ticker client sym x)).

Lemma get_account_balances_loop (x : X) (account_info : list (string * float)) (x1 : X) :
  get_account client x = (Ok account_info, x1) ->
  NoDup (map fst account_info) ->
  get_account_balances client x =
  try_except
    (for_fold
       (filter (fun balance => PrimFloat.ltb PrimFloat.zero (snd balance)) account_info)
       [] (usd_value_of client))
    BinanceAPIException (ret []) x1.
Proof.
  intros Hacc Hnd. unfold get_account_balances, try_except, bind. rewrite Hacc.
  rewrite (positive_balances account_info []); [reflexivity | exact Hnd].
Qed.

Lemma usd_value_loop (items : list (string * float)) :
  forall (acc : pydict (float * float)) (x : X),
    NoDup (map fst items) ->
    ~ In "USD" (map fst items) ->
    exists d x',
      for_fold items acc (usd_value_of client) x = (Ok d, x') /\
      dict_get "USD" d =
        match find (fun balance => String.eqb (fst balance) "USDT") items with
        | Some balance => Some (snd balance, snd balance)
        | None => dict_get "USD" acc
        end /\
      dict_get "USDT" d = dict_get "USDT" acc.
Proof.
  induction items as [|[asset balance] rest IH]; intros acc x Hnd Husd;
    cbn [for_fold find fst snd map] in *.
  - exists acc, x. repeat split.
  - inversion Hnd as [|? ? Hnotin Hnd']; subst.
    assert (Husd' : ~ In "USD" (map fst rest)) by (intros H; apply Husd; right; exact H).
    assert (Hasset : asset <> "USD") by (intros H; apply Husd; left; exact H).
    unfold bind at 1. unfold usd_value_of at 1. cbn [fst snd].
    destruct (String.eqb_spec asset "USDT") as [E|E]; cbn [negb].
    + subst asset. unfold ret at 1.
      destruct (IH (dict_set "USD" (balance, balance) acc) x Hnd' Husd')
        as [d [x' [Hrun [Hget Hget']]]].
      exists d, x'. split; [exact Hrun|]. split.
      * rewrite Hget.
        destruct (find (fun b => String.eqb (fst b) "USDT") rest) as [b|] eqn:Hfind.
        -- exfalso. apply find_some in Hfind. destruct Hfind as [Hin Hb].
           apply String.eqb_eq in Hb. apply Hnotin. rewrite <- Hb. apply in_map. exact Hin.
        -- apply dict_get_set_same.
      * rewrite Hget'. apply dict_get_set_other. discriminate.
    + assert (Hstep : exists acc' x0,
                try_except
                  (bind (get_symbol_ticker client (String.append asset "USDT"))
                     (fun price =>
                        if PrimFloat.ltb 10%float (PrimFloat.mul price balance)
                        then ret (dict_set asset (balance, PrimFloat.mul price balance) acc)
                        else ret acc))
                  BinanceAPIException (ret acc) x = (Ok acc', x0) /\
                dict_get "USD" acc' = dict_get "USD" acc /\
                dict_get "USDT" acc' = dict_get "USDT" acc).
      { unfold try_except, bind, ret.
        pose proof (ticker_failures (String.append asset "USDT") x) as Ht.
        destruct (get_symbol_ticker client (String.append asset "USDT") x)
          as [[price|e] x0]; cbn [fst api_failure_only] in Ht.
        - destruct (PrimFloat.ltb 10%float (PrimFloat.mul price balance)).
          + eexists _, _. split; [reflexivity|].
            split; apply dict_get_set_other; intros H; [apply Hasset | apply E];
              symmetry; exact H.
          + eexists _, _. repeat split.
        - subst e. eexists _, _. repeat split. }
      destruct Hstep as [acc' [x0 [Hstep [Hk1 Hk2]]]]. rewrite Hstep.
      destruct (IH acc' x0 Hnd' Husd') as [d [x' [Hrun [Hget Hget']]]].
      exists d, x'. split; [exact Hrun|]. rewrite Hget, Hget', Hk1, Hk2. split; reflexivity.
Qed.

End Balances.

Lemma try_except_returns {S A : Type} (body handler : SE S A) (e : exn)
    (s s' : S) (a : A) :
  body s = (Ok a, s') -> try_except body e handler s = (Ok a, s').
Proof. intros H. unfold try_except. rewrite H. reflexivity. Qed.

Lemma NoDup_keys_filter {V : Type} (f : string * V -> bool) (l : list (string * V)) :
  NoDup (map fst l) -> NoDup (map fst (filter f l)).
Proof.
  induction l as [|a l IH]; cbn [filter map]; intros Hnd; [constructor|].
  inversion Hnd as [|? ? Hnotin Hnd']; subst.
  destruct (f a); cbn [map]; [|exact (IH Hnd')].
  constructor; [|exact (IH Hnd')].
  intros Hin. apply Hnotin. apply in_map_iff in Hin. destruct Hin as [b [Hb Hin]].
  apply filter_In in Hin. rewrite <- Hb. apply in_map. exact (proj1 Hin).
Qed.

Lemma find_usdt_positive (account_info : list (string * float)) :
  NoDup (map fst account_info) ->
  match find (fun balance => String.eqb (fst balance) "USDT")
          (filter (fun balance => PrimFloat.ltb PrimFloat.zero (snd balance)) account_info)
  with
  | Some balance => Some (snd balance, snd balance)
  | None => None
  end = option_map (fun b => (b, b)) (free_usdt account_info).
Proof.
  unfold free_usdt.
  induction account_info as [|[asset free] rest IH]; cbn [filter find map fst snd];
    intros Hnd; [reflexivity|].
  inversion Hnd as [|? ? Hnotin Hnd']; subst.
  destruct (String.eqb_spec asset "USDT") as [E|E].
  - subst asset.
    destruct (PrimFloat.ltb PrimFloat.zero free) eqn:Hpos; cbn [find fst snd];
      rewrite ?Hpos; cbn [option_map].
    + rewrite String.eqb_refl. reflexivity.
    + destruct (find _ (filter _ rest)) as [b|] eqn:Hfind; [|reflexivity].
      exfalso. apply find_some in Hfind. destruct Hfind as [Hin Hb].
      apply String.eqb_eq in Hb. apply filter_In in Hin.
      apply Hnotin. rewrite <- Hb. apply in_map. exact (proj1 Hin).
  - destruct (PrimFloat.ltb PrimFloat.zero free); cbn [find fst snd].
    + destruct (String.eqb_spec asset "USDT") as [E'|_]; [contradiction|]. exact (IH Hnd').
    + exact (IH Hnd').
Qed.

Lemma usd_entry_of_balances {X : Type} (client : Client X) (x x1 : X)
    (account_info : list (string * float)) :
  (forall sym y, api_failure_only (fst (get_symbol_ticker client sym y))) ->
  get_account client x = (Ok account_info, x1) ->
  NoDup (map fst account_info) ->
  ~ In "USD" (map fst account_info) ->
  exists balances_in_usd x2,
    get_account_balances client x = (Ok balances_in_usd, x2) /\
    dict_get "USD" balances_in_usd =
      option_map (fun b => (b, b)) (free_usdt account_info) /\
    dict_get "USDT" balances_in_usd = None.
Proof.
  intros Hticker Hacc Hnd Husd.
  rewrite (get_account_balances_loop client x account_info x1 Hacc Hnd).
  destruct (usd_value_loop client Hticker
              (filter (fun balance => PrimFloat.ltb PrimFloat.zero (snd balance)) account_info)
              [] x1) as [d [x2 [Hrun [Hget Hget']]]].
  - apply NoDup_keys_filter. exact Hnd.
  - intros Hin. apply Husd. apply in_map_iff in Hin. destruct Hin as [b [Hb Hin]].
    apply filter_In in Hin. rewrite <- Hb. apply in_map. exact (proj1 Hin).
  - exists d, x2. split; [apply try_except_returns; exact Hrun|]. split.
    + rewrite Hget. cbn [dict_get]. apply find_usdt_positive. exact Hnd.
    + rewrite Hget'. reflexivity.
Qed.

(** [get_account_balances] on an account that lists every asset
    once and none named USD, with a client whose ticker fails only with
    BinanceAPIException: the call returns, whatever the ticker answers
    for the other assets; its "USD" entry is the pair (b, b) of the free
    USDT balance b when that is positive, and is absent otherwise; it
    never has a "USDT" entry. *)
Theorem account_balances_usd_entry {X : Type} (client : Client X) (x x1 : X)
    (account_info : list (string * float)) :
  (forall sym y, api_failure_only (fst (get_symbol_ticker client sym y))) ->
  get_account client x = (Ok account_info, x1) ->
  NoDup (map fst account_info) ->
  ~ In "USD" (map fst account_info) ->
  exists balances_in_usd x2,
    get_account_balances client x = (Ok balances_in_usd, x2) /\
    dict_get "USD" balances_in_usd =
      option_map (fun b => (b, b)) (free_usdt account_info) /\
    dict_get "USDT" balances_in_usd = None.
Proof.
  exact (usd_entry_of_balances client x x1 account_info).
Qed.

Lemma account_balances_usd_entry_witness :
  exists balances_in_usd x2,
    get_account_balances sim_client mixed_account = (Ok balances_in_usd, x2) /\
    dict_get "USD" balances_in_usd =
      option_map (fun b => (b, b))
        (free_usdt [("BTC", 0.5%float); ("USDT", 250%float); ("ETH", 0%float)]) /\
    dict_get "USDT" balances_in_usd = None.
Proof.
  apply (account_balances_usd_entry sim_client mixed_account mixed_account).
  - intros sym y. cbn. destruct (sim_ticker y); cbn; [exact I | reflexivity].
  - reflexivity.
  - cbn. repeat constructor; cbn; intros H;
      repeat (destruct H as [H|H]; [discriminate H|]); exact H.
  - cbn. intros H. repeat (destruct H as [H|H]; [discriminate H|]). exact H.
Defined.

Lemma no_usd_balance_no_entry {X : Type} (client : Client X) (x : X) :
  (forall sym y, api_failure_only (fst (get_symbol_ticker client sym y))) ->
  no_usd_balance client x ->
  exists balances_in_usd x2,
    get_account_balances client x = (Ok balances_in_usd, x2) /\
    dict_get "USD" balances_in_usd = None.
Proof.
  intros Hticker [Hfail | [account_info [Hacc [Hnd [Husd Hfree]]]]].
  - exists [], (snd (get_account client x)). split; [|reflexivity].
    unfold get_account_balances, try_except, bind.
    destruct (get_account client x) as [r x2]. cbn [fst snd] in *. subst r.
    reflexivity.
  - destruct (get_account client x) as [r x1] eqn:Hget. cbn [fst] in Hacc. subst r.
    destruct (usd_entry_of_balances client x x1 account_info Hticker Hget Hnd Husd)
      as [d [x2 [Hrun [Hentry _]]]].
    exists d, x2. split; [exact Hrun|]. rewrite Hentry, Hfree. reflexivity.
Qed.

(** A buy signal on an account without spendable USDT.  When the
    candles show the downtrend and the price is under the minimum buy
    price, and the account query fails with BinanceAPIException or
    shows no positive free USDT, [get_account_balances] returns a dict
    without the key "USD" and [compare_and_buy] raises KeyError on
    [balances["USD"]]: no order is asked for and nothing is written.  In
    the daily script this exception is the one caught, so the sell
    evaluation of that run is skipped. *)
Theorem buy_signal_without_usd_balance {X : Type} (client : Client X)
    (impl : string -> float -> bool -> bool -> SE X (option Order))
    (invest : float) (symbol : string) (w : World X)
    (prices : list (list float)) (x1 : X) (c0 c1 : list float) (Py Pt m : float) :
  get_historical_klines client symbol (env w) = (Ok prices, x1) ->
  nth_error prices 0 = Some c0 -> nth_error c0 4 = Some Py ->
  nth_error prices 1 = Some c1 -> nth_error c1 4 = Some Pt ->
  _get_minimum_buy_price (Open (db w)) = Some m ->
  PrimFloat.ltb (PrimFloat.mul Pt PyFloat.margin) Py = true ->
  PrimFloat.ltb (PrimFloat.mul Pt PyFloat.margin) m = true ->
  (forall sym y, api_failure_only (fst (get_symbol_ticker client sym y))) ->
  no_usd_balance client x1 ->
  exists x2,
    compare_and_buy client impl invest symbol w =
      (Raise KeyError, mkWorld (db w) x2 (calls w)) /\
    daily_cycle client impl invest symbol w =
      (Ok (Some KeyError), mkWorld (db w) x2 (calls w)).
Proof.
  intros Hklines H0 H04 H1 H14 Hmin Hdown Hunder Hticker Hno.
  destruct (no_usd_balance_no_entry client x1 Hticker Hno) as [d [x2 [Hbal Hentry]]].
  assert (Hbuy : compare_and_buy client impl invest symbol w =
                 (Raise KeyError, mkWorld (db w) x2 (calls w))).
  { rewrite (compare_and_buy_unfold client impl invest symbol w prices x1 c0 c1 Py Pt m
               Hklines H0 H04 H1 H14 Hmin).
    rewrite Hdown, Hunder. cbn [andb]. rewrite Hbal, Hentry. reflexivity. }
  exists x2. split; [exact Hbuy|].
  unfold daily_cycle, try_except_all, bind. rewrite Hbuy. reflexivity.
Qed.

Lemma buy_signal_without_usd_balance_witness :
  exists x2,
    compare_and_buy sim_client (execute_order sim_client unit_step_math) 100 "BTCUSDT"
      (mkWorld one_position downtrend_no_account []) =
      (Raise KeyError, mkWorld one_position x2 []) /\
    sim_daily_cycle 100 "BTCUSDT" (mkWorld one_position downtrend_no_account []) =
      (Ok (Some KeyError), mkWorld one_position x2 []).
Proof.
  apply (buy_signal_without_usd_balance sim_client
           (execute_order sim_client unit_step_math) 100 "BTCUSDT"
           (mkWorld one_position downtrend_no_account [])
           [candle 110; candle 98] downtrend_no_account (candle 110) (candle 98)
           110 98 100).
  - reflexivity.
  - reflexivity.
  - reflexivity.
  - reflexivity.
  - reflexivity.
  - vm_compute. reflexivity.
  - vm_compute. reflexivity.
  - vm_compute. reflexivity.
  - intros sym y. cbn. destruct (sim_ticker y); cbn; [exact I | reflexivity].
  - left. reflexivity.
Defined.

(** ** The aggregates over a listing *)

Lemma Prim2SF_zero : Prim2SF PrimFloat.zero = S754_zero false.
Proof. reflexivity. Qed.

Lemma positive_is_not_zero (x : float) :
  PrimFloat.ltb PrimFloat.zero x = true -> PrimFloat.eqb x PrimFloat.zero = false.
Proof.
  rewrite ltb_spec, eqb_spec, Prim2SF_zero.
  destruct (Prim2SF x) as [s|s| |s m e]; cbn; try discriminate; try reflexivity;
    destruct s; cbn; try discriminate; reflexivity.
Qed.

Lemma not_positive_is_leb (x : float) :
  PrimFloat.is_nan x = false ->
  PrimFloat.leb x PrimFloat.zero = negb (PrimFloat.ltb PrimFloat.zero x).
Proof.
  unfold PrimFloat.is_nan. rewrite ltb_spec, leb_spec, eqb_spec, Prim2SF_zero.
  destruct (Prim2SF x) as [s|s| |s m e]; cbn; try discriminate; try reflexivity;
    destruct s; cbn; intros _; reflexivity.
Qed.

Lemma count_disjoint {A : Type} (p q : A -> bool) (xs : list A) :
  (forall x, In x xs -> p x = true -> q x = false) ->
  0 <= KPIs.count p xs /\ 0 <= KPIs.count q xs /\
  KPIs.count p xs + KPIs.count q xs <= Z.of_nat (List.length xs).
Proof.
  unfold KPIs.count. intros Hpq.
  split; [lia|]. split; [lia|].
  induction xs as [|x xs IH]; cbn [filter List.length]; [lia|].
  assert (IH' : Z.of_nat (List.length (filter p xs)) + Z.of_nat (List.length (filter q xs))
                <= Z.of_nat (List.length xs)).
  { apply IH. intros y Hy. apply Hpq. right. exact Hy. }
  pose proof (Hpq x (or_introl eq_refl)) as Hx.
  destruct (p x); [rewrite (Hx eq_refl)|destruct (q x)]; cbn [List.length]; lia.
Qed.

Lemma count_partition {A : Type} (p q : A -> bool) (xs : list A) :
  (forall x, In x xs -> q x = negb (p x)) ->
  KPIs.count p xs + KPIs.count q xs = Z.of_nat (List.length xs).
Proof.
  unfold KPIs.count. intros Hpq.
  induction xs as [|x xs IH]; cbn [filter List.length]; [lia|].
  assert (IH' : Z.of_nat (List.length (filter p xs)) + Z.of_nat (List.length (filter q xs))
                = Z.of_nat (List.length xs)).
  { apply IH. intros y Hy. apply Hpq. right. exact Hy. }
  rewrite (Hpq x (or_introl eq_refl)).
  destruct (p x); cbn [negb List.length]; lia.
Qed.

Section Aggregates.

Variable dm : pyclass.
Variable listing : Store -> list ClosePos.dict.
Hypothesis dm_listing : dict_get "get_closed_positions" dm = Some (CloseListing listing).

Lemma call_listing_of (s : Store) :
  call_close_listing dm "get_closed_positions" s = Ok (listing s).
Proof. unfold call_close_listing, getattr. rewrite dm_listing. reflexivity. Qed.

(** For a data manager that has a method [get_closed_positions]: the
    counts of winning and of losing trades are taken over the same
    listing as the number of operations and never count a trade twice,
    so that their sum is at most the number of operations; the sum is
    that number when no profit of the listing is a NaN. *)
Theorem trade_counts_do_not_overlap :
  forall s : Store,
    exists winning losing total : Z,
      KPIs.get_winning_trades dm s = Ok winning /\
      KPIs.get_losing_trades dm s = Ok losing /\
      KPIs.get_total_operations dm s = Ok total /\
      0 <= winning /\ 0 <= losing /\ winning + losing <= total /\
      ((forall pos, In pos (listing s) -> PrimFloat.is_nan (ClosePos.Profit pos) = false) ->
       winning + losing = total).
Proof.
  intros s.
  unfold KPIs.get_winning_trades, KPIs.get_losing_trades, KPIs.get_total_operations.
  rewrite call_listing_of. cbn [res_bind].
  eexists _, _, _. split; [reflexivity|]. split; [reflexivity|]. split; [reflexivity|].
  destruct (count_disjoint
              (fun pos => PrimFloat.ltb PrimFloat.zero (ClosePos.Profit pos))
              (fun pos => PrimFloat.leb (ClosePos.Profit pos) PrimFloat.zero)
              (listing s)) as [Hw [Hl Hsum]].
  { intros pos _ Hpos. apply ltb_not_leb. exact Hpos. }
  split; [exact Hw|]. split; [exact Hl|]. split; [exact Hsum|].
  intros Hnan. apply count_partition.
  intros pos Hin. apply not_positive_is_leb. apply Hnan. exact Hin.
Qed.

(** For a data manager that has a method [get_closed_positions]: the
    two percentages over the invested amounts return on every store.
    The division of [calculate_total_return] is reached only with a
    total other than zero and that of [get_roi_percentage] only with a
    positive one, so neither raises ZeroDivisionError; without closed
    trades both return the int 0. *)
Theorem percentages_are_guarded :
  forall s : Store,
    (exists v, KPIs.calculate_total_return dm s = Ok v) /\
    (exists v, KPIs.get_roi_percentage dm s = Ok v) /\
    (listing s = [] ->
     KPIs.calculate_total_return dm s = Ok (PyInt 0) /\
     KPIs.get_roi_percentage dm s = Ok (PyInt 0)).
Proof.
  intros s.
  unfold KPIs.calculate_total_return, KPIs.get_roi_percentage, KPIs.get_total_profit,
    KPIs.get_total_investment.
  rewrite call_listing_of. cbn [res_bind].
  destruct (listing s) as [|pos rest] eqn:Hlist.
  - cbn. split; [eexists; reflexivity|]. split; [eexists; reflexivity|].
    intros _. split; reflexivity.
  - split; [|split; [|discriminate]].
    + cbn [map Py.sum Py.eq0].
      destruct (PrimFloat.eqb _ PrimFloat.zero) eqn:Hzero; [eexists; reflexivity|].
      cbn [Py.sub Py.to_float res_bind Py.truediv]. unfold PyFloat.truediv.
      rewrite Hzero. cbn [res_bind Py.mul Py.to_float]. eexists. reflexivity.
    + cbn [map Py.sum Py.gt0 res_bind].
      destruct (PrimFloat.ltb PrimFloat.zero _) eqn:Hpos; [|eexists; reflexivity].
      cbn [Py.truediv Py.to_float res_bind]. unfold PyFloat.truediv.
      rewrite (positive_is_not_zero _ Hpos). cbn [res_bind Py.mul Py.to_float].
      eexists. reflexivity.
Qed.

End Aggregates.

Lemma trade_counts_do_not_overlap_witness :
  dict_get "get_closed_positions" with_get_closed_positions =
    Some (CloseListing get_close_positions) /\
  exists winning losing total : Z,
    KPIs.get_winning_trades with_get_closed_positions small_gain = Ok winning /\
    KPIs.get_losing_trades with_get_closed_positions small_gain = Ok losing /\
    KPIs.get_total_operations with_get_closed_positions small_gain = Ok total /\
    winning + losing <= total.
Proof.
  split; [reflexivity|].
  destruct (trade_counts_do_not_overlap with_get_closed_positions get_close_positions
              eq_refl small_gain)
    as [winning [losing [total [Hw [Hl [Ht [_ [_ [Hsum _]]]]]]]]].
  exists winning, losing, total. repeat split; assumption.
Defined.

Lemma percentages_are_guarded_witness :
  dict_get "get_closed_positions" with_get_closed_positions =
    Some (CloseListing get_close_positions) /\
  (exists v, KPIs.calculate_total_return with_get_closed_positions small_gain = Ok v) /\
  (exists v, KPIs.get_roi_percentage with_get_closed_positions small_gain = Ok v).
Proof.
  split; [reflexivity|].
  destruct (percentages_are_guarded with_get_closed_positions get_close_positions
              eq_refl small_gain) as [H1 [H2 _]].
  split; [exact H1 | exact H2].
Defined.
